(** * The serial-monitor terminal service: tabs, selection and shutdown

  A shallow embedding of
  [src/vs/workbench/parts/maix/serialPort/terminal/common/terminalService.ts]
  (class [TerminalService]) and the properties of its bookkeeping:
  the active tab index, the flattened instance index, tab removal,
  the shutdown veto, and saving and restoring the tab layout.

  The service is a TypeScript class whose methods mutate [this], fire
  events on emitters and may raise.  It is modelled as a state, event
  log and exception monad [M] over the record [TerminalService]. *)

From Stdlib Require Import ZArith Lia Bool.
From Stdlib Require Import Ascii String DecimalString.
From stdpp Require Import base list strings.

Local Open Scope string_scope.
Local Open Scope Z_scope.
Local Open Scope list_scope.

(** ** JavaScript values

  What [JSON.parse] can return, together with [undefined] (the value
  of a missing property or argument).  Numbers are restricted to the
  integers: the service only uses them as lengths and indices.  A
  string is the sequence of its code units, each of them below 256 (a
  character of [ascii]). *)

Module JS.

#[local] Set Warnings "-register-all".

Inductive Value : Type :=
| JUndefined
| JNull
| JBool (b : bool)
| JNum (n : Z)
| JStr (s : string)
| JArr (elems : list Value)
| JObj (props : list (string * Value)).

(** Whether two values are the same value, member by member (this is
    not [===], which on arrays and objects compares references). *)
Fixpoint equal (v w : Value) : bool :=
  match v, w with
  | JUndefined, JUndefined => true
  | JNull, JNull => true
  | JBool a, JBool b => Bool.eqb a b
  | JNum a, JNum b => a =? b
  | JStr a, JStr b => String.eqb a b
  | JArr a, JArr b =>
      (fix elems (l1 l2 : list Value) : bool :=
         match l1, l2 with
         | [], [] => true
         | x :: l1', y :: l2' => equal x y && elems l1' l2'
         | _, _ => false
         end) a b
  | JObj a, JObj b =>
      (fix props (l1 l2 : list (string * Value)) : bool :=
         match l1, l2 with
         | [], [] => true
         | (k, x) :: l1', (k', y) :: l2' =>
             String.eqb k k' && equal x y && props l1' l2'
         | _, _ => false
         end) a b
  | _, _ => false
  end.

(** Errors a call can raise. *)
Inductive Error : Type :=
| TypeError
| SyntaxError
| OutOfRange
| InstanceCreationFailed
| NotFound (terminalId : nat)
| DisposeFailed (terminalId : nat).

(** [a[i]] on an array, for an integer [i]: [None] stands for
    [undefined] (negative index or index past the end). *)
Definition arr_get {A} (a : list A) (i : Z) : option A :=
  if i <? 0 then None else a !! Z.to_nat i.

(** Own property of an object literal. *)
Fixpoint lookup_prop (props : list (string * Value)) (key : string)
  : option Value :=
  match props with
  | [] => None
  | (k, v) :: rest => if String.eqb k key then Some v else lookup_prop rest key
  end.

(** The decimal spelling of an array index, as a property key. *)
Definition index_key (i : nat) : string :=
  NilZero.string_of_uint (Nat.to_uint i).

(** The one-character string [s[i]]. *)
Definition char_at (s : string) (i : nat) : option Value :=
  match String.get i s with
  | Some c => Some (JStr (String c EmptyString))
  | None => None
  end.

Definition or_undefined (o : option Value) : Value :=
  match o with Some v => v | None => JUndefined end.

(** [v.instances]: reading a property of [null] or [undefined]
    raises; neither arrays, strings, numbers nor booleans have a
    property of that name. *)
Definition get_instances (v : Value) : Error + Value :=
  match v with
  | JUndefined | JNull => inl TypeError
  | JObj props => inr (or_undefined (lookup_prop props "instances"))
  | _ => inr JUndefined
  end.

(** [v[i]] for an index [i]. *)
Definition get_index (v : Value) (i : nat) : Error + Value :=
  match v with
  | JUndefined | JNull => inl TypeError
  | JArr elems => inr (or_undefined (elems !! i))
  | JStr s => inr (or_undefined (char_at s i))
  | JObj props => inr (or_undefined (lookup_prop props (index_key i)))
  | JBool _ | JNum _ => inr JUndefined
  end.

(** [v.length]. *)
Definition get_length (v : Value) : Error + Value :=
  match v with
  | JUndefined | JNull => inl TypeError
  | JArr elems => inr (JNum (Z.of_nat (length elems)))
  | JStr s => inr (JNum (Z.of_nat (String.length s)))
  | JObj props => inr (or_undefined (lookup_prop props "length"))
  | JBool _ | JNum _ => inr JUndefined
  end.

Definition isArray (v : Value) : bool :=
  match v with JArr _ => true | _ => false end.

End JS.

Export JS (Value, JUndefined, JNull, JBool, JNum, JStr, JArr, JObj).

(** ** Instances and tabs

  [ISerialPortInstance] and [ISerialPortTab] are interfaces declared
  in [common/terminal.ts]; the service holds references to such
  objects.  A tab changes while it is listed, so its identity
  ([===], [indexOf]) is carried by a reference number, [ref].  An
  instance never changes here, so an instance object is the value it
  holds, its [id] and its launch configuration: two instances are the
  same object when they agree in both.  Two instances that are not
  the same object may still show the same [id]. *)

Module Instance.

Record t : Type := mk {
  id : nat;
  shellLaunchConfig : Value;
}.

(** [===] on instance references: the same object. *)
Definition same (a b : t) : bool :=
  Nat.eqb (id a) (id b) && JS.equal (shellLaunchConfig a) (shellLaunchConfig b).

End Instance.

Module Tab.

Record t : Type := mk {
  ref : nat;
  terminalInstances : list Instance.t;
  activeInstanceIndex : Z;
  visible : bool;
}.

(** [===] on tab references. *)
Definition same (a b : t) : bool := Nat.eqb (ref a) (ref b).

Definition setVisible (v : bool) (tab : t) : t :=
  {| ref := ref tab;
     terminalInstances := terminalInstances tab;
     activeInstanceIndex := activeInstanceIndex tab;
     visible := v |}.

(** Modelled from the spec: the class behind [ISerialPortTab] is not
    part of the sources.  Section 3 of the specification has
    [activeInstanceIndex] index into [instances]; the active instance
    is the one found there, and there is none when the index does not
    designate an element. *)
Definition activeInstance (tab : t) : option Instance.t :=
  JS.arr_get (terminalInstances tab) (activeInstanceIndex tab).

(** Modelled from the spec: the tab's [setActiveInstanceByIndex] is
    not part of the sources.  Section 4.1 has it fail with OutOfRange
    if [i] is not a valid index and otherwise update
    [activeInstanceIndex]. *)
Definition setActiveInstanceByIndex (i : Z) (tab : t) : option t :=
  if (i <? 0) || (Z.of_nat (length (terminalInstances tab)) <=? i)
  then None
  else Some {| ref := ref tab;
               terminalInstances := terminalInstances tab;
               activeInstanceIndex := i;
               visible := visible tab |}.

(** Modelled from the spec: the tab's [split] is not part of the
    sources.  Section 4.1 has it append the new instance to
    [instances] and make it the tab's active instance. *)
Definition split (instance : Instance.t) (tab : t) : t :=
  {| ref := ref tab;
     terminalInstances := terminalInstances tab ++ [instance];
     activeInstanceIndex := Z.of_nat (length (terminalInstances tab));
     visible := visible tab |}.

(** Modelled from the spec: the tab's constructor is not part of the
    sources.  Section 4.2 has [createTerminal] house the new instance
    in a brand-new tab. *)
Definition create (r : nat) (instance : Instance.t) : t :=
  {| ref := r;
     terminalInstances := [instance];
     activeInstanceIndex := 0;
     visible := false |}.

End Tab.

(** ** The service state

    The fields of [TerminalService] that the methods below read or
    write, then the state of the collaborators they consult: the
    configuration, the stored value under [terminal.state] in the
    workspace scope, the id of the panel that is showing, and the
    counters from which new instances and tabs take their identity. *)

Record ITerminalConfig : Type := {
  experimentalRestore : bool;
  confirmOnExit : bool;
}.

Record TerminalService : Type := {
  _terminalTabs : list Tab.t;
  _activeTabIndex : Z;
  _isShuttingDown : bool;
  config : ITerminalConfig;
  storage : option string;
  activePanel : option string;
  nextInstanceId : nat;
  nextTabRef : nat;
}.

Definition with_terminalTabs (f : list Tab.t -> list Tab.t) (s : TerminalService)
  : TerminalService :=
  {| _terminalTabs := f (_terminalTabs s);
     _activeTabIndex := _activeTabIndex s;
     _isShuttingDown := _isShuttingDown s;
     config := config s;
     storage := storage s;
     activePanel := activePanel s;
     nextInstanceId := nextInstanceId s;
     nextTabRef := nextTabRef s |}.

Definition set_activeTabIndex (i : Z) (s : TerminalService) : TerminalService :=
  {| _terminalTabs := _terminalTabs s;
     _activeTabIndex := i;
     _isShuttingDown := _isShuttingDown s;
     config := config s;
     storage := storage s;
     activePanel := activePanel s;
     nextInstanceId := nextInstanceId s;
     nextTabRef := nextTabRef s |}.


Definition set_storage (v : option string) (s : TerminalService) : TerminalService :=
  {| _terminalTabs := _terminalTabs s;
     _activeTabIndex := _activeTabIndex s;
     _isShuttingDown := _isShuttingDown s;
     config := config s;
     storage := v;
     activePanel := activePanel s;
     nextInstanceId := nextInstanceId s;
     nextTabRef := nextTabRef s |}.

Definition fresh_instance_id (s : TerminalService) : TerminalService :=
  {| _terminalTabs := _terminalTabs s;
     _activeTabIndex := _activeTabIndex s;
     _isShuttingDown := _isShuttingDown s;
     config := config s;
     storage := storage s;
     activePanel := activePanel s;
     nextInstanceId := S (nextInstanceId s);
     nextTabRef := nextTabRef s |}.

Definition fresh_tab_ref (s : TerminalService) : TerminalService :=
  {| _terminalTabs := _terminalTabs s;
     _activeTabIndex := _activeTabIndex s;
     _isShuttingDown := _isShuttingDown s;
     config := config s;
     storage := storage s;
     activePanel := activePanel s;
     nextInstanceId := nextInstanceId s;
     nextTabRef := S (nextTabRef s) |}.

(** What a method does to the outside, in the order it does it: the
    events it fires on the service's emitters and the calls it makes on
    instances, the part service and the confirmation prompt. *)
Inductive Event : Type :=
| ActiveTabChanged
| InstancesChanged
| ActiveInstanceChanged (instance : option Instance.t)
| InstanceListeners (terminalId : nat)
| InstanceFocus (terminalId : nat)
| InstanceDispose (terminalId : nat)
| SetPanelHidden
| ShowTerminalCloseConfirmation.

Definition is_ActiveTabChanged (e : Event) : bool :=
  match e with ActiveTabChanged => true | _ => false end.

Definition is_InstancesChanged (e : Event) : bool :=
  match e with InstancesChanged => true | _ => false end.

Definition disposed_id (e : Event) : option nat :=
  match e with InstanceDispose i => Some i | _ => None end.

(** ** The monad of the methods *)

Inductive Outcome (A : Type) : Type :=
| Returns (a : A) (s : TerminalService) (fired : list Event)
| Throws (e : JS.Error) (s : TerminalService) (fired : list Event).

Arguments Returns {A} a s fired.
Arguments Throws {A} e s fired.

Definition M (A : Type) : Type := TerminalService -> Outcome A.

Definition ret {A} (a : A) : M A := fun s => Returns a s [].

Definition bind {A B} (m : M A) (k : A -> M B) : M B := fun s =>
  match m s with
  | Returns a s1 l1 =>
      match k a s1 with
      | Returns b s2 l2 => Returns b s2 (l1 ++ l2)
      | Throws e s2 l2 => Throws e s2 (l1 ++ l2)
      end
  | Throws e s1 l1 => Throws e s1 l1
  end.

Definition throw {A} (e : JS.Error) : M A := fun s => Throws e s [].
Definition fire (e : Event) : M unit := fun s => Returns tt s [e].
Definition gets {A} (f : TerminalService -> A) : M A := fun s => Returns (f s) s [].
Definition modify (f : TerminalService -> TerminalService) : M unit :=
  fun s => Returns tt (f s) [].

Declare Scope service_scope.
Delimit Scope service_scope with service.
Notation "x <- c1 ;; c2" := (bind c1 (fun x => c2))
  (at level 100, c1 at next level, right associativity) : service_scope.
Notation "c1 ;; c2" := (bind c1 (fun _ => c2))
  (at level 100, right associativity) : service_scope.
Local Open Scope service_scope.

Definition when (b : bool) (m : M unit) : M unit := if b then m else ret tt.

Definition lift {A} (r : JS.Error + A) : M A :=
  match r with inl e => throw e | inr a => ret a end.

(** [a.forEach(f)]: the callback runs on the elements in order, and an
    exception raised by it ends the walk. *)
Fixpoint forEach {A} (a : list A) (f : A -> M unit) : M unit :=
  match a with
  | [] => ret tt
  | x :: rest => f x ;; forEach rest f
  end.

(** Where an outcome leaves the service, what it fired, and whether it
    raised. *)
Definition final {A} (o : Outcome A) : TerminalService :=
  match o with Returns _ s _ => s | Throws _ s _ => s end.

Definition fired {A} (o : Outcome A) : list Event :=
  match o with Returns _ _ l => l | Throws _ _ l => l end.

Definition raised {A} (o : Outcome A) : option JS.Error :=
  match o with Returns _ _ _ => None | Throws e _ _ => Some e end.

(** ** The host

    What the service is handed from outside: the id of its panel (a
    constant of [common/terminal.ts]), the JSON codec of the runtime,
    the factory that makes instances, and whether disposing a given
    instance raises. *)

Inductive Creation : Type := Created | NoInstance | CreationRaises.

Class Host : Type := {
  TERMINAL_PANEL_ID : string;
  (** [JSON.parse]: [None] when it raises a SyntaxError. *)
  JSON_parse : string -> option Value;
  JSON_stringify : Value -> string;
  (** ToNumber on strings, arrays and objects; [None] is NaN. *)
  ToNumber : Value -> option Z;
  (** What the factory does with a launch configuration. *)
  createInstance : Value -> Creation;
  (** Whether [dispose()] of the instance with this id raises. *)
  dispose_raises : nat -> bool;
}.

(** ** The methods of [TerminalService] *)

Section Methods.

Context `{host : Host}.

Definition tabs_length (s : TerminalService) : Z :=
  Z.of_nat (length (_terminalTabs s)).

(** Modelled from the spec: [_terminalInstances] is abstract in the
    class.  The glossary has the flattened list be the concatenation of
    all tabs' instance lists in tab order; each read builds it anew. *)
Definition terminalInstances (s : TerminalService) : list Instance.t :=
  concat (map Tab.terminalInstances (_terminalTabs s)).

(** [this._terminalTabs.forEach((t, i) => t.setVisible(i === active))] *)
Definition setVisibleOnly (active : Z) (tabs : list Tab.t) : list Tab.t :=
  imap (fun i t => Tab.setVisible (Z.of_nat i =? active) t) tabs.

(** A method call on the tab object [r]. *)
Definition update_tab (r : nat) (f : Tab.t -> Tab.t) (tabs : list Tab.t)
  : list Tab.t :=
  map (fun t => if Nat.eqb (Tab.ref t) r then f t else t) tabs.

(** [_initInstanceListeners] subscribes the service's emitters to the
    streams of the instance. *)
Definition _initInstanceListeners (instance : option Instance.t) : M unit :=
  match instance with
  | None => throw JS.TypeError
  | Some i => fire (InstanceListeners (Instance.id i))
  end.

(** Modelled from the spec: the instance factory is not part of the
    sources.  Section 6 has [create(launchConfig)] return an instance
    or fail, section 3 gives each instance an id of its own; the
    callers in the class also allow for a missing instance. *)
Definition newInstance (shell : Value) : M (option Instance.t) :=
  match createInstance shell with
  | Created =>
      n <- gets nextInstanceId ;;
      modify fresh_instance_id ;;
      ret (Some (Instance.mk n shell))
  | NoInstance => ret None
  | CreationRaises => throw JS.InstanceCreationFailed
  end.

(** Modelled from the spec: [createTerminal] is abstract in the class.
    Section 4.2 has it construct a new instance through the factory,
    house it in a brand-new tab appended to [tabs], wire the instance's
    notifications and fire "instances changed"; [_restoreTabs] tests
    its result for a missing instance. *)
Definition createTerminal (shell : Value) : M (option Instance.t) :=
  created <- newInstance shell ;;
  match created with
  | None => ret None
  | Some instance =>
      r <- gets nextTabRef ;;
      modify fresh_tab_ref ;;
      modify (with_terminalTabs (fun tabs => tabs ++ [Tab.create r instance])) ;;
      _initInstanceListeners (Some instance) ;;
      fire InstancesChanged ;;
      ret (Some instance)
  end.

Definition getActiveTab : M (option Tab.t) :=
  s <- gets id ;;
  if (_activeTabIndex s <? 0) || (tabs_length s <=? _activeTabIndex s)
  then ret None
  else ret (JS.arr_get (_terminalTabs s) (_activeTabIndex s)).

Definition getActiveInstance : M (option Instance.t) :=
  tab <- getActiveTab ;;
  match tab with
  | None => ret None
  | Some tab => ret (Tab.activeInstance tab)
  end.

Definition hidePanel : M unit :=
  panel <- gets activePanel ;;
  match panel with
  | Some panelId =>
      when (String.eqb panelId TERMINAL_PANEL_ID) (fire SetPanelHidden)
  | None => ret tt
  end.

Definition setActiveTabByIndex (tabIndex : Z) : M unit :=
  len <- gets tabs_length ;;
  if len <=? tabIndex then ret tt
  else
    current <- gets _activeTabIndex ;;
    let didTabChange := negb (current =? tabIndex) in
    modify (set_activeTabIndex tabIndex) ;;
    modify (with_terminalTabs (setVisibleOnly tabIndex)) ;;
    when didTabChange (fire ActiveTabChanged).

(** [this._terminalTabs.indexOf(tab)], counting from [i]. *)
Fixpoint indexOf (tabs : list Tab.t) (tab : Tab.t) (i : Z) : Z :=
  match tabs with
  | [] => -1
  | t :: rest => if Tab.same t tab then i else indexOf rest tab (i + 1)
  end.

Definition is_tab (tab : Tab.t) (o : option Tab.t) : bool :=
  match o with Some t => Tab.same tab t | None => false end.

Definition _removeTab (tab : Tab.t) : M unit :=
  tabs <- gets _terminalTabs ;;
  let index := indexOf tabs tab 0 in
  active <- getActiveTab ;;
  let wasActiveTab := is_tab tab active in
  when (negb (index =? -1))
       (modify (with_terminalTabs (delete (Z.to_nat index)))) ;;
  len <- gets tabs_length ;;
  when (wasActiveTab && (0 <? len))
       (let newIndex := if index <? len then index else len - 1 in
        setActiveTabByIndex newIndex ;;
        instance <- getActiveInstance ;;
        match instance with
        | None => throw JS.TypeError
        | Some i => fire (InstanceFocus (Instance.id i))
        end) ;;
  len <- gets tabs_length ;;
  shuttingDown <- gets _isShuttingDown ;;
  when ((len =? 0) && negb shuttingDown)
       (hidePanel ;;
        fire (ActiveInstanceChanged None)) ;;
  fire InstancesChanged ;;
  when wasActiveTab (fire ActiveTabChanged).

Record Query : Type := {
  q_tab : Tab.t;
  q_tabIndex : Z;
  q_instance : option Instance.t;
  q_localInstanceIndex : Z;
}.

(** The loop of [_getInstanceFromGlobalInstanceIndex], with [tabs] the
    tabs from [currentTabIndex] on. *)
Fixpoint walk (tabs : list Tab.t) (index currentTabIndex : Z) : option Query :=
  match tabs with
  | [] => None
  | tab :: rest =>
      if index <? 0 then None
      else
        let count := Z.of_nat (length (Tab.terminalInstances tab)) in
        if index <? count
        then Some {| q_tab := tab;
                     q_tabIndex := currentTabIndex;
                     q_instance := JS.arr_get (Tab.terminalInstances tab) index;
                     q_localInstanceIndex := index |}
        else walk rest (index - count) (currentTabIndex + 1)
  end.

Definition _getInstanceFromGlobalInstanceIndex (s : TerminalService) (index : Z)
  : option Query :=
  walk (_terminalTabs s) index 0.

(** [query.tab.setActiveInstanceByIndex(i)] *)
Definition tab_setActiveInstanceByIndex (tab : Tab.t) (i : Z) : M unit :=
  match Tab.setActiveInstanceByIndex i tab with
  | None => throw JS.OutOfRange
  | Some _ =>
      modify (with_terminalTabs
                (update_tab (Tab.ref tab)
                   (fun t => default t (Tab.setActiveInstanceByIndex i t))))
  end.

Definition setActiveInstanceByIndex (terminalIndex : Z) : M unit :=
  query <- gets (fun s => _getInstanceFromGlobalInstanceIndex s terminalIndex) ;;
  match query with
  | None => ret tt
  | Some query =>
      tab_setActiveInstanceByIndex (q_tab query) (q_localInstanceIndex query) ;;
      current <- gets _activeTabIndex ;;
      let didTabChange := negb (current =? q_tabIndex query) in
      modify (set_activeTabIndex (q_tabIndex query)) ;;
      modify (with_terminalTabs (setVisibleOnly (q_tabIndex query))) ;;
      when didTabChange (fire ActiveTabChanged)
  end.

Definition setActiveTabToNext : M unit :=
  len <- gets tabs_length ;;
  if len <=? 1 then ret tt
  else
    current <- gets _activeTabIndex ;;
    let newIndex := current + 1 in
    let newIndex := if len <=? newIndex then 0 else newIndex in
    setActiveTabByIndex newIndex.

Definition setActiveTabToPrevious : M unit :=
  len <- gets tabs_length ;;
  if len <=? 1 then ret tt
  else
    current <- gets _activeTabIndex ;;
    let newIndex := current - 1 in
    let newIndex := if newIndex <? 0 then len - 1 else newIndex in
    setActiveTabByIndex newIndex.

Fixpoint _getTabForInstance (tabs : list Tab.t) (instance : Instance.t)
  : option Tab.t :=
  match tabs with
  | [] => None
  | tab :: rest =>
      if existsb (Instance.same instance) (Tab.terminalInstances tab)
      then Some tab
      else _getTabForInstance rest instance
  end.

(** Modelled from the spec: the tab's [split] is not part of the
    sources.  Section 4.1 has it create the instance through the
    factory and take it; here it acts on the tab object [tab]. *)
Definition tab_split (tab : Tab.t) (shellLaunchConfig : Value)
  : M (option Instance.t) :=
  created <- newInstance shellLaunchConfig ;;
  match created with
  | None => ret None
  | Some instance =>
      modify (with_terminalTabs (update_tab (Tab.ref tab) (Tab.split instance))) ;;
      ret (Some instance)
  end.

Definition splitInstance (instanceToSplit : Instance.t) (shellLaunchConfig : Value)
  : M unit :=
  let shellLaunchConfig :=
    match shellLaunchConfig with JUndefined => JObj [] | v => v end in
  tabs <- gets _terminalTabs ;;
  match _getTabForInstance tabs instanceToSplit with
  | None => ret tt
  | Some tab =>
      instance <- tab_split tab shellLaunchConfig ;;
      _initInstanceListeners instance ;;
      fire InstancesChanged ;;
      active <- gets _activeTabIndex ;;
      modify (with_terminalTabs (setVisibleOnly active))
  end.

(** The walk of [_getIndexFromId]: the last position [i] whose instance
    has the id, or what [terminalIndex] held before. *)
Fixpoint scanForId (instances : list Instance.t) (terminalId : nat)
    (i terminalIndex : Z) : Z :=
  match instances with
  | [] => terminalIndex
  | x :: rest =>
      scanForId rest terminalId (i + 1)
        (if Nat.eqb (Instance.id x) terminalId then i else terminalIndex)
  end.

Definition _getIndexFromId (terminalId : nat) : M Z :=
  instances <- gets terminalInstances ;;
  let terminalIndex := scanForId instances terminalId 0 (-1) in
  if terminalIndex =? -1 then throw (JS.NotFound terminalId)
  else ret terminalIndex.

Definition setActiveInstance (terminalInstance : Instance.t) : M unit :=
  i <- _getIndexFromId (Instance.id terminalInstance) ;;
  setActiveInstanceByIndex i.

(** The bound of [for (let i = 1; i < v; i++)]: the loop runs for the
    integers from 1 below ToNumber([v]), and not at all when that is
    NaN. *)
Definition loop_bound (v : Value) : Z :=
  match v with
  | JNum n => n
  | JUndefined => 0
  | JNull => 0
  | JBool b => if b then 1 else 0
  | JStr _ | JArr _ | JObj _ => default 0 (ToNumber v)
  end.

(** The callback of [tabConfigs.forEach] in [_restoreTabs]. *)
Definition restoreTab (tabConfig : Value) : M unit :=
  instances <- lift (JS.get_instances tabConfig) ;;
  first <- lift (JS.get_index instances 0) ;;
  instance <- createTerminal first ;;
  match instance with
  | None => ret tt
  | Some instance =>
      len <- lift (JS.get_length instances) ;;
      forEach (seq 1 (Z.to_nat (loop_bound len) - 1))
        (fun i =>
           shell <- lift (JS.get_index instances i) ;;
           splitInstance instance shell)
  end.

Definition _restoreTabs : M unit :=
  cfg <- gets config ;;
  if negb (experimentalRestore cfg) then ret tt
  else
    tabConfigsJson <- gets storage ;;
    match tabConfigsJson with
    | None => ret tt
    | Some json =>
        if String.eqb json EmptyString then ret tt
        else
          match JSON_parse json with
          | None => throw JS.SyntaxError
          | Some (JArr tabConfigs) => forEach tabConfigs restoreTab
          | Some _ => ret tt
          end
    end.



(** Modelled from the spec: [dispose] of an instance is not part of
    the sources.  Section 6 lists it in the instance contract and
    section 7 allows it to fail; here it is the call and whether it
    raises.  What follows a disposal is the work of the tab class,
    which is not part of the sources either: by section 4.1 the tab
    drops the instance, and a tab left empty signals its own disposal,
    which the constructor wires to [_removeTab].  That reaction is not
    run here, so an instance is still listed after [dispose]; what is
    proved of [_onShutdown] concerns the calls it makes and the value
    it stores, not the tabs it leaves. *)
Definition dispose (instance : Instance.t) : M unit :=
  fire (InstanceDispose (Instance.id instance)) ;;
  when (dispose_raises (Instance.id instance))
       (throw (JS.DisposeFailed (Instance.id instance))).

(** The value [_onShutdown] serializes. *)
Definition tabConfigs (tabs : list Tab.t) : Value :=
  JArr (map (fun tab =>
               JObj [("instances",
                      JArr (map Instance.shellLaunchConfig
                              (Tab.terminalInstances tab)))])
          tabs).

Definition _onShutdown : M unit :=
  cfg <- gets config ;;
  when (experimentalRestore cfg)
       (tabs <- gets _terminalTabs ;;
        modify (set_storage (Some (JSON_stringify (tabConfigs tabs))))) ;;
  instances <- gets terminalInstances ;;
  forEach instances dispose.

End Methods.

(** ** A JSON codec, for running the methods

    [Json.parse] and [Json.stringify] follow [JSON.parse] and
    [JSON.stringify] on the values of [Value]: integers, strings of
    code units below 256, arrays and objects.  [Json.parse] refuses,
    beside the texts that are not JSON, the JSON texts that denote no
    such value: a number that is not an integer, a string with a code
    unit from 256 on. *)

Module Json.

Definition is_ws (c : ascii) : bool :=
  match c with
  | " "%char | "009"%char | "010"%char | "013"%char => true
  | _ => false
  end.

Fixpoint skip_ws (s : list ascii) : list ascii :=
  match s with
  | c :: rest => if is_ws c then skip_ws rest else s
  | [] => []
  end.

Definition hex_of (c : ascii) : option Z :=
  let n := Z.of_nat (nat_of_ascii c) in
  if (48 <=? n) && (n <=? 57) then Some (n - 48)
  else if (97 <=? n) && (n <=? 102) then Some (n - 87)
  else if (65 <=? n) && (n <=? 70) then Some (n - 55)
  else None.

Definition digit_of (c : ascii) : option Z :=
  let n := Z.of_nat (nat_of_ascii c) in
  if (48 <=? n) && (n <=? 57) then Some (n - 48) else None.

Fixpoint digits (s : list ascii) (acc : Z) : Z * list ascii :=
  match s with
  | c :: rest =>
      match digit_of c with
      | Some d => digits rest (10 * acc + d)
      | None => (acc, s)
      end
  | [] => (acc, [])
  end.

(** The fraction after the integer part [m], if there is one: the
    digits read so far as one numeral, and how many of them stand
    after the point. *)
Definition fraction (s : list ascii) (m : Z) : option (Z * Z * list ascii) :=
  match s with
  | "."%char :: rest =>
      match rest with
      | c :: _ =>
          match digit_of c with
          | Some _ =>
              let '(m', rest') := digits rest m in
              Some (m', Z.of_nat (length rest - length rest'), rest')
          | None => None
          end
      | [] => None
      end
  | _ => Some (m, 0, s)
  end.

(** The exponent, if there is one. *)
Definition exponent (s : list ascii) : option (Z * list ascii) :=
  let signed (sign : Z) (rest : list ascii) :=
    match rest with
    | c :: _ =>
        match digit_of c with
        | Some _ => let '(e, rest') := digits rest 0 in Some (sign * e, rest')
        | None => None
        end
    | [] => None
    end in
  match s with
  | "e"%char :: rest | "E"%char :: rest =>
      match rest with
      | "+"%char :: rest' => signed 1 rest'
      | "-"%char :: rest' => signed (-1) rest'
      | _ => signed 1 rest
      end
  | _ => Some (0, s)
  end.

(** [m] times the [k]-th power of ten, when that is an integer. *)
Definition scaled (m k : Z) : option Z :=
  if 0 <=? k then Some (m * 10 ^ k)
  else if m mod 10 ^ (- k) =? 0 then Some (m / 10 ^ (- k))
  else None.

(** [0] or a numeral that does not start with [0], then a fraction and
    an exponent if there are any; the number has to be an integer. *)
Definition natural (s : list ascii) : option (Z * list ascii) :=
  match s with
  | c :: rest =>
      match digit_of c with
      | Some d =>
          let '(n, rest1) := digits rest d in
          let leading_zero := (d =? 0) && negb (length rest1 =? length rest)%nat in
          if leading_zero then None
          else
            match fraction rest1 n with
            | Some (m, places, rest2) =>
                match exponent rest2 with
                | Some (e, rest3) =>
                    match scaled m (e - places) with
                    | Some v => Some (v, rest3)
                    | None => None
                    end
                | None => None
                end
            | None => None
            end
      | None => None
      end
  | [] => None
  end.

Definition number (s : list ascii) : option (Z * list ascii) :=
  match s with
  | "-"%char :: rest =>
      match natural rest with
      | Some (n, rest') => Some (- n, rest')
      | None => None
      end
  | _ => natural s
  end.

(** The characters of a string literal, after its opening quote. *)
Fixpoint chars (s : list ascii) : option (list ascii * list ascii) :=
  match s with
  | [] => None
  | "034"%char :: rest => Some ([], rest)
  | "\"%char :: "u"%char :: h1 :: h2 :: h3 :: h4 :: rest =>
      match hex_of h1, hex_of h2, hex_of h3, hex_of h4, chars rest with
      | Some d1, Some d2, Some d3, Some d4, Some (cs, rest') =>
          let unit := 4096 * d1 + 256 * d2 + 16 * d3 + d4 in
          if unit <? 256
          then Some (ascii_of_nat (Z.to_nat unit) :: cs, rest')
          else None
      | _, _, _, _, _ => None
      end
  | "\"%char :: e :: rest =>
      let unescaped :=
        match e with
        | "034"%char | "\"%char | "/"%char => Some e
        | "b"%char => Some "008"%char
        | "f"%char => Some "012"%char
        | "n"%char => Some "010"%char
        | "r"%char => Some "013"%char
        | "t"%char => Some "009"%char
        | _ => None
        end in
      match unescaped, chars rest with
      | Some c, Some (cs, rest') => Some (c :: cs, rest')
      | _, _ => None
      end
  | c :: rest =>
      if (nat_of_ascii c <? 32)%nat then None
      else match chars rest with
           | Some (cs, rest') => Some (c :: cs, rest')
           | None => None
           end
  end.

Fixpoint expect (word s : list ascii) : option (list ascii) :=
  match word, s with
  | [], _ => Some s
  | w :: word', c :: s' => if Ascii.eqb w c then expect word' s' else None
  | _ :: _, [] => None
  end.

(** A later member of the same name replaces the value of the earlier
    one, in its place. *)
Fixpoint set_prop (props : list (string * Value)) (k : string) (v : Value)
  : list (string * Value) :=
  match props with
  | [] => [(k, v)]
  | (k', v') :: rest =>
      if String.eqb k' k then (k, v) :: rest else (k', v') :: set_prop rest k v
  end.

Fixpoint value (fuel : nat) (s : list ascii) : option (Value * list ascii) :=
  match fuel with
  | O => None
  | S fuel =>
      match skip_ws s with
      | "n"%char :: rest =>
          match expect (list_ascii_of_string "ull") rest with
          | Some rest' => Some (JNull, rest')
          | None => None
          end
      | "t"%char :: rest =>
          match expect (list_ascii_of_string "rue") rest with
          | Some rest' => Some (JBool true, rest')
          | None => None
          end
      | "f"%char :: rest =>
          match expect (list_ascii_of_string "alse") rest with
          | Some rest' => Some (JBool false, rest')
          | None => None
          end
      | "034"%char :: rest =>
          match chars rest with
          | Some (cs, rest') => Some (JStr (string_of_list_ascii cs), rest')
          | None => None
          end
      | "["%char :: rest =>
          match skip_ws rest with
          | "]"%char :: rest' => Some (JArr [], rest')
          | _ =>
              match elements fuel rest with
              | Some (vs, rest') => Some (JArr vs, rest')
              | None => None
              end
          end
      | "{"%char :: rest =>
          match skip_ws rest with
          | "}"%char :: rest' => Some (JObj [], rest')
          | _ =>
              match members fuel rest [] with
              | Some (ps, rest') => Some (JObj ps, rest')
              | None => None
              end
          end
      | s' =>
          match number s' with
          | Some (n, rest) => Some (JNum n, rest)
          | None => None
          end
      end
  end

with elements (fuel : nat) (s : list ascii) : option (list Value * list ascii) :=
  match fuel with
  | O => None
  | S fuel =>
      match value fuel s with
      | Some (v, rest) =>
          match skip_ws rest with
          | ","%char :: rest' =>
              match elements fuel rest' with
              | Some (vs, rest'') => Some (v :: vs, rest'')
              | None => None
              end
          | "]"%char :: rest' => Some ([v], rest')
          | _ => None
          end
      | None => None
      end
  end

with members (fuel : nat) (s : list ascii) (acc : list (string * Value))
  : option (list (string * Value) * list ascii) :=
  match fuel with
  | O => None
  | S fuel =>
      match skip_ws s with
      | "034"%char :: rest =>
          match chars rest with
          | Some (k, rest1) =>
              match skip_ws rest1 with
              | ":"%char :: rest2 =>
                  match value fuel rest2 with
                  | Some (v, rest3) =>
                      let acc' := set_prop acc (string_of_list_ascii k) v in
                      match skip_ws rest3 with
                      | ","%char :: rest4 => members fuel rest4 acc'
                      | "}"%char :: rest4 => Some (acc', rest4)
                      | _ => None
                      end
                  | None => None
                  end
              | _ => None
              end
          | None => None
          end
      | _ => None
      end
  end.

(** On a text that is accepted, at least one character is read in any
    two nested calls of [value], [elements] and [members], so twice
    the length of the text bounds their depth. *)
Definition parse (text : string) : option Value :=
  let s := list_ascii_of_string text in
  match value (S (2 * length s)) s with
  | Some (v, rest) =>
      match skip_ws rest with
      | [] => Some v
      | _ :: _ => None
      end
  | None => None
  end.

(** The lower-case hexadecimal digit of a number below 16. *)
Definition hex_digit (d : nat) : ascii :=
  ascii_of_nat (if (d <? 10)%nat then 48 + d else 87 + d).

(** Quotes, backslashes and the code units below 32 are escaped, the
    latter by their short form or by four hexadecimal digits. *)
Fixpoint quote_chars (s : string) : string :=
  match s with
  | EmptyString => EmptyString
  | String c rest =>
      let rest' := quote_chars rest in
      match c with
      | "034"%char => String "\"%char (String "034"%char rest')
      | "\"%char => String "\"%char (String "\"%char rest')
      | "008"%char => String "\"%char (String "b"%char rest')
      | "012"%char => String "\"%char (String "f"%char rest')
      | "010"%char => String "\"%char (String "n"%char rest')
      | "013"%char => String "\"%char (String "r"%char rest')
      | "009"%char => String "\"%char (String "t"%char rest')
      | _ =>
          let n := nat_of_ascii c in
          if (n <? 32)%nat
          then String "\"%char
                 (String "u"%char
                    (String "0"%char
                       (String "0"%char
                          (String (hex_digit (n / 16))
                             (String (hex_digit (n mod 16)) rest')))))
          else String c rest'
      end
  end.

Definition quote (s : string) : string :=
  String "034"%char (quote_chars s +:+ String "034"%char EmptyString).

Definition join (parts : list string) : string :=
  String.concat "," parts.

(** In an array [undefined] is written [null]; a member whose value is
    [undefined] is left out. *)
Fixpoint stringify (v : Value) : string :=
  match v with
  | JUndefined | JNull => "null"
  | JBool true => "true"
  | JBool false => "false"
  | JNum n => NilZero.string_of_int (Z.to_int n)
  | JStr s => quote s
  | JArr elems => "[" +:+ join (map stringify elems) +:+ "]"
  | JObj props =>
      "{" +:+
      join ((fix go (ps : list (string * Value)) : list string :=
               match ps with
               | [] => []
               | (_, JUndefined) :: rest => go rest
               | (k, x) :: rest => (quote k +:+ ":" +:+ stringify x) :: go rest
               end) props) +:+
      "}"
  end.

End Json.

(** ToNumber, for the host of the examples, on the values
    [loop_bound] leaves to the host.  A string is read when it is
    empty or white space, or a numeral as JSON writes it with white
    space around it; an array when it is empty or holds one such
    element.  The other spellings of a number that JavaScript reads in
    a string (a sign [+], leading zeros, a missing integer part, the
    hexadecimal, octal and binary forms, [Infinity]) are not read. *)
Fixpoint toNumber (v : Value) : option Z :=
  match v with
  | JUndefined => None
  | JNull => Some 0
  | JBool b => Some (if b then 1 else 0)
  | JNum n => Some n
  | JStr s =>
      match Json.skip_ws (list_ascii_of_string s) with
      | [] => Some 0
      | cs =>
          match Json.number cs with
          | Some (n, rest) =>
              match Json.skip_ws rest with [] => Some n | _ :: _ => None end
          | None => None
          end
      end
  | JArr [] => Some 0
  | JArr [x] =>
      match x with
      | JUndefined | JNull => Some 0
      | JBool _ | JObj _ => None
      | JNum _ | JStr _ | JArr _ => toNumber x
      end
  | JArr (_ :: _ :: _) => None
  | JObj _ => None
  end.

(** A host whose factory and instances behave as told. *)
Definition hostWith (creates : Value -> Creation) (raises : nat -> bool) : Host :=
  {| TERMINAL_PANEL_ID := "workbench.panel.terminal";
     JSON_parse := Json.parse;
     JSON_stringify := Json.stringify;
     ToNumber := toNumber;
     createInstance := creates;
     dispose_raises := raises |}.

(** The host in which every creation succeeds and no disposal raises. *)
Definition soundHost : Host := hostWith (fun _ => Created) (fun _ => false).

(** ** Observations *)

(** The state the constructor leaves, no tab having been added yet. *)
Definition initial (cfg : ITerminalConfig) (stored panel : option string)
  : TerminalService :=
  {| _terminalTabs := [];
     _activeTabIndex := 0;
     _isShuttingDown := false;
     config := cfg;
     storage := stored;
     activePanel := panel;
     nextInstanceId := 1;
     nextTabRef := 1 |}.

(** The operations that change the tabs or the selection. *)
Inductive Operation : Type :=
| CreateTerminal (shell : Value)
| SplitInstance (instance : Instance.t) (shell : Value)
| SetActiveTabByIndex (tabIndex : Z)
| SetActiveInstanceByIndex (terminalIndex : Z)
| SetActiveTabToNext
| SetActiveTabToPrevious
| RemoveTab (tab : Tab.t).

Definition perform `{host : Host} (op : Operation) : M unit :=
  match op with
  | CreateTerminal shell => _ <- createTerminal shell ;; ret tt
  | SplitInstance instance shell => splitInstance instance shell
  | SetActiveTabByIndex i => setActiveTabByIndex i
  | SetActiveInstanceByIndex k => setActiveInstanceByIndex k
  | SetActiveTabToNext => setActiveTabToNext
  | SetActiveTabToPrevious => setActiveTabToPrevious
  | RemoveTab tab => _removeTab tab
  end.

(** Invariant I1 of the data model. *)
Definition I1 (s : TerminalService) : Prop :=
  0 <= _activeTabIndex s < tabs_length s \/ _terminalTabs s = [].

(** How many of the fired events satisfy [p]. *)
Fixpoint count (p : Event -> bool) (l : list Event) : nat :=
  match l with
  | [] => O
  | e :: rest => ((if p e then 1 else 0) + count p rest)%nat
  end.

(** The ids of the instances on which [dispose] was called, in order. *)
Definition disposals (l : list Event) : list nat := omap disposed_id l.

(** The tab that [getActiveTab] returns in a state. *)
Definition active_tab (s : TerminalService) : option Tab.t :=
  match getActiveTab s with
  | Returns tab _ _ => tab
  | Throws _ _ _ => None
  end.

(** The launch configurations, tab by tab. *)
Definition layout (tabs : list Tab.t) : list (list Value) :=
  map (fun tab => map Instance.shellLaunchConfig (Tab.terminalInstances tab)) tabs.

(** How many instances the tabs before position [i] hold. *)
Definition instances_before (tabs : list Tab.t) (i : nat) : nat :=
  length (concat (map Tab.terminalInstances (take i tabs))).

(** A stored value that is not a serialized sequence of tab
    descriptors [{ instances: [...] }]: nothing stored, a text that
    [JSON.parse] refuses, or one that parses to something else. *)
Definition is_tab_descriptor (v : Value) : bool :=
  match v with
  | JObj props =>
      match JS.lookup_prop props "instances" with
      | Some (JArr _) => true
      | _ => false
      end
  | _ => false
  end.

Definition is_layout (v : Value) : bool :=
  match v with
  | JArr descriptors => forallb is_tab_descriptor descriptors
  | _ => false
  end.

Definition malformed `{host : Host} (stored : option string) : bool :=
  match stored with
  | None => true
  | Some text =>
      match JSON_parse text with
      | Some v => negb (is_layout v)
      | None => true
      end
  end.


(** A method that, run in [s], returns with [Q] true of its result and
    of the state it leaves. *)
Definition ensures {A} (m : M A) (s : TerminalService)
    (Q : A -> TerminalService -> Prop) : Prop :=
  match m s with
  | Returns a s' _ => Q a s'
  | Throws _ _ _ => False
  end.

(** The calls [_onShutdown] makes when it disposes of [l]. *)
Definition dispose_calls (l : list Instance.t) : list Event :=
  map (fun x => InstanceDispose (Instance.id x)) l.

(** What [_onShutdown] has done when it reaches the disposals. *)
Definition stored_layout `{host : Host} (s : TerminalService) : TerminalService :=
  if experimentalRestore (config s)
  then set_storage (Some (JSON_stringify (tabConfigs (_terminalTabs s)))) s
  else s.

(** The state [setActiveInstanceByIndex] leaves once its index has
    resolved to [q]. *)
Definition select_instance (q : Query) (s : TerminalService) : TerminalService :=
  with_terminalTabs (setVisibleOnly (q_tabIndex q))
    (set_activeTabIndex (q_tabIndex q)
       (with_terminalTabs
          (update_tab (Tab.ref (q_tab q))
             (fun t => default t
                (Tab.setActiveInstanceByIndex (q_localInstanceIndex q) t)))
          s)).

(** The service once [_removeTab] has spliced the tab out, if it was
    there. *)
Definition remaining (tab : Tab.t) (s : TerminalService) : TerminalService :=
  let index := indexOf (_terminalTabs s) tab 0 in
  if index =? -1 then s
  else with_terminalTabs (delete (Z.to_nat index)) s.

(** The index [_removeTab] selects when the tab it removed was active. *)
Definition replacement (tab : Tab.t) (s : TerminalService) : Z :=
  let index := indexOf (_terminalTabs s) tab 0 in
  let len := tabs_length (remaining tab s) in
  if index <? len then index else len - 1.

(** What [hidePanel] asks of the part service. *)
Definition hide_request `{host : Host} (s : TerminalService) : list Event :=
  fired (hidePanel s).

(** A tab without its selection state: its identity and its instances. *)
Definition shape (tab : Tab.t) : nat * list Instance.t :=
  (Tab.ref tab, Tab.terminalInstances tab).

(** Identities taken from the counters [r] and [n] are new to [shapes]. *)
Definition bounded (shapes : list (nat * list Instance.t)) (r n : nat) : Prop :=
  forall o, o ∈ shapes ->
    (o.1 < r)%nat /\ forall x, x ∈ o.2 -> (Instance.id x < n)%nat.

(** The instances the factory makes for [shells], from the id [n] on. *)
Definition numbered (n : nat) (shells : list Value) : list Instance.t :=
  imap (fun j shell => Instance.mk (n + j) shell) shells.

(** The descriptor [_onShutdown] writes for a tab with these launch
    configurations. *)
Definition descriptor (shells : list Value) : Value :=
  JObj [("instances", JArr shells)].

(** ** Sample states *)

Definition shellA : Value := JObj [("name", JStr "a")].
Definition shellB : Value := JObj [("name", JStr "b")].
Definition shellC : Value := JObj [("name", JStr "c"); ("cols", JNum 80)].

Definition sampleConfig : ITerminalConfig :=
  {| experimentalRestore := true; confirmOnExit := true |}.

Definition tabA : Tab.t :=
  Tab.mk 1 [Instance.mk 1 shellA; Instance.mk 2 shellB] 0 true.
Definition tabB : Tab.t :=
  Tab.mk 2 [Instance.mk 3 shellC] 0 false.
Definition tabC : Tab.t :=
  Tab.mk 3 [Instance.mk 4 shellA; Instance.mk 5 shellB; Instance.mk 6 shellC] 1 false.

(** Three tabs of two, one and three instances, the first one active. *)
Definition sample : TerminalService :=
  {| _terminalTabs := [tabA; tabB; tabC];
     _activeTabIndex := 0;
     _isShuttingDown := false;
     config := sampleConfig;
     storage := None;
     activePanel := Some "workbench.panel.terminal";
     nextInstanceId := 7;
     nextTabRef := 4 |}.

(** One tab, active and visible. *)
Definition single : TerminalService :=
  {| _terminalTabs := [tabA];
     _activeTabIndex := 0;
     _isShuttingDown := false;
     config := sampleConfig;
     storage := None;
     activePanel := Some "workbench.panel.terminal";
     nextInstanceId := 3;
     nextTabRef := 2 |}.

(** The first tab of [sample] once its last instance is gone, and the
    service at that moment: the tab is still listed and active. *)
Definition emptied : Tab.t := Tab.mk 1 [] 0 true.

Definition closing : TerminalService :=
  with_terminalTabs (fun _ => [emptied; tabB; tabC]) sample.

(** A service just constructed and about to restore from [stored]. *)
Definition fresh (stored : option string) : TerminalService :=
  initial sampleConfig stored None.

(** A stored text that is no JSON at all, and one that is a sequence
    whose only descriptor has a number where its instances should
    be. *)
Definition notJson : string := "oops".

Definition numberForInstances : string :=
  Json.stringify (JArr [JObj [("instances", JNum 7)]]).

(** A sequence of operations, run in order. *)
Definition run `{host : Host} (ops : list Operation) : M unit :=
  forEach ops perform.

(** Two terminals are created, the second is selected, and the tab of
    the first is removed, as when its only instance is disposed. *)
Definition closeFirstOfTwo : list Operation :=
  [ CreateTerminal shellA;
    CreateTerminal shellB;
    SetActiveTabByIndex 1;
    RemoveTab (Tab.create 1 (Instance.mk 1 shellA)) ].

(** ** Further methods of [TerminalService] *)

(** [this.terminalInstances[this._getIndexFromId(terminalId)]] *)
Definition getInstanceFromId (terminalId : nat) : M (option Instance.t) :=
  instances <- gets terminalInstances ;;
  i <- _getIndexFromId terminalId ;;
  ret (JS.arr_get instances i).

(** [this.terminalInstances[terminalIndex]] *)
Definition getInstanceFromIndex (terminalIndex : Z) : M (option Instance.t) :=
  instances <- gets terminalInstances ;;
  ret (JS.arr_get instances terminalIndex).

(** The callback [showPanel] hands to [setTimeout]: focus the active
    instance, if there is one. *)
Definition focusActiveInstance : M unit :=
  instance <- getActiveInstance ;;
  match instance with
  | Some i => fire (InstanceFocus (Instance.id i))
  | None => ret tt
  end.

(** What [showPanel] has set in motion when its promise completes:
    whether it asked the panel service to open the terminal panel, and
    with which focus flag, and the callback it left with [setTimeout],
    if any. *)
Record Shown : Type := {
  opened : option bool;
  timer : option (M unit);
}.

Definition showPanel `{host : Host} (focus : bool) : M Shown :=
  panel <- gets activePanel ;;
  let showing :=
    match panel with
    | Some panelId => String.eqb panelId TERMINAL_PANEL_ID
    | None => false
    end in
  if negb showing
  then ret {| opened := Some focus;
              timer := if focus then Some focusActiveInstance else None |}
  else ret {| opened := None;
              timer := if focus then Some focusActiveInstance else None |}.

(** Every tab's [visible] flag tells whether the tab is at position
    [active]: the tab there, if there is one, is visible, and no other
    tab is.  With [active] outside the tabs, no tab is visible. *)
Definition only_visible (active : Z) (tabs : list Tab.t) : Prop :=
  forall (k : nat) (t : Tab.t),
    tabs !! k = Some t -> Tab.visible t = (Z.of_nat k =? active).

(** Invariant I4 of the data model: whenever there is a tab, exactly
    one tab is visible, and it is the tab at the active index. *)
Definition I4 (s : TerminalService) : Prop :=
  _terminalTabs s <> [] ->
  0 <= _activeTabIndex s < tabs_length s /\
  only_visible (_activeTabIndex s) (_terminalTabs s).

(** The call whose outcome in state [s] is [o] returned, and left the
    same tabs holding the same instances in the same order. *)
Definition same_tabs {A} (s : TerminalService) (o : Outcome A) : Prop :=
  raised o = None /\
  map shape (_terminalTabs (final o)) = map shape (_terminalTabs s) /\
  terminalInstances (final o) = terminalInstances s.

(** Whether [_restoreTabs] gets an instance for the first launch
    configuration of a stored tab. *)
Definition restorable `{host : Host} (shells : list Value) : bool :=
  match shells with
  | first :: _ =>
      match createInstance first with Created => true | _ => false end
  | [] => false
  end.

(** A factory that gives no instance for the launch configuration
    [null], and a stored layout of three tabs, the second of which
    starts with that configuration. *)
Definition refusesNull (shell : Value) : Creation :=
  match shell with JNull => NoInstance | _ => Created end.

Definition storedConfigs : list (list Value) :=
  [[shellA; shellB]; [JNull; shellA]; [shellC]].

Definition storedText : string :=
  Json.stringify (JArr (map descriptor storedConfigs)).

(** Two tabs, the first active, the second having lost its instances. *)
Definition hollow : TerminalService :=
  with_terminalTabs (fun _ => [tabA; Tab.mk 2 [] 0 false]) sample.

Ltac unfold_m :=
  unfold bind, gets, modify, when, fire, ret, throw, lift in *.

(** * Properties *)

(** ** The same value, the same instance *)

Lemma Value_induction (P : Value -> Prop) :
  P JUndefined -> P JNull -> (forall b, P (JBool b)) -> (forall n, P (JNum n)) ->
  (forall s, P (JStr s)) ->
  (forall elems, Forall P elems -> P (JArr elems)) ->
  (forall props, Forall (fun p => P p.2) props -> P (JObj props)) ->
  forall v, P v.
Proof.
  intros Hu Hn Hb Hz Hs Ha Ho. fix IH 1. intros [| |b|n|s|elems|props].
  - exact Hu.
  - exact Hn.
  - apply Hb.
  - apply Hz.
  - apply Hs.
  - apply Ha. induction elems as [|x elems IHe]; constructor; [apply IH|exact IHe].
  - apply Ho. induction props as [|[k x] props IHp]; constructor;
      [apply IH|exact IHp].
Qed.

Lemma equal_eq (v w : Value) : JS.equal v w = true <-> v = w.
Proof.
  revert w. induction v as [| |b|n|s|elems IH|props IH] using Value_induction;
    intros w; destruct w as [| |b'|n'|s'|elems'|props']; cbn [JS.equal];
    try (split; [discriminate|discriminate]); try (split; reflexivity).
  - rewrite Bool.eqb_true_iff. split; congruence.
  - rewrite Z.eqb_eq. split; congruence.
  - rewrite String.eqb_eq. split; congruence.
  - revert elems'. induction IH as [|x elems Hx _ IHl]; intros [|y elems'];
      try (split; [discriminate|discriminate]); [split; reflexivity|].
    rewrite andb_true_iff, Hx, IHl. split; [intros [-> [= ->]]; reflexivity|].
    intros [= -> ->]. split; reflexivity.
  - revert props'. induction IH as [|[k x] props Hx _ IHl]; intros [|[k' y] props'];
      try (split; [discriminate|discriminate]); [split; reflexivity|].
    cbn [snd] in Hx.
    rewrite !andb_true_iff, String.eqb_eq, Hx, IHl.
    split; [intros [[-> ->] [= ->]]; reflexivity|].
    intros [= -> -> ->]. repeat split; reflexivity.
Qed.

Lemma same_eq (a b : Instance.t) : Instance.same a b = true <-> a = b.
Proof.
  unfold Instance.same. rewrite andb_true_iff, Nat.eqb_eq, equal_eq.
  destruct a as [i v], b as [j w]. cbn. split; [intros [-> ->]; reflexivity|].
  intros [= -> ->]. split; reflexivity.
Qed.

Lemma same_refl (a : Instance.t) : Instance.same a a = true.
Proof. apply same_eq. reflexivity. Qed.

(** ** Reading the selection *)

Lemma getActiveTab_returns (s : TerminalService) :
  getActiveTab s = Returns (active_tab s) s [].
Proof.
  unfold active_tab, getActiveTab. unfold_m. cbn.
  destruct ((_activeTabIndex s <? 0) || (tabs_length s <=? _activeTabIndex s));
    reflexivity.
Qed.

Lemma active_tab_in_range (s : TerminalService) :
  0 <= _activeTabIndex s < tabs_length s ->
  active_tab s = _terminalTabs s !! Z.to_nat (_activeTabIndex s).
Proof.
  intros Hin. unfold active_tab, getActiveTab. unfold_m. cbn.
  destruct (Z.ltb_spec (_activeTabIndex s) 0); [lia|].
  destruct (Z.leb_spec (tabs_length s) (_activeTabIndex s)); [lia|]. cbn.
  unfold JS.arr_get. destruct (Z.ltb_spec (_activeTabIndex s) 0); [lia|reflexivity].
Qed.

Lemma active_tab_out_of_range (s : TerminalService) :
  _activeTabIndex s < 0 \/ tabs_length s <= _activeTabIndex s ->
  active_tab s = None.
Proof.
  intros Hout. unfold active_tab, getActiveTab. unfold_m. cbn.
  destruct (Z.ltb_spec (_activeTabIndex s) 0); cbn; [reflexivity|].
  destruct (Z.leb_spec (tabs_length s) (_activeTabIndex s)); cbn; [reflexivity|lia].
Qed.

Lemma getActiveInstance_returns (s : TerminalService) :
  getActiveInstance s
  = Returns (active_tab s ≫= Tab.activeInstance) s [].
Proof.
  unfold getActiveInstance, bind. rewrite getActiveTab_returns.
  destruct (active_tab s); reflexivity.
Qed.

(** Claim C10.  Reads fail closed.  In every state whose active tab
    index lies outside the tabs, negative included and whether or not
    there are tabs, [getActiveTab] and [getActiveInstance] return
    nothing; they return rather than raise, fire no event and leave the
    service as it was. *)
Theorem reads_fail_closed (s : TerminalService) :
  _activeTabIndex s < 0 \/ tabs_length s <= _activeTabIndex s ->
  getActiveTab s = Returns None s [] /\
  getActiveInstance s = Returns None s [].
Proof.
  intros Hout.
  rewrite getActiveInstance_returns, getActiveTab_returns.
  rewrite (active_tab_out_of_range s Hout). split; reflexivity.
Qed.

Lemma reads_fail_closed_witness :
  (_activeTabIndex (set_activeTabIndex (-1) sample) < 0 \/
   tabs_length (set_activeTabIndex (-1) sample)
   <= _activeTabIndex (set_activeTabIndex (-1) sample)) /\
  getActiveTab (set_activeTabIndex (-1) sample)
  = Returns None (set_activeTabIndex (-1) sample) [] /\
  getActiveInstance (set_activeTabIndex (-1) sample)
  = Returns None (set_activeTabIndex (-1) sample) [].
Proof.
  assert (H : _activeTabIndex (set_activeTabIndex (-1) sample) < 0 \/
              tabs_length (set_activeTabIndex (-1) sample)
              <= _activeTabIndex (set_activeTabIndex (-1) sample))
    by (left; reflexivity).
  split; [exact H|].
  exact (reads_fail_closed (set_activeTabIndex (-1) sample) H).
Defined.

(** ** Selecting a tab *)

Lemma setActiveTabByIndex_past_end (s : TerminalService) (i : Z) :
  tabs_length s <= i -> setActiveTabByIndex i s = Returns tt s [].
Proof.
  intros Hi. unfold setActiveTabByIndex. unfold_m. cbn.
  destruct (Z.leb_spec (tabs_length s) i); [reflexivity|lia].
Qed.

Lemma setActiveTabByIndex_below_end (s : TerminalService) (i : Z) :
  i < tabs_length s ->
  setActiveTabByIndex i s
  = Returns tt
      (with_terminalTabs (setVisibleOnly i) (set_activeTabIndex i s))
      (if _activeTabIndex s =? i then [] else [ActiveTabChanged]).
Proof.
  intros Hi. unfold setActiveTabByIndex. unfold_m. cbn.
  destruct (Z.leb_spec (tabs_length s) i); [lia|]. cbn.
  destruct (_activeTabIndex s =? i); reflexivity.
Qed.

(** Claim C4.  Calling [setActiveTabByIndex] with the index that is
    already active fires no "active tab changed" event, in every
    state; calling it with a different valid index fires exactly
    one. *)
Theorem setActiveTabByIndex_event_count (s : TerminalService) (i : Z) :
  count is_ActiveTabChanged
    (fired (setActiveTabByIndex (_activeTabIndex s) s)) = 0%nat /\
  (0 <= i < tabs_length s -> i <> _activeTabIndex s ->
   count is_ActiveTabChanged (fired (setActiveTabByIndex i s)) = 1%nat).
Proof.
  split.
  - destruct (Z.le_gt_cases (tabs_length s) (_activeTabIndex s)) as [Hge|Hlt].
    + rewrite setActiveTabByIndex_past_end by exact Hge. reflexivity.
    + rewrite setActiveTabByIndex_below_end by lia.
      rewrite Z.eqb_refl. reflexivity.
  - intros Hi Hne. rewrite setActiveTabByIndex_below_end by lia.
    destruct (Z.eqb_spec (_activeTabIndex s) i); [congruence|reflexivity].
Qed.

Lemma setActiveTabByIndex_event_count_witness :
  0 <= 2 < tabs_length sample /\ 2 <> _activeTabIndex sample /\
  count is_ActiveTabChanged (fired (setActiveTabByIndex 2 sample)) = 1%nat.
Proof.
  assert (Hi : 0 <= 2 < tabs_length sample) by (split; reflexivity || discriminate).
  assert (Hne : 2 <> _activeTabIndex sample) by discriminate.
  split; [exact Hi|]. split; [exact Hne|].
  exact (proj2 (setActiveTabByIndex_event_count sample 2) Hi Hne).
Defined.

(** An index at or past the end is ignored: the call returns, fires
    nothing and leaves the whole service, the tabs' visibility
    included, as it was. *)
Lemma setActiveTabByIndex_ignores_past_end (s : TerminalService) (i : Z) :
  tabs_length s <= i ->
  final (setActiveTabByIndex i s) = s /\ fired (setActiveTabByIndex i s) = [].
Proof.
  intros Hi. rewrite setActiveTabByIndex_past_end by exact Hi. split; reflexivity.
Qed.

(** A negative index is below the end, so the guard lets it through:
    it becomes the active index and no tab is left visible. *)
Lemma setActiveTabByIndex_takes_negative (s : TerminalService) (i : Z) :
  i < 0 ->
  _activeTabIndex (final (setActiveTabByIndex i s)) = i /\
  (forall t, t ∈ _terminalTabs (final (setActiveTabByIndex i s)) ->
             Tab.visible t = false).
Proof.
  intros Hneg.
  assert (Hlen : 0 <= tabs_length s) by (unfold tabs_length; lia).
  rewrite setActiveTabByIndex_below_end by lia. cbn. split; [reflexivity|].
  intros t [k [y [-> Hy]]]%elem_of_lookup_imap. cbn.
  destruct (Z.eqb_spec (Z.of_nat k) i); [lia|reflexivity].
Qed.

(** Claim C5, on the code.  With one tab, active and visible,
    [setActiveTabByIndex(-1)] is not ignored: the active index becomes
    -1, the tab is hidden, "active tab changed" fires, and afterwards
    there is no active tab although there is a tab. *)
Theorem setActiveTabByIndex_negative_not_ignored :
  _activeTabIndex single = 0 /\
  map Tab.visible (_terminalTabs single) = [true] /\
  setActiveTabByIndex (-1) single
  = Returns tt
      (with_terminalTabs (map (Tab.setVisible false)) (set_activeTabIndex (-1) single))
      [ActiveTabChanged] /\
  active_tab (final (setActiveTabByIndex (-1) single)) = None.
Proof. repeat split. Qed.

(** ** The shutdown latch *)

Section Latch.

Context `{host : Host}.

























End Latch.


(** ** Disposal on shutdown *)

Section Disposal.

Context `{host : Host}.

Lemma disposals_dispose_calls (l : list Instance.t) :
  disposals (dispose_calls l) = map Instance.id l.
Proof. induction l as [|x l IH]; cbn; [reflexivity|]. f_equal. exact IH. Qed.

Lemma forEach_dispose_all (l : list Instance.t) (s : TerminalService) :
  (forall x, x ∈ l -> dispose_raises (Instance.id x) = false) ->
  forEach l dispose s = Returns tt s (dispose_calls l).
Proof.
  induction l as [|x l IH]; intros Hok; cbn; [reflexivity|].
  unfold bind at 1. unfold dispose at 1. unfold_m.
  rewrite (Hok x) by constructor. cbn.
  rewrite IH by (intros y Hy; apply Hok; constructor; exact Hy). reflexivity.
Qed.

Lemma forEach_dispose_stops (pre post : list Instance.t) (x : Instance.t)
    (s : TerminalService) :
  (forall y, y ∈ pre -> dispose_raises (Instance.id y) = false) ->
  dispose_raises (Instance.id x) = true ->
  forEach (pre ++ x :: post) dispose s
  = Throws (JS.DisposeFailed (Instance.id x)) s (dispose_calls (pre ++ [x])).
Proof.
  induction pre as [|y pre IH]; intros Hok Hbad; cbn.
  - unfold bind at 1. unfold dispose at 1. unfold_m. rewrite Hbad. reflexivity.
  - unfold bind at 1. unfold dispose at 1. unfold_m.
    rewrite (Hok y) by constructor. cbn.
    rewrite IH by (auto; intros z Hz; apply Hok; constructor; exact Hz).
    reflexivity.
Qed.

Lemma onShutdown_unfold (s : TerminalService) :
  _onShutdown s = forEach (terminalInstances s) dispose (stored_layout s).
Proof.
  unfold _onShutdown, stored_layout. unfold bind at 1 2. unfold_m. cbn.
  destruct (experimentalRestore (config s)); cbn;
    destruct (forEach _ dispose _); reflexivity.
Qed.

(** Claim C7, as the code has it.  [_onShutdown] calls [dispose] on the
    tracked instances in flattened order.  When no disposal raises,
    every instance is disposed and the method returns.  When the
    instance at position [k] is the first whose disposal raises, the
    instances up to and including it have had [dispose] called, the
    failure leaves [_onShutdown], and the instances after position [k]
    are not disposed. *)
Theorem onShutdown_disposal_order (s : TerminalService) :
  ((forall x, x ∈ terminalInstances s -> dispose_raises (Instance.id x) = false) ->
   raised (_onShutdown s) = None /\
   disposals (fired (_onShutdown s)) = map Instance.id (terminalInstances s)) /\
  (forall (k : nat) (x : Instance.t),
     terminalInstances s !! k = Some x ->
     dispose_raises (Instance.id x) = true ->
     (forall y, y ∈ take k (terminalInstances s) ->
                dispose_raises (Instance.id y) = false) ->
     raised (_onShutdown s) = Some (JS.DisposeFailed (Instance.id x)) /\
     disposals (fired (_onShutdown s))
     = map Instance.id (take (S k) (terminalInstances s))).
Proof.
  split.
  - intros Hok. rewrite onShutdown_unfold, forEach_dispose_all by exact Hok.
    cbn. split; [reflexivity|apply disposals_dispose_calls].
  - intros k x Hk Hbad Hok. rewrite onShutdown_unfold.
    rewrite <- (take_drop_middle _ _ _ Hk) at 1 2.
    rewrite forEach_dispose_stops by assumption. cbn.
    split; [reflexivity|]. rewrite disposals_dispose_calls.
    f_equal. symmetry. apply take_S_r. exact Hk.
Qed.

End Disposal.

Lemma onShutdown_disposal_order_witness :
  terminalInstances sample !! 2%nat = Some (Instance.mk 3 shellC) /\
  disposals (fired (_onShutdown (host := hostWith (fun _ => Created) (Nat.eqb 3))
                      sample))
  = map Instance.id (take 3 (terminalInstances sample)).
Proof.
  assert (Hk : terminalInstances sample !! 2%nat = Some (Instance.mk 3 shellC))
    by reflexivity.
  split; [exact Hk|].
  refine (proj2 (proj2 (onShutdown_disposal_order
                          (host := hostWith (fun _ => Created) (Nat.eqb 3)) sample)
                   2%nat (Instance.mk 3 shellC) Hk eq_refl _)).
  intros y Hy. cbn in Hy.
  apply elem_of_cons in Hy as [->|Hy]; [reflexivity|].
  apply elem_of_cons in Hy as [->|Hy]; [reflexivity|].
  apply elem_of_nil in Hy. destruct Hy.
Defined.

(** Claim C7, as stated, fails.  Of the six instances of [sample], let
    the third raise when disposed: [_onShutdown] raises with it and the
    last three instances are never disposed. *)
Lemma onShutdown_failure_blocks_the_rest :
  map Instance.id (terminalInstances sample) = [1; 2; 3; 4; 5; 6]%nat /\
  raised (_onShutdown (host := hostWith (fun _ => Created) (Nat.eqb 3)) sample)
  = Some (JS.DisposeFailed 3) /\
  disposals (fired (_onShutdown (host := hostWith (fun _ => Created) (Nat.eqb 3))
                      sample))
  = [1; 2; 3]%nat.
Proof. repeat split. Qed.

(** ** Restoring the layout *)

Section Restore.

Context `{host : Host}.

(** Claim C8, as the code has it.  When nothing is stored, when the
    stored text is empty, or when it parses to a value that is not an
    array, [_restoreTabs] returns without raising, fires nothing and
    leaves the service, its tabs and the instance counter included, as
    it was. *)
Theorem restoreTabs_ignores_non_sequence (s : TerminalService) :
  (storage s = None \/ storage s = Some EmptyString \/
   exists text v, storage s = Some text /\ JSON_parse text = Some v /\
                  JS.isArray v = false) ->
  _restoreTabs s = Returns tt s [].
Proof.
  intros Hstored. unfold _restoreTabs. unfold_m. cbn.
  destruct (experimentalRestore (config s)); cbn; [|reflexivity].
  destruct Hstored as [-> | [-> | (text & v & -> & Hparse & Hnot)]];
    [reflexivity|reflexivity|].
  destruct (String.eqb text EmptyString); [reflexivity|].
  rewrite Hparse. destruct v; try reflexivity. discriminate Hnot.
Qed.

(** With the restore feature off the stored value is not even read. *)
Lemma restoreTabs_disabled (s : TerminalService) :
  experimentalRestore (config s) = false -> _restoreTabs s = Returns tt s [].
Proof.
  intros Hoff. unfold _restoreTabs. unfold_m. cbn. rewrite Hoff. reflexivity.
Qed.

End Restore.

Lemma restoreTabs_ignores_non_sequence_witness :
  (exists text v, storage (fresh (Some "{}")) = Some text /\
                  JSON_parse (Host := soundHost) text = Some v /\
                  JS.isArray v = false) /\
  _restoreTabs (host := soundHost) (fresh (Some "{}"))
  = Returns tt (fresh (Some "{}")) [].
Proof.
  assert (H : exists text v, storage (fresh (Some "{}")) = Some text /\
                             JSON_parse (Host := soundHost) text = Some v /\
                             JS.isArray v = false).
  { exists "{}", (JObj []). repeat split. }
  split; [exact H|].
  apply (restoreTabs_ignores_non_sequence (host := soundHost)).
  right. right. exact H.
Defined.

(** Claim C8, as stated, fails.  A stored text that is not JSON makes
    [_restoreTabs] raise the SyntaxError of [JSON.parse]; a stored
    sequence whose descriptor has a number for its instances makes it
    create a tab with an instance. *)
Lemma restoreTabs_malformed_not_ignored :
  malformed (host := soundHost) (Some notJson) = true /\
  raised (_restoreTabs (host := soundHost) (fresh (Some notJson)))
  = Some JS.SyntaxError /\
  malformed (host := soundHost) (Some numberForInstances) = true /\
  raised (_restoreTabs (host := soundHost) (fresh (Some numberForInstances)))
  = None /\
  layout (_terminalTabs
            (final (_restoreTabs (host := soundHost)
                      (fresh (Some numberForInstances)))))
  = [[JUndefined]].
Proof. repeat split. Qed.

(** ** The flattened instance index *)

Lemma arr_get_of_nat {A} (l : list A) (j : nat) :
  JS.arr_get l (Z.of_nat j) = l !! j.
Proof.
  unfold JS.arr_get. destruct (Z.ltb_spec (Z.of_nat j) 0); [lia|].
  rewrite Nat2Z.id. reflexivity.
Qed.

Lemma instances_before_0 (tabs : list Tab.t) : instances_before tabs 0 = 0%nat.
Proof. unfold instances_before. rewrite take_0. reflexivity. Qed.

Lemma instances_before_S (tab : Tab.t) (tabs : list Tab.t) (i : nat) :
  instances_before (tab :: tabs) (S i)
  = (length (Tab.terminalInstances tab) + instances_before tabs i)%nat.
Proof. unfold instances_before. cbn. apply length_app. Qed.

Lemma walk_resolves (tabs : list Tab.t) (c : Z) (i j : nat) (t : Tab.t) :
  tabs !! i = Some t -> (j < length (Tab.terminalInstances t))%nat ->
  walk tabs (Z.of_nat (instances_before tabs i + j)) c
  = Some {| q_tab := t;
            q_tabIndex := c + Z.of_nat i;
            q_instance := Tab.terminalInstances t !! j;
            q_localInstanceIndex := Z.of_nat j |}.
Proof.
  revert c i. induction tabs as [|tab tabs IH]; intros c i Hi Hj; [discriminate Hi|].
  destruct i as [|i]; cbn [walk].
  - injection Hi as ->. rewrite instances_before_0. cbn [Nat.add].
    destruct (Z.ltb_spec (Z.of_nat j) 0); [lia|].
    destruct (Z.ltb_spec (Z.of_nat j) (Z.of_nat (length (Tab.terminalInstances t))));
      [|lia].
    rewrite arr_get_of_nat, Z.add_0_r. reflexivity.
  - cbn in Hi. rewrite instances_before_S.
    set (n := length (Tab.terminalInstances tab)).
    destruct (Z.ltb_spec (Z.of_nat (n + instances_before tabs i + j)) 0); [lia|].
    destruct (Z.ltb_spec (Z.of_nat (n + instances_before tabs i + j)) (Z.of_nat n));
      [lia|].
    replace (Z.of_nat (n + instances_before tabs i + j) - Z.of_nat n)
      with (Z.of_nat (instances_before tabs i + j)) by lia.
    rewrite (IH (c + 1) i Hi Hj). do 2 f_equal. lia.
Qed.

Lemma walk_past_end (tabs : list Tab.t) (c k : Z) :
  Z.of_nat (length (concat (map Tab.terminalInstances tabs))) <= k ->
  walk tabs k c = None.
Proof.
  revert c k. induction tabs as [|tab tabs IH]; intros c k Hk; [reflexivity|].
  cbn in Hk. rewrite length_app in Hk. cbn [walk].
  destruct (k <? 0); [reflexivity|].
  destruct (Z.ltb_spec k (Z.of_nat (length (Tab.terminalInstances tab)))); [lia|].
  apply IH. lia.
Qed.


Lemma setActiveInstanceByIndex_found (s : TerminalService) (k : Z) (q : Query) :
  walk (_terminalTabs s) k 0 = Some q ->
  0 <= q_localInstanceIndex q < Z.of_nat (length (Tab.terminalInstances (q_tab q))) ->
  setActiveInstanceByIndex k s
  = Returns tt (select_instance q s)
      (if _activeTabIndex s =? q_tabIndex q then [] else [ActiveTabChanged]).
Proof.
  intros Hwalk Hlocal.
  assert (Hset : is_Some (Tab.setActiveInstanceByIndex (q_localInstanceIndex q)
                            (q_tab q))).
  { unfold Tab.setActiveInstanceByIndex.
    destruct (Z.ltb_spec (q_localInstanceIndex q) 0); [lia|].
    destruct (Z.leb_spec (Z.of_nat (length (Tab.terminalInstances (q_tab q))))
                (q_localInstanceIndex q)); [lia|].
    cbn. eauto. }
  destruct Hset as [t' Hset].
  unfold setActiveInstanceByIndex, _getInstanceFromGlobalInstanceIndex,
    tab_setActiveInstanceByIndex.
  unfold bind at 1. unfold gets at 1. rewrite Hwalk.
  unfold bind at 1. rewrite Hset. unfold_m. cbn.
  destruct (_activeTabIndex s =? q_tabIndex q); reflexivity.
Qed.

Lemma setActiveInstanceByIndex_not_found (s : TerminalService) (k : Z) :
  walk (_terminalTabs s) k 0 = None ->
  setActiveInstanceByIndex k s = Returns tt s [].
Proof.
  intros Hwalk.
  unfold setActiveInstanceByIndex, _getInstanceFromGlobalInstanceIndex.
  unfold_m. cbn. rewrite Hwalk. reflexivity.
Qed.

(** Claim C2.  Flattened-index resolution.  Let the tabs hold any
    numbers of instances, let [t] be the tab at position [i] and [j] a
    position in its instance list.  [setActiveInstanceByIndex], given
    the number of instances in the tabs before [i] plus [j], returns
    with [i] as the active tab index and with the instance at [j] of
    that tab as the tab's active instance, the tab's instances being
    what they were.  Given an index at or beyond the total number of
    instances it returns having changed and fired nothing. *)
Theorem setActiveInstanceByIndex_resolves (s : TerminalService) (i j : nat)
    (t : Tab.t) (beyond : Z) :
  (_terminalTabs s !! i = Some t -> (j < length (Tab.terminalInstances t))%nat ->
   let o := setActiveInstanceByIndex
              (Z.of_nat (instances_before (_terminalTabs s) i + j)) s in
   raised o = None /\
   _activeTabIndex (final o) = Z.of_nat i /\
   exists t',
     _terminalTabs (final o) !! i = Some t' /\
     active_tab (final o) = Some t' /\
     Tab.ref t' = Tab.ref t /\
     Tab.terminalInstances t' = Tab.terminalInstances t /\
     Tab.activeInstanceIndex t' = Z.of_nat j /\
     Tab.activeInstance t' = Tab.terminalInstances t !! j) /\
  (Z.of_nat (length (terminalInstances s)) <= beyond ->
   setActiveInstanceByIndex beyond s = Returns tt s []).
Proof.
  split.
  - intros Hi Hj o. subst o.
    rewrite (setActiveInstanceByIndex_found _ _ _ (walk_resolves _ 0 i j t Hi Hj))
      by (cbn; lia).
    cbn [raised final]. split; [reflexivity|]. split; [reflexivity|].
    assert (Hlook : _terminalTabs (select_instance
              {| q_tab := t; q_tabIndex := 0 + Z.of_nat i;
                 q_instance := Tab.terminalInstances t !! j;
                 q_localInstanceIndex := Z.of_nat j |} s) !! i
            = Some (Tab.mk (Tab.ref t) (Tab.terminalInstances t) (Z.of_nat j) true)).
    { cbn. unfold setVisibleOnly, update_tab.
      rewrite list_lookup_imap, list_lookup_fmap, Hi. cbn.
      rewrite Nat.eqb_refl. unfold Tab.setActiveInstanceByIndex.
      destruct (Z.ltb_spec (Z.of_nat j) 0); [lia|].
      destruct (Z.leb_spec (Z.of_nat (length (Tab.terminalInstances t))) (Z.of_nat j));
        [lia|].
      cbn. unfold Tab.setVisible. cbn. rewrite Z.eqb_refl. reflexivity. }
    eexists. split; [exact Hlook|]. split.
    + rewrite active_tab_in_range.
      * cbn [select_instance with_terminalTabs set_activeTabIndex _activeTabIndex].
        cbn [q_tabIndex]. rewrite Z.add_0_l, Nat2Z.id. exact Hlook.
      * apply lookup_lt_Some in Hlook. cbn in *. unfold tabs_length. cbn. lia.
    + cbn. repeat split. unfold Tab.activeInstance. cbn. apply arr_get_of_nat.
  - intros Hbeyond. apply setActiveInstanceByIndex_not_found.
    apply walk_past_end. exact Hbeyond.
Qed.

Lemma setActiveInstanceByIndex_resolves_witness :
  _terminalTabs sample !! 2%nat = Some tabC /\
  (1 < length (Tab.terminalInstances tabC))%nat /\
  _activeTabIndex (final (setActiveInstanceByIndex 4 sample)) = 2 /\
  (active_tab (final (setActiveInstanceByIndex 4 sample)) ≫= Tab.activeInstance)
  = Some (Instance.mk 5 shellB).
Proof.
  assert (Hi : _terminalTabs sample !! 2%nat = Some tabC) by reflexivity.
  assert (Hj : (1 < length (Tab.terminalInstances tabC))%nat) by (cbn; lia).
  split; [exact Hi|]. split; [exact Hj|].
  destruct (proj1 (setActiveInstanceByIndex_resolves sample 2 1 tabC 0) Hi Hj)
    as (_ & Hindex & t' & _ & Hactive & _ & _ & _ & Hinstance).
  split; [exact Hindex|].
  change (Z.of_nat (instances_before (_terminalTabs sample) 2 + 1)) with 4 in Hactive.
  rewrite Hactive. cbn [mbind option_bind]. rewrite Hinstance. reflexivity.
Defined.

(** ** Removing a tab *)

Section Removal.

Context `{host : Host}.

Lemma hidePanel_returns (s : TerminalService) :
  hidePanel s = Returns tt s (hide_request s).
Proof.
  unfold hide_request, hidePanel. unfold_m. cbn.
  destruct (activePanel s) as [p|]; [|reflexivity].
  destruct (String.eqb p TERMINAL_PANEL_ID); reflexivity.
Qed.

Ltac step := cbv beta iota zeta.

Lemma removeTab_plain (s : TerminalService) (tab : Tab.t) :
  let s1 := remaining tab s in
  let was := is_tab tab (active_tab s) in
  was && (0 <? tabs_length s1) = false ->
  _removeTab tab s
  = Returns tt s1
      ((if (tabs_length s1 =? 0) && negb (_isShuttingDown s1)
        then hide_request s1 ++ [ActiveInstanceChanged None] else [])
       ++ InstancesChanged :: (if was then [ActiveTabChanged] else [])).
Proof.
  intros s1 was Hcase. unfold _removeTab.
  unfold bind, gets. rewrite getActiveTab_returns. fold was.
  unfold when, modify, fire, ret. step.
  subst s1. unfold remaining in *. revert Hcase. step.
  destruct (indexOf (_terminalTabs s) tab 0 =? -1); cbn [negb]; step;
    intros Hcase; rewrite Hcase; step.
  all: match goal with
       | |- context [if ?b then (fun _ => _) else _] => destruct b
       end; step.
  all: rewrite ?hidePanel_returns; step.
  all: destruct was; cbn [app]; rewrite ?app_nil_r, <- ?app_assoc; reflexivity.
Qed.

Lemma remaining_activeTabIndex (s : TerminalService) (tab : Tab.t) :
  _activeTabIndex (remaining tab s) = _activeTabIndex s.
Proof.
  unfold remaining. step.
  destruct (indexOf (_terminalTabs s) tab 0 =? -1); reflexivity.
Qed.

Lemma removeTab_replaces (s : TerminalService) (tab : Tab.t) :
  let s1 := remaining tab s in
  let newIndex := replacement tab s in
  let s2 := with_terminalTabs (setVisibleOnly newIndex)
              (set_activeTabIndex newIndex s1) in
  let changed := if _activeTabIndex s =? newIndex then [] else [ActiveTabChanged] in
  is_tab tab (active_tab s) = true -> 0 < tabs_length s1 ->
  _removeTab tab s
  = match active_tab s2 ≫= Tab.activeInstance with
    | Some i =>
        Returns tt s2
          (changed ++ [InstanceFocus (Instance.id i); InstancesChanged;
                       ActiveTabChanged])
    | None => Throws JS.TypeError s2 changed
    end.
Proof.
  intros s1 newIndex s2 changed Hwas Hlen.
  assert (Hnew : newIndex < tabs_length s1).
  { subst newIndex. unfold replacement. step. fold s1.
    destruct (Z.ltb_spec (indexOf (_terminalTabs s) tab 0) (tabs_length s1)); lia. }
  assert (Hlen2 : tabs_length s2 = tabs_length s1).
  { subst s2. unfold tabs_length, setVisibleOnly. cbn. rewrite length_imap. reflexivity. }
  assert (Hset := setActiveTabByIndex_below_end s1 newIndex Hnew).
  fold s2 in Hset. subst s1. rewrite remaining_activeTabIndex in Hset.
  fold changed in Hset.
  unfold _removeTab.
  unfold bind, gets. rewrite getActiveTab_returns. rewrite Hwas.
  unfold when, modify, fire, ret. step.
  unfold replacement in newIndex. unfold remaining in *. revert Hset Hlen Hlen2. step.
  destruct (indexOf (_terminalTabs s) tab 0 =? -1); cbn [negb]; step;
    intros Hset Hlen Hlen2.
  all: match type of Hlen with
       | 0 < ?len => destruct (Z.ltb_spec 0 len) as [Hpos|Hpos]; [|lia]
       end; cbn [andb]; step.
  all: fold newIndex; rewrite Hset; step.
  all: rewrite getActiveInstance_returns; step.
  all: destruct (active_tab s2 ≫= Tab.activeInstance) as [i|]; step;
    unfold throw; step; rewrite ?app_nil_r; try reflexivity.
  all: rewrite Hlen2.
  all: match type of Hlen with
       | 0 < ?len => destruct (Z.eqb_spec len 0) as [Hz|Hz]; [lia|]
       end; cbn [andb]; step.
  all: cbn [app]; rewrite ?app_nil_r, <- ?app_assoc; reflexivity.
Qed.

Lemma count_app (p : Event -> bool) (l1 l2 : list Event) :
  count p (l1 ++ l2) = (count p l1 + count p l2)%nat.
Proof. induction l1 as [|e l1 IH]; cbn; [reflexivity|]. rewrite IH. lia. Qed.

Lemma hide_request_cases (s : TerminalService) :
  hide_request s = [] \/ hide_request s = [SetPanelHidden].
Proof.
  unfold hide_request, hidePanel. unfold_m. cbn.
  destruct (activePanel s) as [p|]; [|left; reflexivity].
  destruct (String.eqb p TERMINAL_PANEL_ID); [right|left]; reflexivity.
Qed.

Lemma hide_request_own_panel (s : TerminalService) :
  activePanel s = Some TERMINAL_PANEL_ID -> hide_request s = [SetPanelHidden].
Proof.
  intros Hp. unfold hide_request, hidePanel. unfold_m. cbn. rewrite Hp.
  rewrite String.eqb_refl. reflexivity.
Qed.

Lemma indexOf_range (tabs : list Tab.t) (tab : Tab.t) (c : Z) :
  0 <= c ->
  indexOf tabs tab c = -1 \/
  c <= indexOf tabs tab c < c + Z.of_nat (length tabs).
Proof.
  revert c. induction tabs as [|t tabs IH]; intros c Hc; cbn [indexOf]; [left; reflexivity|].
  destruct (Tab.same t tab).
  - right. cbn [length]. lia.
  - destruct (IH (c + 1)) as [Hnone|Hin]; [lia|left; exact Hnone|].
    right. cbn [length]. lia.
Qed.

Lemma indexOf_found (tabs : list Tab.t) (tab t : Tab.t) (c : Z) :
  0 <= c -> t ∈ tabs -> Tab.same t tab = true ->
  c <= indexOf tabs tab c < c + Z.of_nat (length tabs).
Proof.
  intros Hc Hin Hsame. revert c Hc.
  induction Hin as [t tabs|t t0 tabs Hin IH]; intros c Hc; cbn [indexOf length].
  - rewrite Hsame. lia.
  - destruct (Tab.same t0 tab); [lia|]. specialize (IH Hsame (c + 1)). lia.
Qed.

Lemma active_tab_Some (s : TerminalService) (t : Tab.t) :
  active_tab s = Some t ->
  0 <= _activeTabIndex s < tabs_length s /\
  _terminalTabs s !! Z.to_nat (_activeTabIndex s) = Some t.
Proof.
  intros Ht.
  destruct (Z.lt_ge_cases (_activeTabIndex s) 0) as [Hneg|Hnn].
  { rewrite active_tab_out_of_range in Ht by lia. discriminate Ht. }
  destruct (Z.le_gt_cases (tabs_length s) (_activeTabIndex s)) as [Hge|Hlt].
  { rewrite active_tab_out_of_range in Ht by lia. discriminate Ht. }
  split; [lia|]. rewrite <- active_tab_in_range by lia. exact Ht.
Qed.

Lemma same_sym (a b : Tab.t) : Tab.same a b = Tab.same b a.
Proof. unfold Tab.same. apply Nat.eqb_sym. Qed.

Lemma was_active_found (s : TerminalService) (tab : Tab.t) :
  is_tab tab (active_tab s) = true ->
  0 <= indexOf (_terminalTabs s) tab 0 < tabs_length s.
Proof.
  intros Hwas. destruct (active_tab s) as [t|] eqn:Hactive; [|discriminate Hwas].
  cbn in Hwas. apply active_tab_Some in Hactive as [_ Hlook].
  apply list_elem_of_lookup_2 in Hlook.
  rewrite same_sym in Hwas.
  pose proof (indexOf_found _ tab t 0 ltac:(lia) Hlook Hwas). unfold tabs_length. lia.
Qed.

Lemma remaining_length (s : TerminalService) (tab : Tab.t) :
  tabs_length (remaining tab s)
  = if indexOf (_terminalTabs s) tab 0 =? -1 then tabs_length s
    else tabs_length s - 1.
Proof.
  unfold remaining. cbv zeta.
  destruct (Z.eqb_spec (indexOf (_terminalTabs s) tab 0) (-1)) as [Hno|Hyes];
    [reflexivity|].
  destruct (indexOf_range (_terminalTabs s) tab 0) as [Hnone|Hin]; [lia|congruence|].
  unfold tabs_length. cbn. rewrite length_delete.
  - lia.
  - apply lookup_lt_is_Some. lia.
Qed.

Lemma remaining_latch (s : TerminalService) (tab : Tab.t) :
  _isShuttingDown (remaining tab s) = _isShuttingDown s.
Proof.
  unfold remaining. cbv zeta.
  destruct (indexOf (_terminalTabs s) tab 0 =? -1); reflexivity.
Qed.

Lemma activeInstance_setVisible (v : bool) (t : Tab.t) :
  Tab.activeInstance (Tab.setVisible v t) = Tab.activeInstance t.
Proof. reflexivity. Qed.

Lemma active_tab_selected (s : TerminalService) (i : Z) :
  0 <= i < tabs_length s ->
  active_tab (with_terminalTabs (setVisibleOnly i) (set_activeTabIndex i s))
  = Tab.setVisible true <$> _terminalTabs s !! Z.to_nat i.
Proof.
  intros Hi. rewrite active_tab_in_range.
  - cbn. unfold setVisibleOnly. rewrite list_lookup_imap.
    destruct (_terminalTabs s !! Z.to_nat i) as [t|]; [|reflexivity]. cbn.
    rewrite Z2Nat.id by lia. rewrite Z.eqb_refl. reflexivity.
  - unfold tabs_length in *. cbn. unfold setVisibleOnly. rewrite length_imap. exact Hi.
Qed.

Lemma replacement_min (s : TerminalService) (tab : Tab.t) :
  replacement tab s
  = Z.min (indexOf (_terminalTabs s) tab 0) (tabs_length (remaining tab s) - 1).
Proof.
  unfold replacement. cbv zeta.
  destruct (Z.ltb_spec (indexOf (_terminalTabs s) tab 0)
              (tabs_length (remaining tab s))); lia.
Qed.

Lemma remaining_tabs (s : TerminalService) (tab : Tab.t) :
  _terminalTabs (remaining tab s)
  = if indexOf (_terminalTabs s) tab 0 =? -1 then _terminalTabs s
    else delete (Z.to_nat (indexOf (_terminalTabs s) tab 0)) (_terminalTabs s).
Proof.
  unfold remaining. cbv zeta.
  destruct (indexOf (_terminalTabs s) tab 0 =? -1); reflexivity.
Qed.

Lemma remaining_panel (s : TerminalService) (tab : Tab.t) :
  activePanel (remaining tab s) = activePanel s.
Proof.
  unfold remaining. cbv zeta.
  destruct (indexOf (_terminalTabs s) tab 0 =? -1); reflexivity.
Qed.

Lemma hide_request_panel (s : TerminalService) :
  hide_request s
  = match activePanel s with
    | Some panelId =>
        if String.eqb panelId TERMINAL_PANEL_ID then [SetPanelHidden] else []
    | None => []
    end.
Proof.
  unfold hide_request, hidePanel. unfold_m. cbn.
  destruct (activePanel s) as [p|]; [|reflexivity].
  destruct (String.eqb p TERMINAL_PANEL_ID); reflexivity.
Qed.

(** Claim C3.  Tab removal.  Let every tab other than the removed one
    have an active instance, let [index] be the position of the
    removed tab in the tabs as they were ([-1] when it is not listed),
    and let [rest] be those tabs with the one at [index] taken out.
    [_removeTab] returns.  If the removed tab was the active one and
    tabs remain, the tabs it leaves are [rest] with only the tab at
    the smaller of [index] and the last index visible, the active
    index is that index, the tab there is the active tab, and its
    active instance is asked to take the focus.
    Otherwise the tabs it leaves are [rest] itself and the active
    index is as it was.  If no tab remains and the service is not
    shutting down, the events are the request to hide the panel (made
    of the part service when the terminal panel is the active one),
    then "active instance changed" with no instance, then "instances
    changed", then "active tab changed" if the removed tab was active.
    "Instances changed" fires exactly once in every case, and "active
    tab changed" fires when the removed tab was the active one and
    does not fire when it was not. *)
Theorem removeTab_postcondition (s : TerminalService) (tab : Tab.t) :
  (forall t, t ∈ _terminalTabs (remaining tab s) ->
             is_Some (Tab.activeInstance t)) ->
  let index := indexOf (_terminalTabs s) tab 0 in
  let wasActiveTab := is_tab tab (active_tab s) in
  let rest := if index =? -1 then _terminalTabs s
              else delete (Z.to_nat index) (_terminalTabs s) in
  let newIndex := Z.min index (Z.of_nat (length rest) - 1) in
  let o := _removeTab tab s in
  raised o = None /\
  (wasActiveTab = true -> rest <> [] ->
   _terminalTabs (final o) = setVisibleOnly newIndex rest /\
   _activeTabIndex (final o) = newIndex /\
   exists t i, rest !! Z.to_nat newIndex = Some t /\
               active_tab (final o) = Some (Tab.setVisible true t) /\
               Tab.activeInstance t = Some i /\
               InstanceFocus (Instance.id i) ∈ fired o) /\
  (wasActiveTab = false \/ rest = [] ->
   _terminalTabs (final o) = rest /\
   _activeTabIndex (final o) = _activeTabIndex s) /\
  (wasActiveTab = true -> _terminalTabs (final o) <> [] ->
   _activeTabIndex (final o) = Z.min index (tabs_length (final o) - 1) /\
   active_tab (final o)
   = _terminalTabs (final o) !! Z.to_nat (Z.min index (tabs_length (final o) - 1)) /\
   is_Some (active_tab (final o))) /\
  (_terminalTabs (final o) = [] -> _isShuttingDown s = false ->
   rest = [] /\
   fired o
   = match activePanel s with
     | Some panelId =>
         if String.eqb panelId TERMINAL_PANEL_ID then [SetPanelHidden] else []
     | None => []
     end
     ++ [ActiveInstanceChanged None; InstancesChanged]
     ++ (if wasActiveTab then [ActiveTabChanged] else [])) /\
  count is_InstancesChanged (fired o) = 1%nat /\
  (wasActiveTab = false -> count is_ActiveTabChanged (fired o) = 0%nat) /\
  (wasActiveTab = true -> (1 <= count is_ActiveTabChanged (fired o))%nat).
Proof.
  intros Hinst index was rest newIndex o.
  set (s1 := remaining tab s).
  assert (Hrest : _terminalTabs s1 = rest) by apply remaining_tabs.
  assert (Hlenrest : tabs_length s1 = Z.of_nat (length rest))
    by (unfold tabs_length; rewrite Hrest; reflexivity).
  destruct (was && (0 <? tabs_length s1)) eqn:Hcase.
  - apply andb_prop in Hcase as [Hwas Hlen]. apply Z.ltb_lt in Hlen.
    pose proof (was_active_found s tab Hwas) as Hfound. fold index in Hfound.
    pose proof (removeTab_replaces s tab Hwas Hlen) as Hrun. cbv zeta in Hrun.
    fold s1 in Hrun.
    assert (Hmin : replacement tab s = newIndex).
    { rewrite replacement_min. fold s1 index. rewrite Hlenrest. reflexivity. }
    rewrite Hmin in Hrun.
    set (s2 := with_terminalTabs (setVisibleOnly newIndex)
                 (set_activeTabIndex newIndex s1)) in *.
    assert (Hlen2 : tabs_length s2 = tabs_length s1).
    { unfold s2, tabs_length, setVisibleOnly. cbn. rewrite length_imap. reflexivity. }
    assert (Hactive : active_tab s2
                      = Tab.setVisible true <$> _terminalTabs s1 !! Z.to_nat newIndex).
    { apply active_tab_selected. unfold newIndex. lia. }
    destruct (_terminalTabs s1 !! Z.to_nat newIndex) as [t'|] eqn:Hlook.
    2:{ apply lookup_ge_None in Hlook. unfold tabs_length, newIndex in *. lia. }
    destruct (Hinst t') as [i Hi].
    { eapply list_elem_of_lookup_2. exact Hlook. }
    change (active_tab s2 = Some (Tab.setVisible true t')) in Hactive.
    rewrite Hactive in Hrun.
    change (Some (Tab.setVisible true t') ≫= Tab.activeInstance)
      with (Tab.activeInstance t') in Hrun.
    rewrite Hi in Hrun. subst o. rewrite Hrun. cbn [raised final fired].
    assert (Htabs2 : _terminalTabs s2 = setVisibleOnly newIndex rest)
      by (rewrite <- Hrest; reflexivity).
    split; [reflexivity|]. split; [|split; [|split; [|split; [|split; [|split]]]]].
    + intros _ _. split; [exact Htabs2|]. split; [reflexivity|].
      exists t', i. rewrite <- Hrest. split; [exact Hlook|].
      split; [exact Hactive|]. split; [exact Hi|].
      apply elem_of_app. right. constructor.
    + intros [Hnot|Hnil]; [fold was in Hwas; congruence|].
      exfalso. rewrite Hnil in Hlenrest. cbn in Hlenrest. lia.
    + intros _ _. rewrite Hlen2, Hlenrest. fold newIndex.
      split; [reflexivity|].
      split; [|rewrite Hactive; eauto].
      rewrite Hactive. cbn. unfold setVisibleOnly.
      rewrite list_lookup_imap, Hlook. cbn.
      rewrite Z2Nat.id by (unfold newIndex; lia). rewrite Z.eqb_refl. reflexivity.
    + intros Hempty. exfalso. unfold tabs_length in Hlen2. rewrite Hempty in Hlen2.
      cbn in Hlen2. fold (tabs_length s1) in Hlen2. lia.
    + rewrite count_app. destruct (_activeTabIndex s =? newIndex); reflexivity.
    + intros Hnot. fold was in Hwas. congruence.
    + intros _. rewrite count_app. cbn. lia.
  - pose proof (removeTab_plain s tab Hcase) as Hrun. cbv zeta in Hrun.
    fold s1 was in Hrun. subst o. rewrite Hrun. cbn [raised final fired].
    split; [reflexivity|]. split; [|split; [|split; [|split; [|split; [|split]]]]].
    + intros Hwas Hne. exfalso. rewrite Hwas in Hcase. cbn in Hcase.
      apply Z.ltb_ge in Hcase. rewrite Hlenrest in Hcase.
      destruct rest; [congruence|cbn in Hcase; lia].
    + intros _. split; [exact Hrest|]. apply remaining_activeTabIndex.
    + intros Hwas Hne. exfalso. rewrite Hwas in Hcase. cbn in Hcase.
      apply Z.ltb_ge in Hcase. unfold tabs_length in Hcase.
      destruct (_terminalTabs s1); [congruence|cbn in Hcase; lia].
    + intros Hempty Hlatch.
      split; [rewrite <- Hrest; exact Hempty|].
      assert (Hzero : tabs_length s1 = 0) by (unfold tabs_length; rewrite Hempty; reflexivity).
      rewrite Hzero. unfold s1 at 1. rewrite remaining_latch, Hlatch. cbn [Z.eqb andb negb].
      rewrite hide_request_panel. unfold s1. rewrite remaining_panel.
      rewrite <- app_assoc. reflexivity.
    + rewrite count_app.
      destruct ((tabs_length s1 =? 0) && negb (_isShuttingDown s1)).
      * rewrite count_app. destruct (hide_request_cases s1) as [-> | ->];
          destruct was; reflexivity.
      * destruct was; reflexivity.
    + intros Hnot. rewrite Hnot. rewrite count_app.
      destruct ((tabs_length s1 =? 0) && negb (_isShuttingDown s1)).
      * rewrite count_app. destruct (hide_request_cases s1) as [-> | ->]; reflexivity.
      * reflexivity.
    + intros Hwas. rewrite Hwas, count_app. cbn. lia.
Qed.
End Removal.

Lemma removeTab_postcondition_witness :
  (forall t, t ∈ _terminalTabs (remaining emptied closing) ->
             is_Some (Tab.activeInstance t)) /\
  is_tab emptied (active_tab closing) = true /\
  _terminalTabs (final (_removeTab (host := soundHost) emptied closing))
  = [Tab.setVisible true tabB; tabC] /\
  _activeTabIndex (final (_removeTab (host := soundHost) emptied closing)) = 0 /\
  count is_InstancesChanged (fired (_removeTab (host := soundHost) emptied closing))
  = 1%nat /\
  _terminalTabs (final (_removeTab (host := soundHost) tabA single)) = [] /\
  fired (_removeTab (host := soundHost) tabA single)
  = [SetPanelHidden; ActiveInstanceChanged None; InstancesChanged; ActiveTabChanged].
Proof.
  assert (Hinst : forall t, t ∈ _terminalTabs (remaining emptied closing) ->
                            is_Some (Tab.activeInstance t)).
  { intros t Ht. cbn in Ht.
    apply elem_of_cons in Ht as [->|Ht]; [cbn; eauto|].
    apply elem_of_cons in Ht as [->|Ht]; [cbn; eauto|].
    apply elem_of_nil in Ht. destruct Ht. }
  assert (Hnone : forall t, t ∈ _terminalTabs (remaining tabA single) ->
                            is_Some (Tab.activeInstance t)).
  { intros t Ht. cbn in Ht. apply elem_of_nil in Ht. destruct Ht. }
  split; [exact Hinst|]. split; [reflexivity|].
  destruct (removeTab_postcondition (host := soundHost) closing emptied Hinst)
    as (_ & Hnew & _ & _ & _ & Hcount & _ & _).
  destruct (Hnew eq_refl) as (Htabs & Hindex & _); [discriminate|].
  split; [exact Htabs|]. split; [exact Hindex|]. split; [exact Hcount|].
  destruct (removeTab_postcondition (host := soundHost) single tabA Hnone)
    as (_ & _ & Hrest & _ & Hempty & _).
  destruct (Hrest (or_intror eq_refl)) as [Htabs1 _].
  split; [exact Htabs1|].
  exact (proj2 (Hempty Htabs1 eq_refl)).
Defined.

(** ** Saving and restoring the layout *)

Section RoundTrip.

Context `{host : Host}.

Lemma ensures_ret {A} (a : A) s (Q : A -> TerminalService -> Prop) :
  Q a s -> ensures (ret a) s Q.
Proof. auto. Qed.

Lemma ensures_bind {A B} (m : M A) (k : A -> M B) s
    (Q : B -> TerminalService -> Prop) :
  ensures m s (fun a s1 => ensures (k a) s1 Q) -> ensures (bind m k) s Q.
Proof.
  unfold ensures, bind. destruct (m s) as [a s1 l1|]; [|auto].
  destruct (k a s1); auto.
Qed.

Lemma ensures_weaken {A} (m : M A) s (Q Q' : A -> TerminalService -> Prop) :
  ensures m s Q -> (forall a s', Q a s' -> Q' a s') -> ensures m s Q'.
Proof. unfold ensures. destruct (m s); auto. Qed.

Lemma ensures_forEach {A} (l : list A) (f : A -> M unit)
    (I : list A -> TerminalService -> Prop) s :
  I [] s ->
  (forall done x rest s1, l = done ++ x :: rest -> I done s1 ->
     ensures (f x) s1 (fun _ s2 => I (done ++ [x]) s2)) ->
  ensures (forEach l f) s (fun _ s' => I l s').
Proof.
  intros Hstart Hstep.
  enough (Hgen : forall rest done s1, l = done ++ rest -> I done s1 ->
             ensures (forEach rest f) s1 (fun _ s' => I l s')).
  { apply (Hgen l [] s); [reflexivity|exact Hstart]. }
  induction rest as [|x rest IH]; intros done s1 Hl Hdone; cbn [forEach].
  - apply ensures_ret. rewrite Hl, app_nil_r. exact Hdone.
  - apply ensures_bind. eapply ensures_weaken; [exact (Hstep done x rest s1 Hl Hdone)|].
    intros [] s2 Hs2. apply (IH (done ++ [x])); [|exact Hs2].
    rewrite <- app_assoc. exact Hl.
Qed.

Lemma shape_setVisibleOnly (active : Z) (tabs : list Tab.t) :
  map shape (setVisibleOnly active tabs) = map shape tabs.
Proof.
  unfold setVisibleOnly. apply list_eq. intros i.
  rewrite !list_lookup_fmap, list_lookup_imap.
  destruct (tabs !! i); reflexivity.
Qed.

Lemma getTabForInstance_last (tabs : list Tab.t) (instance : Instance.t)
    (olds : list (nat * list Instance.t)) (r : nat) (insts : list Instance.t) :
  map shape tabs = olds ++ [(r, insts)] ->
  (forall o, o ∈ olds -> existsb (Instance.same instance) o.2 = false) ->
  existsb (Instance.same instance) insts = true ->
  exists t, _getTabForInstance tabs instance = Some t /\ shape t = (r, insts).
Proof.
  revert tabs. induction olds as [|o olds IH]; intros tabs Hshape Hold Hin.
  - destruct tabs as [|t [|t' tabs]]; try discriminate Hshape.
    injection Hshape as Hr Hi. exists t. cbn. rewrite Hi, Hin.
    split; [reflexivity|]. unfold shape. congruence.
  - destruct tabs as [|t tabs]; [discriminate Hshape|].
    cbn in Hshape. injection Hshape as Ho Hrest. cbn [_getTabForInstance].
    assert (Hno : existsb (Instance.same instance) (Tab.terminalInstances t) = false).
    { rewrite <- (Hold o) by constructor. rewrite <- Ho. reflexivity. }
    rewrite Hno. apply IH; [exact Hrest| |exact Hin].
    intros o' Ho'. apply Hold. constructor. exact Ho'.
Qed.

Lemma update_tab_last (tabs : list Tab.t) (new : Instance.t)
    (olds : list (nat * list Instance.t)) (r : nat) (insts : list Instance.t) :
  map shape tabs = olds ++ [(r, insts)] ->
  (forall o, o ∈ olds -> o.1 <> r) ->
  map shape (update_tab r (Tab.split new) tabs) = olds ++ [(r, insts ++ [new])].
Proof.
  revert tabs. induction olds as [|o olds IH]; intros tabs Hshape Hold.
  - destruct tabs as [|t [|t' tabs]]; try discriminate Hshape.
    injection Hshape as Hr Hi. cbn. rewrite Hr, Nat.eqb_refl. cbn.
    unfold shape. cbn. rewrite Hr, Hi. reflexivity.
  - destruct tabs as [|t tabs]; [discriminate Hshape|].
    cbn in Hshape. injection Hshape as Ho Hrest. cbn [update_tab map].
    assert (Hne : Tab.ref t <> r).
    { intros Heq. apply (Hold o); [constructor|]. rewrite <- Ho. exact Heq. }
    apply Nat.eqb_neq in Hne. rewrite Hne. cbn [app]. f_equal; [exact Ho|].
    apply IH; [exact Hrest|]. intros o' Ho'. apply Hold. constructor. exact Ho'.
Qed.

Lemma createTerminal_appends (shell : Value) (s : TerminalService) :
  createInstance shell = Created ->
  ensures (createTerminal shell) s (fun r s' =>
    r = Some (Instance.mk (nextInstanceId s) shell) /\
    _terminalTabs s'
    = _terminalTabs s
      ++ [Tab.create (nextTabRef s) (Instance.mk (nextInstanceId s) shell)] /\
    nextInstanceId s' = S (nextInstanceId s) /\
    nextTabRef s' = S (nextTabRef s)).
Proof.
  intros Hcreated. unfold ensures, createTerminal, newInstance.
  rewrite Hcreated. unfold_m. cbn. auto.
Qed.

Lemma splitInstance_last (instance : Instance.t) (shell : Value)
    (s : TerminalService) (olds : list (nat * list Instance.t)) (r : nat)
    (insts : list Instance.t) :
  map shape (_terminalTabs s) = olds ++ [(r, insts)] ->
  (forall o, o ∈ olds ->
     o.1 <> r /\ existsb (Instance.same instance) o.2 = false) ->
  existsb (Instance.same instance) insts = true ->
  shell <> JUndefined -> createInstance shell = Created ->
  ensures (splitInstance instance shell) s (fun _ s' =>
    map shape (_terminalTabs s')
    = olds ++ [(r, insts ++ [Instance.mk (nextInstanceId s) shell])] /\
    nextInstanceId s' = S (nextInstanceId s) /\
    nextTabRef s' = nextTabRef s).
Proof.
  intros Hshape Hold Hin Hdef Hcreated.
  destruct (getTabForInstance_last _ instance _ _ _ Hshape) as (t & Hget & Ht);
    [intros o Ho; apply (Hold o Ho)|exact Hin|].
  assert (Hr : Tab.ref t = r) by (unfold shape in Ht; congruence).
  unfold ensures, splitInstance.
  replace (match shell with JUndefined => JObj [] | _ => shell end) with shell
    by (destruct shell; congruence).
  unfold bind at 1. unfold gets at 1. rewrite Hget.
  unfold tab_split, newInstance, _initInstanceListeners. rewrite Hcreated.
  unfold_m. cbv beta iota.
  cbn [_terminalTabs _activeTabIndex nextInstanceId nextTabRef with_terminalTabs
       fresh_instance_id].
  rewrite shape_setVisibleOnly, Hr. split; [|auto].
  apply update_tab_last; [exact Hshape|]. intros o Ho. apply (Hold o Ho).
Qed.

Lemma ensures_lift {A} (r : JS.Error + A) (a : A) s
    (Q : A -> TerminalService -> Prop) :
  r = inr a -> Q a s -> ensures (lift r) s Q.
Proof. intros -> HQ. exact HQ. Qed.

Lemma existsb_same_false (instance : Instance.t) (l : list Instance.t) :
  (forall x, x ∈ l -> Instance.id x <> Instance.id instance) ->
  existsb (Instance.same instance) l = false.
Proof.
  induction l as [|x l IH]; intros Hne; cbn; [reflexivity|].
  rewrite IH by (intros y Hy; apply Hne; constructor; exact Hy).
  unfold Instance.same. rewrite orb_false_r.
  replace (Nat.eqb (Instance.id instance) (Instance.id x)) with false;
    [reflexivity|].
  symmetry. apply Nat.eqb_neq.
  intros Heq. apply (Hne x); [constructor|]. symmetry. exact Heq.
Qed.

Lemma numbered_snoc (n : nat) (shells : list Value) (shell : Value) :
  numbered n (shells ++ [shell])
  = numbered n shells ++ [Instance.mk (n + length shells) shell].
Proof.
  unfold numbered. rewrite imap_app. cbn. rewrite Nat.add_0_r. reflexivity.
Qed.

Lemma split_rest (olds : list (nat * list Instance.t)) (r n0 next : nat)
    (shell0 : Value) (shells : list Value) :
  bounded olds r n0 ->
  (forall c, c ∈ shells -> c <> JUndefined /\ createInstance c = Created) ->
  forall (m k : nat) (s : TerminalService),
    (k + m = length shells)%nat ->
    map shape (_terminalTabs s)
    = olds ++ [(r, numbered n0 (take (S k) (shell0 :: shells)))] ->
    nextInstanceId s = (n0 + S k)%nat -> nextTabRef s = next ->
    ensures
      (forEach (seq (S k) m)
         (fun i =>
            shell <- lift (JS.get_index (JArr (shell0 :: shells)) i) ;;
            splitInstance (Instance.mk n0 shell0) shell))
      s
      (fun _ s' =>
         map shape (_terminalTabs s')
         = olds ++ [(r, numbered n0 (shell0 :: shells))] /\
         nextInstanceId s' = (n0 + S (length shells))%nat /\
         nextTabRef s' = next).
Proof.
  intros Hold Hshells. induction m as [|m IH]; intros k s Hk Hshape Hn Hr.
  - cbn [seq forEach]. apply ensures_ret.
    rewrite take_ge in Hshape by (cbn [length]; lia).
    replace (length shells) with k by lia. auto.
  - cbn [seq forEach].
    destruct (shells !! k) as [c|] eqn:Hc.
    2:{ apply lookup_ge_None in Hc. lia. }
    destruct (Hshells c) as [Hdef Hcreated]; [eapply list_elem_of_lookup_2; exact Hc|].
    apply ensures_bind. apply ensures_bind.
    change (JS.get_index (JArr (shell0 :: shells)) (S k))
      with (@inr JS.Error Value (JS.or_undefined (shells !! k))).
    rewrite Hc. eapply ensures_lift; [reflexivity|].
    cbv beta.
    eapply ensures_weaken.
    + apply (splitInstance_last _ c s olds r _ Hshape); [| |exact Hdef|exact Hcreated].
      * intros o Ho. destruct (Hold o Ho) as [Href Hids]. split; [|].
        -- lia.
        -- apply existsb_same_false. intros x Hx. specialize (Hids x Hx). cbn. lia.
      * unfold numbered. cbn. rewrite Nat.add_0_r, same_refl. reflexivity.
    + intros [] s' (Hshape' & Hn' & Hr'). cbv beta.
      apply (IH (S k)); [lia| |lia|congruence].
      rewrite Hshape'. do 3 f_equal.
      rewrite (take_S_r (shell0 :: shells) (S k) c) by exact Hc.
      rewrite numbered_snoc. rewrite Hn. do 3 f_equal.
      rewrite length_take. cbn [length]. lia.
Qed.

Lemma restoreTab_descriptor (shell : Value) (shells : list Value)
    (s : TerminalService) :
  bounded (map shape (_terminalTabs s)) (nextTabRef s) (nextInstanceId s) ->
  (forall c, c ∈ shell :: shells -> c <> JUndefined /\ createInstance c = Created) ->
  ensures (restoreTab (descriptor (shell :: shells))) s (fun _ s' =>
    map shape (_terminalTabs s')
    = map shape (_terminalTabs s)
      ++ [(nextTabRef s, numbered (nextInstanceId s) (shell :: shells))] /\
    nextInstanceId s' = (nextInstanceId s + S (length shells))%nat /\
    nextTabRef s' = S (nextTabRef s)).
Proof.
  intros Hbounded Hshells. unfold restoreTab.
  apply ensures_bind. eapply ensures_lift; [reflexivity|]. cbv beta.
  apply ensures_bind. eapply ensures_lift; [reflexivity|]. cbv beta.
  apply ensures_bind. eapply ensures_weaken.
  { apply (createTerminal_appends shell s). apply Hshells. constructor. }
  intros r s1 (-> & Htabs & Hn & Hr). cbv beta iota.
  apply ensures_bind. eapply ensures_lift; [reflexivity|]. cbv beta.
  replace (Z.to_nat (loop_bound (JNum (Z.of_nat (length (shell :: shells)))))
           - 1)%nat with (length shells) by (cbn [loop_bound length]; lia).
  apply (split_rest (map shape (_terminalTabs s)) (nextTabRef s) (nextInstanceId s)
           (S (nextTabRef s)) shell shells Hbounded).
  - intros c Hc. apply Hshells. constructor. exact Hc.
  - lia.
  - rewrite Htabs, map_app. cbn. unfold numbered, shape. cbn.
    rewrite Nat.add_0_r. reflexivity.
  - lia.
  - exact Hr.
Qed.

Lemma layout_shapes (tabs : list Tab.t) :
  layout tabs = map (fun o => map Instance.shellLaunchConfig o.2) (map shape tabs).
Proof. unfold layout. rewrite map_map. reflexivity. Qed.

Lemma shells_numbered (n : nat) (shells : list Value) :
  map Instance.shellLaunchConfig (numbered n shells) = shells.
Proof.
  unfold numbered. apply list_eq. intros i.
  rewrite list_lookup_fmap, list_lookup_imap.
  destruct (shells !! i); reflexivity.
Qed.

Lemma restore_all (configs : list (list Value)) (s : TerminalService) :
  (forall shells, shells ∈ configs ->
     shells <> [] /\
     forall c, c ∈ shells -> c <> JUndefined /\ createInstance c = Created) ->
  bounded (map shape (_terminalTabs s)) (nextTabRef s) (nextInstanceId s) ->
  ensures (forEach (map descriptor configs) restoreTab) s (fun _ s' =>
    layout (_terminalTabs s') = layout (_terminalTabs s) ++ configs).
Proof.
  revert s. induction configs as [|shells configs IH]; intros s Hconfigs Hbounded.
  - apply ensures_ret. rewrite app_nil_r. reflexivity.
  - cbn [map forEach]. apply ensures_bind.
    destruct (Hconfigs shells) as [Hne Hshells]; [constructor|].
    destruct shells as [|shell shells]; [congruence|].
    eapply ensures_weaken; [exact (restoreTab_descriptor shell shells s Hbounded Hshells)|].
    intros [] s' (Hshape & Hn & Hr). cbv beta.
    eapply ensures_weaken.
    + apply IH.
      * intros l Hl. apply Hconfigs. constructor. exact Hl.
      * rewrite Hshape, Hn, Hr. intros o Ho.
        apply elem_of_app in Ho as [Ho|Ho].
        -- destruct (Hbounded o Ho) as [Href Hids]. split; [lia|].
           intros x Hx. specialize (Hids x Hx). lia.
        -- apply list_elem_of_singleton in Ho as ->. cbn [fst snd]. split; [lia|].
           unfold numbered. intros x [j [c [-> Hj]]]%elem_of_lookup_imap. cbn.
           apply lookup_lt_Some in Hj. cbn [length] in Hj. lia.
    + intros [] s'' Hlayout. cbv beta in *. rewrite Hlayout.
      rewrite (layout_shapes (_terminalTabs s')), Hshape, map_app.
      rewrite <- layout_shapes. cbn [map snd]. rewrite shells_numbered.
      rewrite <- app_assoc. reflexivity.
Qed.

Lemma ensures_returns {A} (m : M A) s (Q : A -> TerminalService -> Prop) :
  ensures m s Q -> raised (m s) = None /\ exists a, Q a (final (m s)).
Proof.
  unfold ensures. destruct (m s) as [a s' l|]; [|intros []].
  intros HQ. split; [reflexivity|]. exists a. exact HQ.
Qed.

Lemma forEach_dispose_state (l : list Instance.t) (s : TerminalService) :
  final (forEach l dispose s) = s.
Proof.
  induction l as [|x l IH]; cbn [forEach]; [reflexivity|].
  unfold bind at 1. unfold dispose at 1. unfold_m.
  destruct (dispose_raises (Instance.id x)); cbn; [reflexivity|].
  specialize IH. destruct (forEach l dispose s); cbn in *; exact IH.
Qed.

Lemma tabConfigs_descriptors (tabs : list Tab.t) :
  tabConfigs tabs = JArr (map descriptor (layout tabs)).
Proof. unfold tabConfigs, layout. rewrite map_map. reflexivity. Qed.

(** Claim C9.  Restore round trip.  Let [s] be a service whose tabs
    each hold at least one instance, every instance with a launch
    configuration that the factory accepts, and let the JSON codec
    write the layout of [s] as a non-empty text that it reads back as
    the same value.  With the restore feature on, let [_onShutdown] run
    in [s] and let a service without tabs start from the value it
    stored.  Then [_restoreTabs] returns there, and leaves as many tabs
    as [s] had, with the same launch configurations instance by
    instance, in the same order. *)
Theorem restore_round_trip (s restarted : TerminalService) :
  experimentalRestore (config s) = true ->
  experimentalRestore (config restarted) = true ->
  _terminalTabs restarted = [] ->
  storage restarted = storage (final (_onShutdown s)) ->
  (forall tab, tab ∈ _terminalTabs s -> Tab.terminalInstances tab <> []) ->
  (forall tab x, tab ∈ _terminalTabs s -> x ∈ Tab.terminalInstances tab ->
     Instance.shellLaunchConfig x <> JUndefined /\
     createInstance (Instance.shellLaunchConfig x) = Created) ->
  JSON_stringify (tabConfigs (_terminalTabs s)) <> EmptyString ->
  JSON_parse (JSON_stringify (tabConfigs (_terminalTabs s)))
  = Some (tabConfigs (_terminalTabs s)) ->
  raised (_restoreTabs restarted) = None /\
  layout (_terminalTabs (final (_restoreTabs restarted)))
  = layout (_terminalTabs s).
Proof.
  intros Hon Hon' Hempty Hstored Hnonempty Hshells Htext Hparse.
  assert (Hsaved : storage restarted
                   = Some (JSON_stringify (tabConfigs (_terminalTabs s)))).
  { rewrite Hstored, onShutdown_unfold, forEach_dispose_state.
    unfold stored_layout. rewrite Hon. reflexivity. }
  assert (Hrun : _restoreTabs restarted
                 = forEach (map descriptor (layout (_terminalTabs s))) restoreTab
                     restarted).
  { unfold _restoreTabs. unfold bind at 1. unfold gets at 1. rewrite Hon'.
    cbn [negb]. unfold bind at 1. unfold gets at 1. rewrite Hsaved.
    apply String.eqb_neq in Htext. rewrite Htext, Hparse, tabConfigs_descriptors.
    destruct (forEach _ restoreTab restarted); reflexivity. }
  rewrite Hrun.
  assert (Hall : ensures
            (forEach (map descriptor (layout (_terminalTabs s))) restoreTab)
            restarted
            (fun _ s' => layout (_terminalTabs s')
                         = layout (_terminalTabs restarted)
                           ++ layout (_terminalTabs s))).
  { apply restore_all.
    - intros shells [tab [-> Htab]]%list_elem_of_fmap. split.
      + intros Hnil. apply fmap_nil_inv in Hnil. exact (Hnonempty tab Htab Hnil).
      + intros c [x [-> Hx]]%list_elem_of_fmap. exact (Hshells tab x Htab Hx).
    - rewrite Hempty. intros o Ho. cbn in Ho. apply elem_of_nil in Ho. destruct Ho. }
  apply ensures_returns in Hall as (Hraised & [] & Hlayout).
  split; [exact Hraised|]. rewrite Hlayout, Hempty. reflexivity.
Qed.
End RoundTrip.

Lemma restore_round_trip_witness :
  layout (_terminalTabs sample) = [[shellA; shellB]; [shellC]; [shellA; shellB; shellC]] /\
  layout (_terminalTabs
            (final (_restoreTabs (host := soundHost)
                      (fresh (storage (final (_onShutdown (host := soundHost)
                                                sample)))))))
  = layout (_terminalTabs sample).
Proof.
  split; [reflexivity|].
  refine (proj2 (restore_round_trip (host := soundHost) sample
                   (fresh (storage (final (_onShutdown (host := soundHost) sample))))
                   eq_refl eq_refl eq_refl eq_refl _ _ _ _)).
  - intros tab Htab. cbn in Htab.
    apply elem_of_cons in Htab as [->|Htab]; [discriminate|].
    apply elem_of_cons in Htab as [->|Htab]; [discriminate|].
    apply elem_of_cons in Htab as [->|Htab]; [discriminate|].
    apply elem_of_nil in Htab. destruct Htab.
  - intros tab x Htab Hx. split; [|reflexivity]. cbn in Htab.
    repeat (apply elem_of_cons in Htab as [->|Htab];
            [cbn in Hx;
             repeat (apply elem_of_cons in Hx as [->|Hx]; [discriminate|]);
             apply elem_of_nil in Hx; destruct Hx|]).
    apply elem_of_nil in Htab. destruct Htab.
  - vm_compute. discriminate.
  - vm_compute. reflexivity.
Defined.

(** ** Invariant I1 along sequences of operations *)

Section Invariant.

Context `{host : Host}.

Ltac fields :=
  cbn [final _terminalTabs _activeTabIndex with_terminalTabs set_activeTabIndex
       select_instance].

Lemma length_setVisibleOnly (active : Z) (tabs : list Tab.t) :
  length (setVisibleOnly active tabs) = length tabs.
Proof. unfold setVisibleOnly. apply length_imap. Qed.

Lemma length_update_tab (r : nat) (f : Tab.t -> Tab.t) (tabs : list Tab.t) :
  length (update_tab r f tabs) = length tabs.
Proof. unfold update_tab. apply length_map. Qed.

Lemma I1_in_range (s : TerminalService) :
  0 <= _activeTabIndex s < tabs_length s -> I1 s.
Proof. intros H. left. exact H. Qed.

(** Selecting a tab by an index that is not negative keeps I1. *)
Lemma I1_setActiveTabByIndex (s : TerminalService) (i : Z) :
  0 <= i -> I1 s -> I1 (final (setActiveTabByIndex i s)).
Proof.
  intros Hi HI. destruct (Z.le_gt_cases (tabs_length s) i) as [Hge|Hlt].
  - rewrite setActiveTabByIndex_past_end by exact Hge. exact HI.
  - rewrite setActiveTabByIndex_below_end by exact Hlt. apply I1_in_range.
    unfold tabs_length in *. fields. rewrite length_setVisibleOnly. lia.
Qed.

Lemma walk_range (tabs : list Tab.t) (k c : Z) (q : Query) :
  walk tabs k c = Some q ->
  c <= q_tabIndex q < c + Z.of_nat (length tabs) /\
  0 <= q_localInstanceIndex q
    < Z.of_nat (length (Tab.terminalInstances (q_tab q))).
Proof.
  revert k c. induction tabs as [|tab tabs IH]; intros k c Hwalk; [discriminate Hwalk|].
  cbn [walk] in Hwalk.
  destruct (Z.ltb_spec k 0); [discriminate Hwalk|].
  destruct (Z.ltb_spec k (Z.of_nat (length (Tab.terminalInstances tab)))).
  - injection Hwalk as <-. cbn. lia.
  - apply IH in Hwalk. cbn [length]. lia.
Qed.

(** Selecting an instance by its flattened index keeps I1, and
    establishes it whenever the index resolves. *)
Lemma I1_setActiveInstanceByIndex (s : TerminalService) (k : Z) :
  I1 s -> I1 (final (setActiveInstanceByIndex k s)).
Proof.
  intros HI. destruct (walk (_terminalTabs s) k 0) as [q|] eqn:Hwalk.
  - destruct (walk_range _ _ _ _ Hwalk) as [Htab Hlocal].
    rewrite (setActiveInstanceByIndex_found s k q Hwalk Hlocal).
    apply I1_in_range. unfold tabs_length. fields.
    rewrite length_setVisibleOnly, length_update_tab. lia.
  - rewrite (setActiveInstanceByIndex_not_found s k Hwalk). exact HI.
Qed.

(** Removing the active tab keeps I1, whether or not the focus call
    that follows succeeds. *)
Lemma I1_removeTab_active (s : TerminalService) (tab : Tab.t) :
  is_tab tab (active_tab s) = true -> I1 (final (_removeTab tab s)).
Proof.
  intros Hwas. pose proof (was_active_found s tab Hwas) as Hfound.
  destruct (Z.lt_ge_cases 0 (tabs_length (remaining tab s))) as [Hlen|Hlen].
  - rewrite (removeTab_replaces s tab Hwas Hlen). cbv zeta.
    assert (Hnew : 0 <= replacement tab s < tabs_length (remaining tab s))
      by (rewrite replacement_min; lia).
    destruct (active_tab _ ≫= Tab.activeInstance); cbn [final];
      apply I1_in_range; unfold tabs_length in *; fields;
      rewrite length_setVisibleOnly; exact Hnew.
  - rewrite removeTab_plain.
    + cbn [final]. right. unfold tabs_length in Hlen.
      destruct (_terminalTabs (remaining tab s)); [reflexivity|cbn in Hlen; lia].
    + rewrite Hwas. cbn. apply Z.ltb_ge. exact Hlen.
Qed.

(** Removing a tab that is not in the list changes neither the tabs nor
    the index. *)
Lemma I1_removeTab_absent (s : TerminalService) (tab : Tab.t) :
  indexOf (_terminalTabs s) tab 0 = -1 -> I1 s -> I1 (final (_removeTab tab s)).
Proof.
  intros Habsent HI.
  assert (Hwas : is_tab tab (active_tab s) = false).
  { destruct (is_tab tab (active_tab s)) eqn:Hwas; [|reflexivity].
    pose proof (was_active_found s tab Hwas). lia. }
  rewrite removeTab_plain by (rewrite Hwas; reflexivity). cbn [final].
  unfold remaining. rewrite Habsent. exact HI.
Qed.

(** Creating a terminal keeps the active index within the tabs, and
    puts it there when there was no tab and the index was 0, as the
    constructor leaves it. *)
Lemma I1_createTerminal (s : TerminalService) (shell : Value) :
  0 <= _activeTabIndex s < tabs_length s \/ _activeTabIndex s = 0 ->
  I1 (final (createTerminal shell s)).
Proof.
  intros Hidx. unfold createTerminal, newInstance.
  destruct (createInstance shell); unfold_m; cbn.
  - apply I1_in_range. unfold tabs_length in *. cbn. rewrite length_app. cbn. lia.
  - destruct Hidx as [Hin|Hzero]; [left; exact Hin|].
    unfold I1, tabs_length. destruct (_terminalTabs s); [right; reflexivity|].
    left. cbn [length]. lia.
  - destruct Hidx as [Hin|Hzero]; [left; exact Hin|].
    unfold I1, tabs_length. destruct (_terminalTabs s); [right; reflexivity|].
    left. cbn [length]. lia.
Qed.

(** Splitting keeps I1: it adds to a tab, not to the tabs. *)
Lemma I1_splitInstance (s : TerminalService) (instance : Instance.t)
    (shell : Value) :
  I1 s -> I1 (final (splitInstance instance shell s)).
Proof.
  intros HI. unfold splitInstance, tab_split, newInstance, _initInstanceListeners.
  unfold_m. cbv beta iota zeta.
  destruct (_getTabForInstance (_terminalTabs s) instance) as [tab|]; [|exact HI].
  destruct (createInstance _); cbv beta iota; fields; try exact HI.
  destruct HI as [Hin|Hnil]; [left|right].
  - unfold tabs_length in *. fields. cbn [fresh_instance_id _terminalTabs _activeTabIndex].
    rewrite length_setVisibleOnly, length_update_tab. exact Hin.
  - cbn [fresh_instance_id _terminalTabs with_terminalTabs]. rewrite Hnil. reflexivity.
Qed.
End Invariant.


(** Claim C1, on the code.  From the state the constructor leaves,
    create two terminals, select the second tab and remove the first:
    I1 holds up to the removal, and after it the active tab index is 1
    although a single tab is left, so that I1 is lost.  [_removeTab]
    adjusts the index only when the removed tab was the active one. *)
Theorem I1_lost_by_removing_earlier_tab :
  I1 (initial sampleConfig None None) /\
  I1 (final (run (host := soundHost) (take 3 closeFirstOfTwo)
               (initial sampleConfig None None))) /\
  raised (run (host := soundHost) closeFirstOfTwo (initial sampleConfig None None))
  = None /\
  _activeTabIndex
    (final (run (host := soundHost) closeFirstOfTwo (initial sampleConfig None None)))
  = 1 /\
  tabs_length
    (final (run (host := soundHost) closeFirstOfTwo (initial sampleConfig None None)))
  = 1 /\
  ~ I1 (final (run (host := soundHost) closeFirstOfTwo
                 (initial sampleConfig None None))).
Proof.
  split; [right; reflexivity|].
  split; [left; vm_compute; split; [discriminate|reflexivity]|].
  split; [reflexivity|]. split; [reflexivity|]. split; [reflexivity|].
  intros [[_ Hlt]|Hnil]; vm_compute in Hlt || vm_compute in Hnil; discriminate.
Qed.

(** The other way out of I1: a negative index given to
    [setActiveTabByIndex] is taken as the active index. *)
Lemma I1_lost_by_negative_index :
  I1 single /\ ~ I1 (final (setActiveTabByIndex (-1) single)).
Proof.
  split; [left; vm_compute; split; [discriminate|reflexivity]|].
  intros [[Hle _]|Hnil]; [apply Hle; reflexivity|discriminate Hnil].
Qed.

(** * Further properties of the service *)

Ltac fields :=
  cbn [final fired raised _terminalTabs _activeTabIndex with_terminalTabs
       set_activeTabIndex].

(** ** The flattened list of instances *)

Lemma walk_flat (tabs : list Tab.t) (k c : Z) :
  0 <= k < Z.of_nat (length (concat (map Tab.terminalInstances tabs))) ->
  exists q x,
    walk tabs k c = Some q /\
    q_instance q = Some x /\
    concat (map Tab.terminalInstances tabs) !! Z.to_nat k = Some x /\
    c <= q_tabIndex q /\
    tabs !! Z.to_nat (q_tabIndex q - c) = Some (q_tab q) /\
    0 <= q_localInstanceIndex q /\
    Tab.terminalInstances (q_tab q) !! Z.to_nat (q_localInstanceIndex q) = Some x.
Proof.
  revert k c. induction tabs as [|tab tabs IH]; intros k c Hk; [cbn in Hk; lia|].
  cbn [map concat] in *. rewrite length_app in Hk. cbn [walk].
  destruct (Z.ltb_spec k 0); [lia|].
  destruct (Z.ltb_spec k (Z.of_nat (length (Tab.terminalInstances tab)))) as [Hin|Hout].
  - destruct (Tab.terminalInstances tab !! Z.to_nat k) as [x|] eqn:Hx.
    2:{ apply lookup_ge_None in Hx. lia. }
    eexists _, x. split; [reflexivity|]. cbn.
    unfold JS.arr_get. destruct (Z.ltb_spec k 0); [lia|].
    rewrite lookup_app_l by lia. rewrite Z.sub_diag. cbn.
    repeat split; auto; lia.
  - destruct (IH (k - Z.of_nat (length (Tab.terminalInstances tab))) (c + 1))
      as (q & x & Hwalk & Hq & Hflat & Hc & Htab & Hl & Hlocal); [lia|].
    exists q, x. split; [exact Hwalk|]. split; [exact Hq|]. split.
    { rewrite lookup_app_r by lia. rewrite <- Hflat. f_equal. lia. }
    split; [lia|]. split; [|auto].
    replace (Z.to_nat (q_tabIndex q - c)) with (S (Z.to_nat (q_tabIndex q - (c + 1))))
      by lia.
    exact Htab.
Qed.

Lemma walk_negative (tabs : list Tab.t) (k c : Z) : k < 0 -> walk tabs k c = None.
Proof.
  intros Hk. destruct tabs as [|tab tabs]; [reflexivity|]. cbn [walk].
  destruct (Z.ltb_spec k 0); [reflexivity|lia].
Qed.

(** Property X1.  The flattened index.  For an index [k] from 0 below the
    number of instances, [_getInstanceFromGlobalInstanceIndex] resolves
    [k] to the instance that [terminalInstances] holds at [k], the one
    [getInstanceFromIndex] returns, and that instance sits in the tab
    at the resolved tab index, at the resolved local index.  For a
    negative index, and for one at or past the number of instances, it
    resolves to nothing and [getInstanceFromIndex] returns
    [undefined]. *)
Theorem global_index_is_flattened_index (s : TerminalService) (k : Z) :
  (0 <= k < Z.of_nat (length (terminalInstances s)) ->
   exists q x,
     _getInstanceFromGlobalInstanceIndex s k = Some q /\
     q_instance q = Some x /\
     getInstanceFromIndex k s = Returns (Some x) s [] /\
     _terminalTabs s !! Z.to_nat (q_tabIndex q) = Some (q_tab q) /\
     Tab.terminalInstances (q_tab q) !! Z.to_nat (q_localInstanceIndex q) = Some x) /\
  (k < 0 \/ Z.of_nat (length (terminalInstances s)) <= k ->
   _getInstanceFromGlobalInstanceIndex s k = None /\
   getInstanceFromIndex k s = Returns None s []).
Proof.
  split.
  - intros Hk. destruct (walk_flat (_terminalTabs s) k 0 Hk)
      as (q & x & Hwalk & Hq & Hflat & Hc & Htab & Hl & Hlocal).
    exists q, x. split; [exact Hwalk|]. split; [exact Hq|]. split; [|split].
    + unfold getInstanceFromIndex. unfold_m. cbn. unfold JS.arr_get.
      destruct (Z.ltb_spec k 0); [lia|]. unfold terminalInstances. rewrite Hflat.
      reflexivity.
    + rewrite Z.sub_0_r in Htab. exact Htab.
    + exact Hlocal.
  - intros Hout. split.
    + destruct Hout as [Hneg|Hge];
        [apply walk_negative; exact Hneg|apply walk_past_end; exact Hge].
    + unfold getInstanceFromIndex. unfold_m. cbn. unfold JS.arr_get.
      destruct (Z.ltb_spec k 0); [reflexivity|].
      destruct Hout as [Hneg|Hge]; [lia|].
      rewrite (proj2 (lookup_ge_None _ _)) by lia. reflexivity.
Qed.

Lemma global_index_is_flattened_index_witness :
  0 <= 4 < Z.of_nat (length (terminalInstances sample)) /\
  exists q x,
    _getInstanceFromGlobalInstanceIndex sample 4 = Some q /\
    q_instance q = Some x /\
    getInstanceFromIndex 4 sample = Returns (Some x) sample [].
Proof.
  assert (H : 0 <= 4 < Z.of_nat (length (terminalInstances sample)))
    by (split; [discriminate|reflexivity]).
  split; [exact H|].
  destruct (proj1 (global_index_is_flattened_index sample 4) H)
    as (q & x & Hq & Hx & Hget & _).
  exists q, x. split; [exact Hq|]. split; [exact Hx|exact Hget].
Defined.


Lemma scanForId_cases (l : list Instance.t) (tid : nat) (i acc : Z) :
  (scanForId l tid i acc = acc /\ forall x, x ∈ l -> Instance.id x <> tid) \/
  (i <= scanForId l tid i acc < i + Z.of_nat (length l) /\
   exists x, l !! Z.to_nat (scanForId l tid i acc - i) = Some x /\
             Instance.id x = tid /\
             forall (p : nat) y, (Z.to_nat (scanForId l tid i acc - i) < p)%nat ->
                                 l !! p = Some y -> Instance.id y <> tid).
Proof.
  revert i acc. induction l as [|x l IH]; intros i acc; cbn [scanForId].
  - left. split; [reflexivity|]. intros x Hx. apply elem_of_nil in Hx. destruct Hx.
  - destruct (IH (i + 1) (if Nat.eqb (Instance.id x) tid then i else acc))
      as [[Hsame Hnone]|[Hrange (y & Hy & Hid & Hlast)]].
    + rewrite Hsame. destruct (Nat.eqb_spec (Instance.id x) tid) as [Heq|Hne].
      * right. split; [cbn [length]; lia|]. exists x. rewrite Z.sub_diag. cbn.
        split; [reflexivity|]. split; [exact Heq|].
        intros p y Hp Hy. destruct p as [|p]; [lia|]. cbn in Hy.
        apply Hnone. eapply list_elem_of_lookup_2. exact Hy.
      * left. split; [reflexivity|]. intros y Hy.
        apply elem_of_cons in Hy as [->|Hy]; [exact Hne|apply Hnone; exact Hy].
    + right. set (r := scanForId l tid (i + 1) _) in *.
      split; [cbn [length]; lia|]. exists y.
      replace (Z.to_nat (r - i)) with (S (Z.to_nat (r - (i + 1)))) by lia.
      split; [exact Hy|]. split; [exact Hid|].
      intros p z Hp Hz. destruct p as [|p]; [lia|]. cbn in Hz.
      apply (Hlast p z); [lia|exact Hz].
Qed.

Lemma getIndexFromId_found (s : TerminalService) (tid : nat) (x : Instance.t) :
  x ∈ terminalInstances s -> Instance.id x = tid ->
  exists k y,
    _getIndexFromId tid s = Returns k s [] /\
    0 <= k < Z.of_nat (length (terminalInstances s)) /\
    terminalInstances s !! Z.to_nat k = Some y /\ Instance.id y = tid /\
    forall (p : nat) z, (Z.to_nat k < p)%nat ->
      terminalInstances s !! p = Some z -> Instance.id z <> tid.
Proof.
  intros Hx Hid.
  destruct (scanForId_cases (terminalInstances s) tid 0 (-1))
    as [[_ Hnone]|[Hrange (y & Hy & Hidy & Hlast)]].
  { exfalso. exact (Hnone x Hx Hid). }
  set (k := scanForId (terminalInstances s) tid 0 (-1)) in *.
  exists k, y. rewrite Z.sub_0_r in Hy, Hlast. split; [|repeat split; auto; lia].
  unfold _getIndexFromId. unfold_m. cbn. fold k.
  destruct (Z.eqb_spec k (-1)); [lia|reflexivity].
Qed.

Lemma getIndexFromId_missing (s : TerminalService) (tid : nat) :
  (forall x, x ∈ terminalInstances s -> Instance.id x <> tid) ->
  _getIndexFromId tid s = Throws (JS.NotFound tid) s [].
Proof.
  intros Hnone.
  destruct (scanForId_cases (terminalInstances s) tid 0 (-1))
    as [[Hsame _]|[_ (y & Hy & Hidy & _)]].
  - unfold _getIndexFromId. unfold_m. cbn. rewrite Hsame. reflexivity.
  - exfalso. apply (Hnone y); [|exact Hidy]. eapply list_elem_of_lookup_2. exact Hy.
Qed.

(** Property X2.  [getInstanceFromId] raises "does not exist", leaving the
    service as it was and firing nothing, when no tracked instance has
    the id.  When one has, it returns an instance with that id: the
    last one in flattened order. *)
Theorem getInstanceFromId_finds_last (s : TerminalService) (tid : nat) :
  ((forall x, x ∈ terminalInstances s -> Instance.id x <> tid) ->
   getInstanceFromId tid s = Throws (JS.NotFound tid) s []) /\
  (forall x, x ∈ terminalInstances s -> Instance.id x = tid ->
   exists (k : nat) y,
     getInstanceFromId tid s = Returns (Some y) s [] /\
     terminalInstances s !! k = Some y /\ Instance.id y = tid /\
     forall (p : nat) z, (k < p)%nat ->
       terminalInstances s !! p = Some z -> Instance.id z <> tid).
Proof.
  split.
  - intros Hnone. unfold getInstanceFromId. unfold bind at 1. unfold gets at 1.
    unfold bind at 1. rewrite (getIndexFromId_missing s tid Hnone). reflexivity.
  - intros x Hx Hid.
    destruct (getIndexFromId_found s tid x Hx Hid) as (k & y & Hk & Hrange & Hy & Hidy & Hlast).
    exists (Z.to_nat k), y. split; [|auto].
    unfold getInstanceFromId. unfold bind at 1. unfold gets at 1.
    unfold bind at 1. rewrite Hk. unfold ret. cbn. unfold JS.arr_get.
    destruct (Z.ltb_spec k 0); [lia|]. rewrite Hy. reflexivity.
Qed.

Lemma getInstanceFromId_finds_last_witness :
  Instance.mk 5 shellB ∈ terminalInstances sample /\
  exists (k : nat) y,
    getInstanceFromId 5 sample = Returns (Some y) sample [] /\
    Instance.id y = 5%nat.
Proof.
  assert (H : Instance.mk 5 shellB ∈ terminalInstances sample)
    by (apply (list_elem_of_lookup_2 _ 4%nat); reflexivity).
  split; [exact H|].
  destruct (proj2 (getInstanceFromId_finds_last sample 5) _ H eq_refl)
    as (k & y & Hget & _ & Hid & _).
  exists k, y. split; [exact Hget|exact Hid].
Defined.


Lemma select_instance_active (q : Query) (s : TerminalService) (x : Instance.t) :
  0 <= q_tabIndex q ->
  _terminalTabs s !! Z.to_nat (q_tabIndex q) = Some (q_tab q) ->
  0 <= q_localInstanceIndex q ->
  Tab.terminalInstances (q_tab q) !! Z.to_nat (q_localInstanceIndex q) = Some x ->
  0 <= _activeTabIndex (select_instance q s) < tabs_length (select_instance q s) /\
  (active_tab (select_instance q s) ≫= Tab.activeInstance) = Some x.
Proof.
  intros Hti Htab Hli Hx.
  assert (Hlen : (Z.to_nat (q_localInstanceIndex q)
                  < length (Tab.terminalInstances (q_tab q)))%nat)
    by (eapply lookup_lt_Some; exact Hx).
  assert (Hlook : _terminalTabs (select_instance q s) !! Z.to_nat (q_tabIndex q)
                  = Some (Tab.mk (Tab.ref (q_tab q)) (Tab.terminalInstances (q_tab q))
                            (q_localInstanceIndex q) true)).
  { unfold select_instance. cbn [_terminalTabs with_terminalTabs set_activeTabIndex].
    unfold setVisibleOnly, update_tab.
    rewrite list_lookup_imap, list_lookup_fmap, Htab. cbn [fmap option_fmap option_map].
    rewrite Nat.eqb_refl. unfold Tab.setActiveInstanceByIndex.
    destruct (Z.ltb_spec (q_localInstanceIndex q) 0); [lia|].
    destruct (Z.leb_spec (Z.of_nat (length (Tab.terminalInstances (q_tab q))))
                (q_localInstanceIndex q)); [lia|].
    cbn. unfold Tab.setVisible. cbn. rewrite Z2Nat.id by lia.
    rewrite Z.eqb_refl. reflexivity. }
  assert (Hrange : 0 <= _activeTabIndex (select_instance q s)
                   < tabs_length (select_instance q s)).
  { apply lookup_lt_Some in Hlook. unfold tabs_length.
    unfold select_instance in *.
    cbn [_activeTabIndex _terminalTabs with_terminalTabs set_activeTabIndex] in *. lia. }
  split; [exact Hrange|].
  rewrite (active_tab_in_range _ Hrange).
  change (_activeTabIndex (select_instance q s)) with (q_tabIndex q).
  rewrite Hlook. cbn. unfold Tab.activeInstance, JS.arr_get. cbn.
  destruct (Z.ltb_spec (q_localInstanceIndex q) 0); [lia|exact Hx].
Qed.

(** Property X3.  [setActiveInstance] of an instance whose id no tracked
    instance has raises "does not exist" and changes nothing.  For a
    tracked instance it returns, leaves the active tab index within
    the tabs, and [getActiveInstance] then returns an instance with
    the same id, the instance itself when ids are not shared. *)
Theorem setActiveInstance_selects (s : TerminalService) (instance : Instance.t) :
  ((forall x, x ∈ terminalInstances s -> Instance.id x <> Instance.id instance) ->
   setActiveInstance instance s = Throws (JS.NotFound (Instance.id instance)) s []) /\
  (instance ∈ terminalInstances s ->
   raised (setActiveInstance instance s) = None /\
   I1 (final (setActiveInstance instance s)) /\
   exists y,
     getActiveInstance (final (setActiveInstance instance s))
     = Returns (Some y) (final (setActiveInstance instance s)) [] /\
     Instance.id y = Instance.id instance /\
     (NoDup (Instance.id <$> terminalInstances s) -> y = instance)).
Proof.
  split.
  - intros Hnone. unfold setActiveInstance. unfold bind.
    rewrite (getIndexFromId_missing s _ Hnone). reflexivity.
  - intros Hin.
    destruct (getIndexFromId_found s _ instance Hin eq_refl)
      as (k & y & Hk & Hrange & Hy & Hidy & _).
    destruct (walk_flat (_terminalTabs s) k 0 Hrange)
      as (q & x & Hwalk & Hq & Hflat & Hc & Htab & Hl & Hlocal).
    assert (x = y) as -> by (unfold terminalInstances in Hy; congruence).
    rewrite Z.sub_0_r in Htab.
    assert (Hrun : setActiveInstance instance s
                   = Returns tt (select_instance q s)
                       (if _activeTabIndex s =? q_tabIndex q then []
                        else [ActiveTabChanged])).
    { unfold setActiveInstance. unfold bind. rewrite Hk.
      rewrite (setActiveInstanceByIndex_found s k q Hwalk).
      - reflexivity.
      - apply lookup_lt_Some in Hlocal. lia. }
    rewrite Hrun. cbn [raised final].
    destruct (select_instance_active q s y Hc Htab Hl Hlocal) as [Hidx Hactive].
    split; [reflexivity|]. split; [left; exact Hidx|].
    exists y. rewrite getActiveInstance_returns, Hactive.
    split; [reflexivity|]. split; [exact Hidy|].
    intros Hnodup. apply list_elem_of_lookup_1 in Hin as [j Hj].
    assert (Hsame : j = Z.to_nat k).
    { eapply (NoDup_lookup _ j (Z.to_nat k) (Instance.id instance) Hnodup).
      - rewrite list_lookup_fmap, Hj. reflexivity.
      - rewrite list_lookup_fmap, Hy. cbn. congruence. }
    subst j. congruence.
Qed.

Lemma setActiveInstance_selects_witness :
  Instance.mk 5 shellB ∈ terminalInstances sample /\
  raised (setActiveInstance (Instance.mk 5 shellB) sample) = None /\
  I1 (final (setActiveInstance (Instance.mk 5 shellB) sample)).
Proof.
  assert (H : Instance.mk 5 shellB ∈ terminalInstances sample)
    by (apply (list_elem_of_lookup_2 _ 4%nat); reflexivity).
  split; [exact H|].
  destruct (proj2 (setActiveInstance_selects sample (Instance.mk 5 shellB)) H)
    as (Hraised & HI1 & _).
  split; [exact Hraised|exact HI1].
Defined.


(** Property X4.  [setActiveInstanceByIndex] fires "active tab changed" only if
    there was a change of tab: selecting an instance of the tab that is
    already active fires nothing, selecting one of another tab fires
    the event once.  A negative index is ignored. *)
Theorem setActiveInstanceByIndex_fires_on_tab_change (s : TerminalService)
    (i j : nat) (t : Tab.t) (k : Z) :
  (_terminalTabs s !! i = Some t -> (j < length (Tab.terminalInstances t))%nat ->
   fired (setActiveInstanceByIndex
            (Z.of_nat (instances_before (_terminalTabs s) i + j)) s)
   = if _activeTabIndex s =? Z.of_nat i then [] else [ActiveTabChanged]) /\
  (k < 0 -> setActiveInstanceByIndex k s = Returns tt s []).
Proof.
  split.
  - intros Hi Hj.
    rewrite (setActiveInstanceByIndex_found _ _ _ (walk_resolves _ 0 i j t Hi Hj))
      by (cbn; lia).
    cbn [fired q_tabIndex]. rewrite Z.add_0_l. reflexivity.
  - intros Hk. apply setActiveInstanceByIndex_not_found. apply walk_negative. exact Hk.
Qed.

Lemma setActiveInstanceByIndex_fires_on_tab_change_witness :
  _terminalTabs sample !! 2%nat = Some tabC /\
  (1 < length (Tab.terminalInstances tabC))%nat /\
  fired (setActiveInstanceByIndex 4 sample) = [ActiveTabChanged].
Proof.
  assert (Hi : _terminalTabs sample !! 2%nat = Some tabC) by reflexivity.
  assert (Hj : (1 < length (Tab.terminalInstances tabC))%nat) by (cbn; lia).
  split; [exact Hi|]. split; [exact Hj|].
  exact (proj1 (setActiveInstanceByIndex_fires_on_tab_change sample 2 1 tabC 0) Hi Hj).
Defined.



(** ** Rotating through the tabs *)

Lemma setActiveTabToNext_few (s : TerminalService) :
  tabs_length s <= 1 -> setActiveTabToNext s = Returns tt s [].
Proof.
  intros Hlen. unfold setActiveTabToNext. unfold_m. cbn.
  destruct (Z.leb_spec (tabs_length s) 1); [reflexivity|lia].
Qed.

Lemma setActiveTabToPrevious_few (s : TerminalService) :
  tabs_length s <= 1 -> setActiveTabToPrevious s = Returns tt s [].
Proof.
  intros Hlen. unfold setActiveTabToPrevious. unfold_m. cbn.
  destruct (Z.leb_spec (tabs_length s) 1); [reflexivity|lia].
Qed.

Lemma setActiveTabToNext_several (s : TerminalService) :
  1 < tabs_length s ->
  setActiveTabToNext s
  = setActiveTabByIndex
      (if tabs_length s <=? _activeTabIndex s + 1 then 0 else _activeTabIndex s + 1) s.
Proof.
  intros Hlen. unfold setActiveTabToNext. unfold bind at 1. unfold gets at 1.
  destruct (Z.leb_spec (tabs_length s) 1); [lia|].
  unfold bind at 1. unfold gets at 1. cbv zeta.
  destruct (setActiveTabByIndex _ s); reflexivity.
Qed.

Lemma setActiveTabToPrevious_several (s : TerminalService) :
  1 < tabs_length s ->
  setActiveTabToPrevious s
  = setActiveTabByIndex
      (if _activeTabIndex s - 1 <? 0 then tabs_length s - 1 else _activeTabIndex s - 1) s.
Proof.
  intros Hlen. unfold setActiveTabToPrevious. unfold bind at 1. unfold gets at 1.
  destruct (Z.leb_spec (tabs_length s) 1); [lia|].
  unfold bind at 1. unfold gets at 1. cbv zeta.
  destruct (setActiveTabByIndex _ s); reflexivity.
Qed.

Lemma next_index (i len : Z) :
  0 <= i < len -> (if len <=? i + 1 then 0 else i + 1) = (i + 1) mod len.
Proof.
  intros Hi. destruct (Z.leb_spec len (i + 1)).
  - replace (i + 1) with len by lia. rewrite Z_mod_same_full. reflexivity.
  - rewrite Z.mod_small by lia. reflexivity.
Qed.

Lemma previous_index (i len : Z) :
  0 <= i < len -> (if i - 1 <? 0 then len - 1 else i - 1) = (i - 1) mod len.
Proof.
  intros Hi. destruct (Z.ltb_spec (i - 1) 0).
  - replace (i - 1) with (-1) by lia.
    apply (Z.mod_unique_pos (-1) len (-1) (len - 1)); lia.
  - rewrite Z.mod_small by lia. reflexivity.
Qed.

Lemma setActiveTabToNext_step (s : TerminalService) :
  1 < tabs_length s -> 0 <= _activeTabIndex s < tabs_length s ->
  setActiveTabToNext s
  = Returns tt
      (with_terminalTabs
         (setVisibleOnly ((_activeTabIndex s + 1) mod tabs_length s))
         (set_activeTabIndex ((_activeTabIndex s + 1) mod tabs_length s) s))
      [ActiveTabChanged].
Proof.
  intros Hlen Hi. rewrite setActiveTabToNext_several by exact Hlen.
  rewrite (next_index _ _ Hi).
  pose proof (Z.mod_pos_bound (_activeTabIndex s + 1) (tabs_length s) ltac:(lia)).
  rewrite setActiveTabByIndex_below_end by lia.
  destruct (Z.eqb_spec (_activeTabIndex s) ((_activeTabIndex s + 1) mod tabs_length s))
    as [Heq|Hne]; [|reflexivity].
  exfalso. rewrite <- (next_index _ _ Hi) in Heq.
  destruct (Z.leb_spec (tabs_length s) (_activeTabIndex s + 1)); lia.
Qed.

(** Property X5.  [setActiveTabToNext] does nothing with fewer than two tabs.
    With two or more and the active index within the tabs, it moves
    the index one up, from the last tab round to the first, shows that
    tab only, and fires "active tab changed" once. *)
Theorem setActiveTabToNext_rotates (s : TerminalService) :
  (tabs_length s <= 1 -> setActiveTabToNext s = Returns tt s []) /\
  (1 < tabs_length s -> 0 <= _activeTabIndex s < tabs_length s ->
   setActiveTabToNext s
   = Returns tt
       (with_terminalTabs
          (setVisibleOnly ((_activeTabIndex s + 1) mod tabs_length s))
          (set_activeTabIndex ((_activeTabIndex s + 1) mod tabs_length s) s))
       [ActiveTabChanged]).
Proof.
  split; [apply setActiveTabToNext_few|apply setActiveTabToNext_step].
Qed.

Lemma setActiveTabToNext_rotates_witness :
  1 < tabs_length sample /\ 0 <= _activeTabIndex sample < tabs_length sample /\
  _activeTabIndex (final (setActiveTabToNext sample)) = 1.
Proof.
  assert (Hlen : 1 < tabs_length sample) by reflexivity.
  assert (Hi : 0 <= _activeTabIndex sample < tabs_length sample)
    by (split; [discriminate|reflexivity]).
  split; [exact Hlen|]. split; [exact Hi|].
  rewrite (proj2 (setActiveTabToNext_rotates sample) Hlen Hi). reflexivity.
Defined.


Lemma setActiveTabToPrevious_step (s : TerminalService) :
  1 < tabs_length s -> 0 <= _activeTabIndex s < tabs_length s ->
  setActiveTabToPrevious s
  = Returns tt
      (with_terminalTabs
         (setVisibleOnly ((_activeTabIndex s - 1) mod tabs_length s))
         (set_activeTabIndex ((_activeTabIndex s - 1) mod tabs_length s) s))
      [ActiveTabChanged].
Proof.
  intros Hlen Hi. rewrite setActiveTabToPrevious_several by exact Hlen.
  rewrite (previous_index _ _ Hi).
  pose proof (Z.mod_pos_bound (_activeTabIndex s - 1) (tabs_length s) ltac:(lia)).
  rewrite setActiveTabByIndex_below_end by lia.
  destruct (Z.eqb_spec (_activeTabIndex s) ((_activeTabIndex s - 1) mod tabs_length s))
    as [Heq|Hne]; [|reflexivity].
  exfalso. rewrite <- (previous_index _ _ Hi) in Heq.
  destruct (Z.ltb_spec (_activeTabIndex s - 1) 0); lia.
Qed.

(** Property X6.  [setActiveTabToPrevious] does nothing with fewer than two
    tabs.  With two or more and the active index within the tabs, it
    moves the index one down, from the first tab round to the last,
    shows that tab only, and fires "active tab changed" once. *)
Theorem setActiveTabToPrevious_rotates (s : TerminalService) :
  (tabs_length s <= 1 -> setActiveTabToPrevious s = Returns tt s []) /\
  (1 < tabs_length s -> 0 <= _activeTabIndex s < tabs_length s ->
   setActiveTabToPrevious s
   = Returns tt
       (with_terminalTabs
          (setVisibleOnly ((_activeTabIndex s - 1) mod tabs_length s))
          (set_activeTabIndex ((_activeTabIndex s - 1) mod tabs_length s) s))
       [ActiveTabChanged]).
Proof.
  split; [apply setActiveTabToPrevious_few|apply setActiveTabToPrevious_step].
Qed.

Lemma setActiveTabToPrevious_rotates_witness :
  1 < tabs_length sample /\ 0 <= _activeTabIndex sample < tabs_length sample /\
  _activeTabIndex (final (setActiveTabToPrevious sample)) = 2.
Proof.
  assert (Hlen : 1 < tabs_length sample) by reflexivity.
  assert (Hi : 0 <= _activeTabIndex sample < tabs_length sample)
    by (split; [discriminate|reflexivity]).
  split; [exact Hlen|]. split; [exact Hi|].
  rewrite (proj2 (setActiveTabToPrevious_rotates sample) Hlen Hi). reflexivity.
Defined.


Lemma tabs_length_selected (i : Z) (s : TerminalService) :
  tabs_length (with_terminalTabs (setVisibleOnly i) (set_activeTabIndex i s))
  = tabs_length s.
Proof. unfold tabs_length. fields. rewrite length_setVisibleOnly. reflexivity. Qed.

Lemma setVisibleOnly_twice (i j : Z) (tabs : list Tab.t) :
  setVisibleOnly i (setVisibleOnly j tabs) = setVisibleOnly i tabs.
Proof.
  unfold setVisibleOnly. apply list_eq. intros k.
  rewrite !list_lookup_imap. destruct (tabs !! k); reflexivity.
Qed.

Lemma setVisibleOnly_id (i : Z) (tabs : list Tab.t) :
  only_visible i tabs -> setVisibleOnly i tabs = tabs.
Proof.
  intros Hvis. unfold setVisibleOnly. apply list_eq. intros k.
  rewrite list_lookup_imap. destruct (tabs !! k) as [t|] eqn:Ht; [|reflexivity].
  cbn. rewrite <- (Hvis k t Ht). destruct t; reflexivity.
Qed.

Lemma selected_back (i j : Z) (s : TerminalService) :
  _activeTabIndex s = i -> only_visible i (_terminalTabs s) ->
  with_terminalTabs (setVisibleOnly i)
    (set_activeTabIndex i
       (with_terminalTabs (setVisibleOnly j) (set_activeTabIndex j s)))
  = s.
Proof.
  intros Hi Hvis. destruct s as [tabs a latch cfg stored panel ni nr].
  unfold with_terminalTabs, set_activeTabIndex.
  cbn [_activeTabIndex _terminalTabs _isShuttingDown config storage activePanel
       nextInstanceId nextTabRef] in *.
  rewrite setVisibleOnly_twice, (setVisibleOnly_id i) by exact Hvis.
  subst. reflexivity.
Qed.

(** Property X7.  With two or more tabs, the active index within the tabs and
    the active tab the only visible one, going to the next tab and
    then to the previous one leaves the service exactly as it was, and
    so does going to the previous tab and then to the next. *)
Theorem next_previous_round_trip (s : TerminalService) :
  1 < tabs_length s -> 0 <= _activeTabIndex s < tabs_length s ->
  only_visible (_activeTabIndex s) (_terminalTabs s) ->
  final (setActiveTabToPrevious (final (setActiveTabToNext s))) = s /\
  final (setActiveTabToNext (final (setActiveTabToPrevious s))) = s.
Proof.
  intros Hlen Hi Hvis. split.
  - rewrite (setActiveTabToNext_step s Hlen Hi). fields.
    set (n := (_activeTabIndex s + 1) mod tabs_length s).
    set (s1 := with_terminalTabs (setVisibleOnly n) (set_activeTabIndex n s)).
    pose proof (Z.mod_pos_bound (_activeTabIndex s + 1) (tabs_length s) ltac:(lia)) as Hn.
    fold n in Hn.
    assert (Hlen1 : tabs_length s1 = tabs_length s) by apply tabs_length_selected.
    rewrite (setActiveTabToPrevious_step s1) by (rewrite ?Hlen1; auto; lia).
    fields. rewrite Hlen1. change (_activeTabIndex s1) with n.
    replace ((n - 1) mod tabs_length s) with (_activeTabIndex s).
    + apply selected_back; [reflexivity|exact Hvis].
    + unfold n. rewrite Zminus_mod_idemp_l.
      replace (_activeTabIndex s + 1 - 1) with (_activeTabIndex s) by lia.
      rewrite Z.mod_small by lia. reflexivity.
  - rewrite (setActiveTabToPrevious_step s Hlen Hi). fields.
    set (n := (_activeTabIndex s - 1) mod tabs_length s).
    set (s1 := with_terminalTabs (setVisibleOnly n) (set_activeTabIndex n s)).
    pose proof (Z.mod_pos_bound (_activeTabIndex s - 1) (tabs_length s) ltac:(lia)) as Hn.
    fold n in Hn.
    assert (Hlen1 : tabs_length s1 = tabs_length s) by apply tabs_length_selected.
    rewrite (setActiveTabToNext_step s1) by (rewrite ?Hlen1; auto; lia).
    fields. rewrite Hlen1. change (_activeTabIndex s1) with n.
    replace ((n + 1) mod tabs_length s) with (_activeTabIndex s).
    + apply selected_back; [reflexivity|exact Hvis].
    + unfold n. rewrite Zplus_mod_idemp_l.
      replace (_activeTabIndex s - 1 + 1) with (_activeTabIndex s) by lia.
      rewrite Z.mod_small by lia. reflexivity.
Qed.

Lemma sample_only_visible : only_visible (_activeTabIndex sample) (_terminalTabs sample).
Proof.
  intros k t Hk. destruct k as [|[|[|k]]]; cbn in Hk;
    [injection Hk as <-; reflexivity ..|discriminate Hk].
Defined.

Lemma next_previous_round_trip_witness :
  only_visible (_activeTabIndex sample) (_terminalTabs sample) /\
  final (setActiveTabToPrevious (final (setActiveTabToNext sample))) = sample.
Proof.
  split; [exact sample_only_visible|].
  refine (proj1 (next_previous_round_trip sample eq_refl _ sample_only_visible)).
  split; [discriminate|reflexivity].
Defined.


Section Runs.
Context `{host : Host}.

Lemma run_cons (op : Operation) (ops : list Operation) (s : TerminalService) :
  raised (perform op s) = None ->
  final (run (op :: ops) s) = final (run ops (final (perform op s))) /\
  raised (run (op :: ops) s) = raised (run ops (final (perform op s))).
Proof.
  unfold run. cbn [forEach]. unfold bind.
  destruct (perform op s) as [[] s1 l1|]; [|discriminate]. intros _. cbn [final].
  destruct (forEach ops perform s1); split; reflexivity.
Qed.

(** Property X8.  With two or more tabs and the active index within the tabs,
    [m] calls of [setActiveTabToNext] return and move the index [m]
    places round the tabs; as many calls as there are tabs bring it
    back to where it was. *)
Theorem setActiveTabToNext_cycles (s : TerminalService) (m : nat) :
  1 < tabs_length s -> 0 <= _activeTabIndex s < tabs_length s ->
  raised (run (replicate m SetActiveTabToNext) s) = None /\
  _activeTabIndex (final (run (replicate m SetActiveTabToNext) s))
  = (_activeTabIndex s + Z.of_nat m) mod tabs_length s /\
  (m = length (_terminalTabs s) ->
   _activeTabIndex (final (run (replicate m SetActiveTabToNext) s))
   = _activeTabIndex s).
Proof.
  intros Hlen Hi.
  assert (Hgen : raised (run (replicate m SetActiveTabToNext) s) = None /\
                 _activeTabIndex (final (run (replicate m SetActiveTabToNext) s))
                 = (_activeTabIndex s + Z.of_nat m) mod tabs_length s).
  { revert s Hlen Hi. induction m as [|m IH]; intros s Hlen Hi.
    - cbn. rewrite Z.add_0_r, Z.mod_small by lia. split; reflexivity.
    - cbn [replicate].
      pose proof (setActiveTabToNext_step s Hlen Hi) as Hnext.
      destruct (run_cons SetActiveTabToNext (replicate m SetActiveTabToNext) s)
        as [Hfinal Hraised]; [cbn [perform]; rewrite Hnext; reflexivity|].
      rewrite Hfinal, Hraised. cbn [perform]. rewrite Hnext. fields.
      set (n := (_activeTabIndex s + 1) mod tabs_length s).
      pose proof (Z.mod_pos_bound (_activeTabIndex s + 1) (tabs_length s) ltac:(lia))
        as Hn. fold n in Hn.
      destruct (IH (with_terminalTabs (setVisibleOnly n) (set_activeTabIndex n s)))
        as [Hr Hidx]; [rewrite tabs_length_selected; lia
                      |rewrite tabs_length_selected; exact Hn|].
      split; [exact Hr|]. rewrite Hidx, tabs_length_selected.
      change (_activeTabIndex (with_terminalTabs _ (set_activeTabIndex n s))) with n.
      unfold n. rewrite Zplus_mod_idemp_l. f_equal. lia. }
  destruct Hgen as [Hr Hidx]. split; [exact Hr|]. split; [exact Hidx|].
  intros ->. rewrite Hidx. fold (tabs_length s).
  rewrite <- (Z.mul_1_l (tabs_length s)) at 1.
  rewrite Z_mod_plus_full, Z.mod_small by lia. reflexivity.
Qed.

End Runs.

Lemma setActiveTabToNext_cycles_witness :
  1 < tabs_length sample /\
  _activeTabIndex
    (final (run (host := soundHost) (replicate 3 SetActiveTabToNext) sample))
  = _activeTabIndex sample.
Proof.
  assert (Hlen : 1 < tabs_length sample) by reflexivity.
  split; [exact Hlen|].
  refine (proj2 (proj2 (setActiveTabToNext_cycles (host := soundHost) sample 3
                          Hlen _)) eq_refl).
  split; [discriminate|reflexivity].
Defined.

(** Property X9.  With two or more tabs, [setActiveTabToNext] leaves the active
    index within the tabs whenever it was at least -1, and so also
    when it had been left past the end; [setActiveTabToPrevious] does
    so whenever the index was at most the number of tabs, and does
    nothing when it was beyond that. *)
Theorem rotation_brings_index_in_range (s : TerminalService) :
  1 < tabs_length s ->
  (-1 <= _activeTabIndex s ->
   0 <= _activeTabIndex (final (setActiveTabToNext s))
     < tabs_length (final (setActiveTabToNext s))) /\
  (_activeTabIndex s <= tabs_length s ->
   0 <= _activeTabIndex (final (setActiveTabToPrevious s))
     < tabs_length (final (setActiveTabToPrevious s))) /\
  (tabs_length s < _activeTabIndex s ->
   setActiveTabToPrevious s = Returns tt s []).
Proof.
  intros Hlen. split; [|split]; intros Hi.
  3:{ rewrite setActiveTabToPrevious_several by exact Hlen.
      destruct (Z.ltb_spec (_activeTabIndex s - 1) 0); [lia|].
      apply setActiveTabByIndex_past_end. lia. }
  - rewrite setActiveTabToNext_several by exact Hlen.
    destruct (Z.leb_spec (tabs_length s) (_activeTabIndex s + 1)).
    + rewrite setActiveTabByIndex_below_end by lia. fields.
      rewrite tabs_length_selected. lia.
    + rewrite setActiveTabByIndex_below_end by lia. fields.
      rewrite tabs_length_selected. lia.
  - rewrite setActiveTabToPrevious_several by exact Hlen.
    destruct (Z.ltb_spec (_activeTabIndex s - 1) 0).
    + rewrite setActiveTabByIndex_below_end by lia. fields.
      rewrite tabs_length_selected. lia.
    + rewrite setActiveTabByIndex_below_end by lia. fields.
      rewrite tabs_length_selected. lia.
Qed.

Lemma rotation_brings_index_in_range_witness :
  tabs_length (set_activeTabIndex 3 sample)
  <= _activeTabIndex (set_activeTabIndex 3 sample) /\
  0 <= _activeTabIndex (final (setActiveTabToNext (set_activeTabIndex 3 sample)))
    < tabs_length (final (setActiveTabToNext (set_activeTabIndex 3 sample))).
Proof.
  split; [discriminate|].
  refine (proj1 (rotation_brings_index_in_range (set_activeTabIndex 3 sample)
                   eq_refl) _).
  discriminate.
Defined.



(** ** What the operations keep *)

Section Kept.

Context `{host : Host}.

Lemma indexOf_first (tabs : list Tab.t) (tab t : Tab.t) (p : nat) (c : Z) :
  tabs !! p = Some t -> Tab.same t tab = true ->
  indexOf tabs tab c <= c + Z.of_nat p.
Proof.
  revert p c. induction tabs as [|t0 tabs IH]; intros p c Hp Hsame; [discriminate Hp|].
  cbn [indexOf]. destruct (Tab.same t0 tab) eqn:H0; [lia|].
  destruct p as [|p]; [cbn in Hp; congruence|]. cbn in Hp.
  specialize (IH p (c + 1) Hp Hsame). lia.
Qed.

Lemma not_active_when_later (s : TerminalService) (tab : Tab.t) :
  _activeTabIndex s < indexOf (_terminalTabs s) tab 0 ->
  is_tab tab (active_tab s) = false.
Proof.
  intros Hlater. destruct (active_tab s) as [t|] eqn:Hactive; [|reflexivity].
  cbn. destruct (Tab.same tab t) eqn:Hsame; [|reflexivity]. exfalso.
  apply active_tab_Some in Hactive as [Hrange Hlook]. rewrite same_sym in Hsame.
  pose proof (indexOf_first _ tab t _ 0 Hlook Hsame). lia.
Qed.

Lemma I1_removeTab_later (s : TerminalService) (tab : Tab.t) :
  _activeTabIndex s < indexOf (_terminalTabs s) tab 0 ->
  I1 s -> I1 (final (_removeTab tab s)).
Proof.
  intros Hlater HI. pose proof (not_active_when_later s tab Hlater) as Hwas.
  rewrite removeTab_plain by (rewrite Hwas; reflexivity). cbn [final].
  destruct HI as [Hin|Hnil].
  - left. rewrite remaining_activeTabIndex, remaining_length.
    destruct (indexOf_range (_terminalTabs s) tab 0) as [Hnone|Hfound]; [lia|lia|].
    destruct (Z.eqb_spec (indexOf (_terminalTabs s) tab 0) (-1)); [lia|].
    unfold tabs_length in *. lia.
  - right. unfold remaining. rewrite Hnil. cbn. exact Hnil.
Qed.

Lemma I1_rotation (s : TerminalService) :
  I1 s -> I1 (final (setActiveTabToNext s)) /\ I1 (final (setActiveTabToPrevious s)).
Proof.
  intros HI. destruct (Z.le_gt_cases (tabs_length s) 1) as [Hfew|Hseveral].
  - rewrite setActiveTabToNext_few, setActiveTabToPrevious_few by exact Hfew.
    split; exact HI.
  - destruct HI as [Hin|Hnil]; [|unfold tabs_length in *; rewrite Hnil in *; cbn in *; lia].
    rewrite (setActiveTabToNext_step s Hseveral Hin),
      (setActiveTabToPrevious_step s Hseveral Hin).
    split; apply I1_in_range; fields; rewrite tabs_length_selected;
      apply Z.mod_pos_bound; lia.
Qed.

(** Property X10.  Where invariant I1 is kept.  From a state whose active index
    is within the tabs, or that has no tabs, I1 holds again after
    [setActiveTabByIndex] with an index that is not negative, after
    [setActiveInstanceByIndex], [setActiveTabToNext] and
    [setActiveTabToPrevious], after [splitInstance], and after
    [_removeTab] of the active tab, of a tab that comes after the
    active one, or of a tab that is not listed. *)
Theorem I1_kept (s : TerminalService) :
  I1 s ->
  (forall i, 0 <= i -> I1 (final (setActiveTabByIndex i s))) /\
  (forall k, I1 (final (setActiveInstanceByIndex k s))) /\
  I1 (final (setActiveTabToNext s)) /\
  I1 (final (setActiveTabToPrevious s)) /\
  (forall instance shell, I1 (final (splitInstance instance shell s))) /\
  (forall tab, is_tab tab (active_tab s) = true -> I1 (final (_removeTab tab s))) /\
  (forall tab, _activeTabIndex s < indexOf (_terminalTabs s) tab 0 ->
               I1 (final (_removeTab tab s))) /\
  (forall tab, indexOf (_terminalTabs s) tab 0 = -1 -> I1 (final (_removeTab tab s))).
Proof.
  intros HI. repeat split.
  - intros i Hi. apply I1_setActiveTabByIndex; assumption.
  - intros k. apply I1_setActiveInstanceByIndex. exact HI.
  - apply I1_rotation. exact HI.
  - apply I1_rotation. exact HI.
  - intros instance shell. apply I1_splitInstance. exact HI.
  - intros tab Hwas. apply I1_removeTab_active. exact Hwas.
  - intros tab Hlater. apply I1_removeTab_later; assumption.
  - intros tab Habsent. apply I1_removeTab_absent; assumption.
Qed.

Lemma shape_update_tab (r : nat) (f : Tab.t -> Tab.t) (tabs : list Tab.t) :
  (forall t, shape (f t) = shape t) ->
  map shape (update_tab r f tabs) = map shape tabs.
Proof.
  intros Hf. unfold update_tab. rewrite map_map. apply map_ext. intros t.
  destruct (Nat.eqb (Tab.ref t) r); [apply Hf|reflexivity].
Qed.

Lemma shape_setActiveInstanceByIndex (i : Z) (t : Tab.t) :
  shape (default t (Tab.setActiveInstanceByIndex i t)) = shape t.
Proof.
  unfold Tab.setActiveInstanceByIndex.
  destruct ((i <? 0) || (Z.of_nat (length (Tab.terminalInstances t)) <=? i));
    reflexivity.
Qed.

Lemma shape_selected (i : Z) (s : TerminalService) :
  map shape (_terminalTabs (final (setActiveTabByIndex i s)))
  = map shape (_terminalTabs s).
Proof.
  destruct (Z.le_gt_cases (tabs_length s) i) as [Hge|Hlt].
  - rewrite setActiveTabByIndex_past_end by exact Hge. reflexivity.
  - rewrite setActiveTabByIndex_below_end by exact Hlt. fields.
    apply shape_setVisibleOnly.
Qed.

Lemma terminalInstances_shape (s : TerminalService) :
  terminalInstances s = concat (map snd (map shape (_terminalTabs s))).
Proof. unfold terminalInstances. rewrite map_map. reflexivity. Qed.

Lemma same_tabs_intro {A} (s : TerminalService) (o : Outcome A) :
  raised o = None ->
  map shape (_terminalTabs (final o)) = map shape (_terminalTabs s) ->
  same_tabs s o.
Proof.
  intros Hr Hs. split; [exact Hr|]. split; [exact Hs|].
  rewrite !terminalInstances_shape, Hs. reflexivity.
Qed.

Lemma same_tabs_selected (i : Z) (s : TerminalService) :
  same_tabs s (setActiveTabByIndex i s).
Proof.
  apply same_tabs_intro; [|apply shape_selected].
  destruct (Z.le_gt_cases (tabs_length s) i) as [Hge|Hlt];
    [rewrite setActiveTabByIndex_past_end by exact Hge
    |rewrite setActiveTabByIndex_below_end by exact Hlt]; reflexivity.
Qed.

(** Property X12.  Selecting never changes what is tracked.
    [setActiveTabByIndex], [setActiveInstanceByIndex],
    [setActiveTabToNext] and [setActiveTabToPrevious] return without
    raising, whatever their argument, and leave the same tabs holding
    the same instances in the same order. *)
Theorem selection_keeps_the_tabs (s : TerminalService) :
  (forall i, same_tabs s (setActiveTabByIndex i s)) /\
  (forall k, same_tabs s (setActiveInstanceByIndex k s)) /\
  same_tabs s (setActiveTabToNext s) /\
  same_tabs s (setActiveTabToPrevious s).
Proof.
  split; [intros i; apply same_tabs_selected|]. split; [|split].
  - intros k. destruct (walk (_terminalTabs s) k 0) as [q|] eqn:Hwalk.
    + destruct (walk_range _ _ _ _ Hwalk) as [_ Hlocal].
      rewrite (setActiveInstanceByIndex_found s _ q Hwalk Hlocal).
      apply same_tabs_intro; [reflexivity|]. unfold select_instance. fields.
      rewrite shape_setVisibleOnly. apply shape_update_tab.
      intros t. apply shape_setActiveInstanceByIndex.
    + rewrite (setActiveInstanceByIndex_not_found s _ Hwalk).
      apply same_tabs_intro; reflexivity.
  - destruct (Z.le_gt_cases (tabs_length s) 1) as [Hfew|Hseveral].
    + rewrite setActiveTabToNext_few by exact Hfew.
      apply same_tabs_intro; reflexivity.
    + rewrite setActiveTabToNext_several by exact Hseveral.
      apply same_tabs_selected.
  - destruct (Z.le_gt_cases (tabs_length s) 1) as [Hfew|Hseveral].
    + rewrite setActiveTabToPrevious_few by exact Hfew.
      apply same_tabs_intro; reflexivity.
    + rewrite setActiveTabToPrevious_several by exact Hseveral.
      apply same_tabs_selected.
Qed.

Lemma only_visible_setVisibleOnly (i : Z) (tabs : list Tab.t) :
  only_visible i (setVisibleOnly i tabs).
Proof.
  intros k t Ht. unfold setVisibleOnly in Ht. rewrite list_lookup_imap in Ht.
  destruct (tabs !! k); [|discriminate Ht]. cbn in Ht. injection Ht as <-. reflexivity.
Qed.

Lemma flags_selected (i : Z) (s : TerminalService) :
  let s' := with_terminalTabs (setVisibleOnly i) (set_activeTabIndex i s) in
  only_visible (_activeTabIndex s') (_terminalTabs s').
Proof. cbv zeta. fields. apply only_visible_setVisibleOnly. Qed.

Lemma flags_setActiveTabByIndex (s : TerminalService) (i : Z) :
  let s' := final (setActiveTabByIndex i s) in
  only_visible (_activeTabIndex s) (_terminalTabs s) ->
  only_visible (_activeTabIndex s') (_terminalTabs s').
Proof.
  cbv zeta. intros HI. destruct (Z.le_gt_cases (tabs_length s) i) as [Hge|Hlt].
  - rewrite setActiveTabByIndex_past_end by exact Hge. exact HI.
  - rewrite setActiveTabByIndex_below_end by exact Hlt. apply flags_selected.
Qed.

Lemma flags_setActiveInstanceByIndex (s : TerminalService) (k : Z) :
  let s' := final (setActiveInstanceByIndex k s) in
  only_visible (_activeTabIndex s) (_terminalTabs s) ->
  only_visible (_activeTabIndex s') (_terminalTabs s').
Proof.
  cbv zeta. intros HI. destruct (walk (_terminalTabs s) k 0) as [q|] eqn:Hwalk.
  - destruct (walk_range _ _ _ _ Hwalk) as [_ Hlocal].
    rewrite (setActiveInstanceByIndex_found s k q Hwalk Hlocal).
    unfold select_instance. fields. apply only_visible_setVisibleOnly.
  - rewrite (setActiveInstanceByIndex_not_found s k Hwalk). exact HI.
Qed.

Lemma flags_splitInstance (s : TerminalService) (instance : Instance.t)
    (shell : Value) :
  let s' := final (splitInstance instance shell s) in
  only_visible (_activeTabIndex s) (_terminalTabs s) ->
  only_visible (_activeTabIndex s') (_terminalTabs s').
Proof.
  cbv zeta. intros HI.
  unfold splitInstance, tab_split, newInstance, _initInstanceListeners.
  unfold_m. cbv beta iota zeta.
  destruct (_getTabForInstance (_terminalTabs s) instance) as [tab|]; [|exact HI].
  destruct (createInstance _); cbv beta iota; fields; try exact HI.
  cbn [fresh_instance_id _terminalTabs _activeTabIndex with_terminalTabs].
  apply only_visible_setVisibleOnly.
Qed.

Lemma flags_removeTab_active (s : TerminalService) (tab : Tab.t) :
  let s' := final (_removeTab tab s) in
  is_tab tab (active_tab s) = true ->
  only_visible (_activeTabIndex s') (_terminalTabs s').
Proof.
  cbv zeta. intros Hwas.
  destruct (Z.lt_ge_cases 0 (tabs_length (remaining tab s))) as [Hlen|Hlen].
  - rewrite (removeTab_replaces s tab Hwas Hlen). cbv zeta.
    destruct (active_tab _ ≫= Tab.activeInstance); cbn [final]; apply flags_selected.
  - rewrite removeTab_plain by (rewrite Hwas; cbn; apply Z.ltb_ge; exact Hlen).
    cbn [final]. unfold tabs_length in Hlen.
    destruct (_terminalTabs (remaining tab s)); [|cbn in Hlen; lia].
    intros k t Hk. discriminate Hk.
Qed.

Lemma flags_removeTab_later (s : TerminalService) (tab : Tab.t) :
  let s' := final (_removeTab tab s) in
  _activeTabIndex s < indexOf (_terminalTabs s) tab 0 ->
  only_visible (_activeTabIndex s) (_terminalTabs s) ->
  only_visible (_activeTabIndex s') (_terminalTabs s').
Proof.
  cbv zeta. intros Hlater HI.
  pose proof (not_active_when_later s tab Hlater) as Hwas.
  rewrite removeTab_plain by (rewrite Hwas; reflexivity). cbn [final].
  rewrite remaining_activeTabIndex, remaining_tabs.
  destruct (Z.eqb_spec (indexOf (_terminalTabs s) tab 0) (-1)) as [Hno|Hyes];
    [exact HI|].
  destruct (indexOf_range (_terminalTabs s) tab 0) as [Hnone|Hin];
    [lia|congruence|].
  intros k t Hk.
  destruct (Nat.lt_ge_cases k (Z.to_nat (indexOf (_terminalTabs s) tab 0)))
    as [Hlt|Hge].
  - rewrite list_lookup_delete_lt in Hk by exact Hlt. apply HI. exact Hk.
  - rewrite list_lookup_delete_ge in Hk by exact Hge.
    rewrite (HI _ _ Hk).
    destruct (Z.eqb_spec (Z.of_nat (S k)) (_activeTabIndex s)); [lia|].
    destruct (Z.eqb_spec (Z.of_nat k) (_activeTabIndex s)); [lia|reflexivity].
Qed.

Lemma I4_parts (s : TerminalService) :
  I4 s <-> I1 s /\ only_visible (_activeTabIndex s) (_terminalTabs s).
Proof.
  unfold I4, I1. split.
  - intros HI. destruct (_terminalTabs s) as [|t tabs] eqn:Htabs.
    + split; [right; reflexivity|]. intros k t Hk. discriminate Hk.
    + destruct HI as [Hin Hflags]; [discriminate|]. split; [left; exact Hin|exact Hflags].
  - intros [[Hin|Hnil] Hflags] Hne; [split; [exact Hin|exact Hflags]|contradiction].
Qed.

(** Property X11.  Where invariant I4 is kept, and where it is lost.
    Let exactly one tab be visible whenever there is a tab, the tab at
    the active index.  The same holds after [setActiveTabByIndex] with
    an index that is not negative, after [setActiveInstanceByIndex]
    with any index, after [setActiveTabToNext] and
    [setActiveTabToPrevious], after [splitInstance], and after
    [_removeTab] of the active tab, of a tab that comes after the
    active one, or of a tab that is not listed.  It no longer holds
    after [setActiveTabByIndex] with a negative index when there is a
    tab: no tab is visible then. *)
Theorem I4_kept (s : TerminalService) :
  I4 s ->
  (forall i, 0 <= i -> I4 (final (setActiveTabByIndex i s))) /\
  (forall k, I4 (final (setActiveInstanceByIndex k s))) /\
  I4 (final (setActiveTabToNext s)) /\
  I4 (final (setActiveTabToPrevious s)) /\
  (forall instance shell, I4 (final (splitInstance instance shell s))) /\
  (forall tab, is_tab tab (active_tab s) = true -> I4 (final (_removeTab tab s))) /\
  (forall tab, _activeTabIndex s < indexOf (_terminalTabs s) tab 0 ->
               I4 (final (_removeTab tab s))) /\
  (forall tab, indexOf (_terminalTabs s) tab 0 = -1 ->
               I4 (final (_removeTab tab s))) /\
  (forall i, i < 0 -> _terminalTabs s <> [] ->
     ~ I4 (final (setActiveTabByIndex i s)) /\
     forall t, t ∈ _terminalTabs (final (setActiveTabByIndex i s)) ->
               Tab.visible t = false).
Proof.
  intros HI. apply I4_parts in HI as [HI1 Hflags].
  split; [|split; [|split; [|split; [|split; [|split; [|split; [|split]]]]]]].
  - intros i Hi. apply I4_parts. split;
      [apply I1_setActiveTabByIndex; assumption
      |apply flags_setActiveTabByIndex; exact Hflags].
  - intros k. apply I4_parts. split;
      [apply I1_setActiveInstanceByIndex; exact HI1
      |apply flags_setActiveInstanceByIndex; exact Hflags].
  - apply I4_parts. split; [apply I1_rotation; exact HI1|].
    destruct (Z.le_gt_cases (tabs_length s) 1) as [Hfew|Hseveral].
    + rewrite setActiveTabToNext_few by exact Hfew. exact Hflags.
    + rewrite setActiveTabToNext_several by exact Hseveral.
      apply flags_setActiveTabByIndex. exact Hflags.
  - apply I4_parts. split; [apply I1_rotation; exact HI1|].
    destruct (Z.le_gt_cases (tabs_length s) 1) as [Hfew|Hseveral].
    + rewrite setActiveTabToPrevious_few by exact Hfew. exact Hflags.
    + rewrite setActiveTabToPrevious_several by exact Hseveral.
      apply flags_setActiveTabByIndex. exact Hflags.
  - intros instance shell. apply I4_parts. split;
      [apply I1_splitInstance; exact HI1|apply flags_splitInstance; exact Hflags].
  - intros tab Hwas. apply I4_parts. split;
      [apply I1_removeTab_active; exact Hwas|apply flags_removeTab_active; exact Hwas].
  - intros tab Hlater. apply I4_parts. split;
      [apply I1_removeTab_later; assumption
      |apply flags_removeTab_later; assumption].
  - intros tab Habsent. apply I4_parts. split;
      [apply I1_removeTab_absent; assumption|].
    assert (Hwas : is_tab tab (active_tab s) = false).
    { destruct (is_tab tab (active_tab s)) eqn:Hwas; [|reflexivity].
      pose proof (was_active_found s tab Hwas). lia. }
    rewrite removeTab_plain by (rewrite Hwas; reflexivity). cbn [final].
    unfold remaining. rewrite Habsent. exact Hflags.
  - intros i Hi Hne.
    assert (Hlt : i < tabs_length s) by (unfold tabs_length; lia).
    rewrite setActiveTabByIndex_below_end by exact Hlt. fields. split.
    + intros Hbad. destruct Hbad as [Hin _];
        [|cbn [_activeTabIndex with_terminalTabs set_activeTabIndex] in Hin; lia].
      fields. intros Hnil. apply Hne.
      apply (f_equal length) in Hnil. rewrite length_setVisibleOnly in Hnil.
      destruct (_terminalTabs s); [reflexivity|discriminate Hnil].
    + intros t Ht. apply list_elem_of_lookup_1 in Ht as [k Hk].
      rewrite (only_visible_setVisibleOnly i _ k t Hk).
      apply Z.eqb_neq. lia.
Qed.

End Kept.

Lemma I1_kept_witness :
  I1 sample /\ I1 (final (setActiveTabToNext sample)).
Proof.
  assert (H : I1 sample) by (left; split; [discriminate|reflexivity]).
  split; [exact H|].
  destruct (I1_kept (host := soundHost) sample H) as (_ & _ & Hnext & _).
  exact Hnext.
Defined.

Lemma I4_kept_witness :
  I4 sample /\ I4 (final (setActiveInstanceByIndex 4 sample)).
Proof.
  assert (H : I4 sample).
  { intros _. split; [split; [discriminate|reflexivity]|exact sample_only_visible]. }
  split; [exact H|].
  destruct (I4_kept (host := soundHost) sample H) as (_ & Hinstance & _).
  apply Hinstance.
Defined.

(** ** Removing a tab *)

Section Removed.

Context `{host : Host}.

(** Property X13.  Removing a tab that comes before the active one.  The tab is
    spliced out, "instances changed" is the only event, and the active
    index is left as it was: the tab that was active has moved one
    place down, so the index now names the tab that came after it, or
    no tab at all when the active tab was the last. *)
Theorem removeTab_before_active_shifts_selection (s : TerminalService)
    (tab : Tab.t) :
  0 <= indexOf (_terminalTabs s) tab 0 < _activeTabIndex s ->
  _activeTabIndex s < tabs_length s ->
  is_tab tab (active_tab s) = false ->
  _removeTab tab s
  = Returns tt
      (with_terminalTabs (delete (Z.to_nat (indexOf (_terminalTabs s) tab 0))) s)
      [InstancesChanged] /\
  _activeTabIndex (final (_removeTab tab s)) = _activeTabIndex s /\
  active_tab s = _terminalTabs s !! Z.to_nat (_activeTabIndex s) /\
  active_tab (final (_removeTab tab s))
  = _terminalTabs s !! S (Z.to_nat (_activeTabIndex s)).
Proof.
  intros Hindex Hactive Hwas.
  assert (Hrun : _removeTab tab s
                 = Returns tt
                     (with_terminalTabs
                        (delete (Z.to_nat (indexOf (_terminalTabs s) tab 0))) s)
                     [InstancesChanged]).
  { rewrite removeTab_plain by (rewrite Hwas; reflexivity).
    rewrite Hwas, remaining_length.
    destruct (Z.eqb_spec (indexOf (_terminalTabs s) tab 0) (-1)) as [Hno|Hyes]; [lia|].
    destruct (Z.eqb_spec (tabs_length s - 1) 0); [lia|].
    unfold remaining. cbv zeta.
    destruct (Z.eqb_spec (indexOf (_terminalTabs s) tab 0) (-1)); [lia|]. reflexivity. }
  rewrite Hrun. cbn [final]. split; [reflexivity|]. split; [reflexivity|].
  split; [apply active_tab_in_range; lia|].
  set (s' := with_terminalTabs _ s).
  assert (Hlen : tabs_length s' = tabs_length s - 1).
  { unfold s', tabs_length. cbn. rewrite length_delete.
    - unfold tabs_length in *. lia.
    - apply lookup_lt_is_Some. unfold tabs_length in *. lia. }
  destruct (Z.lt_ge_cases (_activeTabIndex s) (tabs_length s - 1)) as [Hin|Hlast].
  - rewrite active_tab_in_range by (rewrite Hlen; cbn; lia).
    unfold s'. cbn. apply list_lookup_delete_ge. lia.
  - rewrite active_tab_out_of_range by (right; rewrite Hlen; cbn; lia).
    symmetry. apply lookup_ge_None. unfold tabs_length in *. lia.
Qed.


(** Property X15.  The events of removing the active tab when another tab is
    left, every remaining tab having an active instance: "active tab
    changed" from the selection of the replacement, unless the removed
    tab was the last one, so that the replacement index is the index
    that was active, then the focus of the replacement tab's active
    instance, "instances changed" and "active tab changed", in this
    order. *)
Theorem removeTab_active_events (s : TerminalService) (tab : Tab.t) :
  is_tab tab (active_tab s) = true ->
  indexOf (_terminalTabs s) tab 0 = _activeTabIndex s ->
  1 < tabs_length s ->
  (forall t, t ∈ _terminalTabs (remaining tab s) -> is_Some (Tab.activeInstance t)) ->
  exists i,
    (active_tab (final (_removeTab tab s)) ≫= Tab.activeInstance) = Some i /\
    fired (_removeTab tab s)
    = (if _activeTabIndex s =? tabs_length s - 1 then [ActiveTabChanged] else [])
      ++ [InstanceFocus (Instance.id i); InstancesChanged; ActiveTabChanged].
Proof.
  intros Hwas Hindex Hlen Hinst.
  pose proof (was_active_found s tab Hwas) as Hfound.
  assert (Hlen1 : tabs_length (remaining tab s) = tabs_length s - 1).
  { rewrite remaining_length.
    destruct (Z.eqb_spec (indexOf (_terminalTabs s) tab 0) (-1)); [lia|reflexivity]. }
  rewrite (removeTab_replaces s tab Hwas) by lia. cbv zeta.
  set (s2 := with_terminalTabs _ (set_activeTabIndex _ (remaining tab s))).
  assert (Hnew : 0 <= replacement tab s < tabs_length (remaining tab s))
    by (rewrite replacement_min; lia).
  assert (Hactive : active_tab s2
                    = Tab.setVisible true
                      <$> _terminalTabs (remaining tab s) !! Z.to_nat (replacement tab s))
    by (apply active_tab_selected; exact Hnew).
  destruct (_terminalTabs (remaining tab s) !! Z.to_nat (replacement tab s))
    as [t'|] eqn:Hlook.
  2:{ apply lookup_ge_None in Hlook. unfold tabs_length in *. lia. }
  destruct (Hinst t') as [i Hi]; [eapply list_elem_of_lookup_2; exact Hlook|].
  change (active_tab s2 = Some (Tab.setVisible true t')) in Hactive.
  rewrite Hactive.
  change (Some (Tab.setVisible true t') ≫= Tab.activeInstance)
    with (Tab.activeInstance t').
  rewrite Hi. cbn [final fired]. exists i. rewrite Hactive.
  split; [exact Hi|]. f_equal.
  rewrite replacement_min, Hlen1, Hindex.
  destruct (Z.eqb_spec (_activeTabIndex s) (tabs_length s - 1)) as [Hlast|Hnotlast].
  - destruct (Z.eqb_spec (_activeTabIndex s)
                (Z.min (_activeTabIndex s) (tabs_length s - 1 - 1))); [lia|reflexivity].
  - destruct (Z.eqb_spec (_activeTabIndex s)
                (Z.min (_activeTabIndex s) (tabs_length s - 1 - 1))); [reflexivity|lia].
Qed.

(** Property X16.  [_removeTab] of a tab that is not listed returns and leaves
    the service as it was, without "active tab changed"; while a tab
    is listed it still fires "instances changed". *)
Theorem removeTab_unlisted (s : TerminalService) (tab : Tab.t) :
  indexOf (_terminalTabs s) tab 0 = -1 ->
  raised (_removeTab tab s) = None /\
  final (_removeTab tab s) = s /\
  count is_ActiveTabChanged (fired (_removeTab tab s)) = 0%nat /\
  (_terminalTabs s <> [] -> fired (_removeTab tab s) = [InstancesChanged]).
Proof.
  intros Habsent.
  assert (Hwas : is_tab tab (active_tab s) = false).
  { destruct (is_tab tab (active_tab s)) eqn:Hwas; [|reflexivity].
    pose proof (was_active_found s tab Hwas). lia. }
  assert (Hrem : remaining tab s = s) by (unfold remaining; rewrite Habsent; reflexivity).
  rewrite removeTab_plain by (rewrite Hwas; reflexivity).
  rewrite Hwas, Hrem. cbn [raised final fired].
  split; [reflexivity|]. split; [reflexivity|]. split.
  - rewrite count_app. destruct ((tabs_length s =? 0) && negb (_isShuttingDown s)).
    + rewrite count_app. destruct (hide_request_cases s) as [-> | ->]; reflexivity.
    + reflexivity.
  - intros Hne. destruct (Z.eqb_spec (tabs_length s) 0) as [Hz|Hnz]; [|reflexivity].
    unfold tabs_length in Hz. destruct (_terminalTabs s); [congruence|cbn in Hz; lia].
Qed.

(** Property X23.  When the active tab is removed and the tab that replaces it
    has no active instance, [_removeTab] raises a TypeError from the
    call of [focus] on [null]: the tab is already spliced out and the
    replacement selected, and "instances changed" is never fired. *)
Theorem removeTab_raises_without_active_instance (s : TerminalService)
    (tab t' : Tab.t) :
  is_tab tab (active_tab s) = true ->
  _terminalTabs (remaining tab s) !! Z.to_nat (replacement tab s) = Some t' ->
  Tab.activeInstance t' = None ->
  raised (_removeTab tab s) = Some JS.TypeError /\
  count is_InstancesChanged (fired (_removeTab tab s)) = 0%nat /\
  _activeTabIndex (final (_removeTab tab s)) = replacement tab s /\
  length (_terminalTabs (final (_removeTab tab s)))
  = length (_terminalTabs (remaining tab s)).
Proof.
  intros Hwas Hlook Hnone.
  pose proof (was_active_found s tab Hwas) as Hfound.
  assert (Hlen : 0 < tabs_length (remaining tab s)).
  { apply lookup_lt_Some in Hlook. unfold tabs_length. lia. }
  assert (Hnew : 0 <= replacement tab s < tabs_length (remaining tab s))
    by (rewrite replacement_min; lia).
  rewrite (removeTab_replaces s tab Hwas Hlen). cbv zeta.
  rewrite (active_tab_selected _ _ Hnew), Hlook.
  change ((Tab.setVisible true <$> Some t') ≫= Tab.activeInstance)
    with (Tab.activeInstance t').
  rewrite Hnone. cbn [raised fired final _activeTabIndex _terminalTabs
                      with_terminalTabs set_activeTabIndex].
  split; [reflexivity|]. split.
  - destruct (_activeTabIndex s =? replacement tab s); reflexivity.
  - split; [reflexivity|apply length_setVisibleOnly].
Qed.
End Removed.

Lemma removeTab_before_active_shifts_selection_witness :
  0 <= indexOf (_terminalTabs (set_activeTabIndex 1 sample)) tabA 0
    < _activeTabIndex (set_activeTabIndex 1 sample) /\
  active_tab (set_activeTabIndex 1 sample) = Some tabB /\
  active_tab (final (_removeTab (host := soundHost) tabA
                       (set_activeTabIndex 1 sample)))
  = Some tabC.
Proof.
  assert (H : 0 <= indexOf (_terminalTabs (set_activeTabIndex 1 sample)) tabA 0
              < _activeTabIndex (set_activeTabIndex 1 sample))
    by (split; [discriminate|reflexivity]).
  split; [exact H|]. split; [reflexivity|].
  destruct (removeTab_before_active_shifts_selection (host := soundHost)
              (set_activeTabIndex 1 sample) tabA H eq_refl eq_refl)
    as (_ & _ & _ & Hafter).
  rewrite Hafter. reflexivity.
Defined.


Lemma removeTab_active_events_witness :
  is_tab tabA (active_tab sample) = true /\
  fired (_removeTab (host := soundHost) tabA sample)
  = [InstanceFocus 3; InstancesChanged; ActiveTabChanged].
Proof.
  split; [reflexivity|].
  destruct (removeTab_active_events (host := soundHost) sample tabA
              eq_refl eq_refl eq_refl) as (i & Hi & Hfired).
  - intros t Ht. cbn in Ht.
    apply elem_of_cons in Ht as [->|Ht]; [cbn; eauto|].
    apply elem_of_cons in Ht as [->|Ht]; [cbn; eauto|].
    apply elem_of_nil in Ht. destruct Ht.
  - rewrite Hfired. injection Hi as <-. reflexivity.
Defined.

Lemma removeTab_unlisted_witness :
  indexOf (_terminalTabs sample) (Tab.mk 9 [] 0 false) 0 = -1 /\
  final (_removeTab (host := soundHost) (Tab.mk 9 [] 0 false) sample) = sample.
Proof.
  split; [reflexivity|].
  exact (proj1 (proj2 (removeTab_unlisted (host := soundHost) sample
                         (Tab.mk 9 [] 0 false) eq_refl))).
Defined.

Lemma removeTab_raises_without_active_instance_witness :
  is_tab tabA (active_tab hollow) = true /\
  raised (_removeTab (host := soundHost) tabA hollow) = Some JS.TypeError.
Proof.
  split; [reflexivity|].
  exact (proj1 (removeTab_raises_without_active_instance (host := soundHost)
                  hollow tabA (Tab.mk 2 [] 0 false) eq_refl eq_refl eq_refl)).
Defined.

(** ** The panel *)

Section Panel.

Context `{host : Host}.

(** Property X17.  [hidePanel] returns and changes nothing in the service.  It
    asks the part service to hide the panel exactly when the terminal
    panel is the active one, and asks nothing when another panel, or
    none, is active. *)
Theorem hidePanel_only_own_panel (s : TerminalService) :
  raised (hidePanel s) = None /\
  final (hidePanel s) = s /\
  (activePanel s = Some TERMINAL_PANEL_ID -> fired (hidePanel s) = [SetPanelHidden]) /\
  (activePanel s <> Some TERMINAL_PANEL_ID -> fired (hidePanel s) = []).
Proof.
  rewrite hidePanel_returns. cbn [raised final fired].
  split; [reflexivity|]. split; [reflexivity|]. split.
  - apply hide_request_own_panel.
  - intros Hother. unfold hide_request, hidePanel. unfold_m. cbn.
    destruct (activePanel s) as [p|]; [|reflexivity].
    destruct (String.eqb_spec p TERMINAL_PANEL_ID) as [->|Hne]; [congruence|reflexivity].
Qed.

Lemma focusActiveInstance_returns (s : TerminalService) :
  focusActiveInstance s
  = Returns tt s
      (match active_tab s ≫= Tab.activeInstance with
       | Some i => [InstanceFocus (Instance.id i)]
       | None => []
       end).
Proof.
  unfold focusActiveInstance, bind. rewrite getActiveInstance_returns.
  destruct (active_tab s ≫= Tab.activeInstance); reflexivity.
Qed.

(** Property X18.  [showPanel] returns, fires nothing at once and changes
    nothing in the service.  It asks for the terminal panel to be
    opened, passing [focus] on, exactly when that panel is not the
    active one.  Without [focus] it leaves no callback; with [focus]
    it leaves one, in both branches, which, whenever it runs, focuses
    the instance that is active by then and does nothing when there is
    none. *)
Theorem showPanel_opens_once_and_defers_focus (s : TerminalService) (focus : bool) :
  exists shown,
    showPanel focus s = Returns shown s [] /\
    (activePanel s = Some TERMINAL_PANEL_ID -> opened shown = None) /\
    (activePanel s <> Some TERMINAL_PANEL_ID -> opened shown = Some focus) /\
    (focus = false -> timer shown = None) /\
    (focus = true ->
     exists callback,
       timer shown = Some callback /\
       forall s1,
         raised (callback s1) = None /\ final (callback s1) = s1 /\
         (forall i, getActiveInstance s1 = Returns (Some i) s1 [] ->
                    fired (callback s1) = [InstanceFocus (Instance.id i)]) /\
         (getActiveInstance s1 = Returns None s1 [] -> fired (callback s1) = [])).
Proof.
  unfold showPanel. unfold_m. cbn.
  assert (Htimer : forall s1,
            raised (focusActiveInstance s1) = None /\
            final (focusActiveInstance s1) = s1 /\
            (forall i, getActiveInstance s1 = Returns (Some i) s1 [] ->
                       fired (focusActiveInstance s1) = [InstanceFocus (Instance.id i)]) /\
            (getActiveInstance s1 = Returns None s1 [] ->
             fired (focusActiveInstance s1) = [])).
  { intros s1. rewrite focusActiveInstance_returns, getActiveInstance_returns.
    cbn [raised final fired]. split; [reflexivity|]. split; [reflexivity|].
    split; [intros i Hi|intros Hi]; injection Hi as ->; reflexivity. }
  destruct (activePanel s) as [p|] eqn:Hp.
  - destruct (String.eqb_spec p TERMINAL_PANEL_ID) as [->|Hne]; cbn.
    + eexists. split; [reflexivity|]. cbn. split; [reflexivity|].
      split; [congruence|]. split; [intros ->; reflexivity|].
      intros ->. eexists. split; [reflexivity|exact Htimer].
    + eexists. split; [reflexivity|]. cbn. split; [congruence|].
      split; [reflexivity|]. split; [intros ->; reflexivity|].
      intros ->. eexists. split; [reflexivity|exact Htimer].
  - cbn. eexists. split; [reflexivity|]. cbn. split; [discriminate|].
    split; [reflexivity|]. split; [intros ->; reflexivity|].
    intros ->. eexists. split; [reflexivity|exact Htimer].
Qed.
End Panel.

(** ** The tab of an instance *)

Section Owner.

Context `{host : Host}.

Lemma existsb_same (instance : Instance.t) (l : list Instance.t) :
  existsb (Instance.same instance) l = true <-> instance ∈ l.
Proof.
  rewrite existsb_exists. split.
  - intros (x & Hx & Hsame). apply same_eq in Hsame as ->.
    apply list_elem_of_In. exact Hx.
  - intros Hin. exists instance. split; [apply list_elem_of_In; exact Hin|].
    apply same_refl.
Qed.

Lemma getTabForInstance_listed (tabs : list Tab.t) (instance : Instance.t)
    (tab : Tab.t) :
  _getTabForInstance tabs instance = Some tab -> tab ∈ tabs.
Proof.
  induction tabs as [|t0 tabs IH]; cbn [_getTabForInstance]; [discriminate|].
  destruct (existsb (Instance.same instance) (Tab.terminalInstances t0)).
  - intros [= <-]. constructor.
  - intros Hrest. apply list_elem_of_further. apply IH. exact Hrest.
Qed.

Lemma getTabForInstance_none (tabs : list Tab.t) (instance : Instance.t) :
  _getTabForInstance tabs instance = None
  <-> forall t, t ∈ tabs -> instance ∉ Tab.terminalInstances t.
Proof.
  induction tabs as [|t0 tabs IH]; cbn [_getTabForInstance].
  - split; [|reflexivity]. intros _ t Ht. apply elem_of_nil in Ht. destruct Ht.
  - destruct (existsb (Instance.same instance) (Tab.terminalInstances t0)) eqn:Hex.
    + apply existsb_same in Hex. split; [discriminate|]. intros Hnone. exfalso.
      apply (Hnone t0); [constructor|exact Hex].
    + assert (Hnot : instance ∉ Tab.terminalInstances t0).
      { intros Hin. apply existsb_same in Hin. congruence. }
      rewrite IH. split.
      * intros Hnone t Ht. apply elem_of_cons in Ht as [->|Ht];
          [exact Hnot|apply Hnone; exact Ht].
      * intros Hnone t Ht. apply Hnone. apply list_elem_of_further. exact Ht.
Qed.

Lemma getTabForInstance_some (tabs : list Tab.t) (instance : Instance.t)
    (tab : Tab.t) :
  _getTabForInstance tabs instance = Some tab
  <-> exists p : nat,
        tabs !! p = Some tab /\
        instance ∈ Tab.terminalInstances tab /\
        forall (p' : nat) t, (p' < p)%nat -> tabs !! p' = Some t ->
                             instance ∉ Tab.terminalInstances t.
Proof.
  induction tabs as [|t0 tabs IH]; cbn [_getTabForInstance].
  - split; [discriminate|]. intros (p & Hp & _). discriminate Hp.
  - destruct (existsb (Instance.same instance) (Tab.terminalInstances t0)) eqn:Hex.
    + apply existsb_same in Hex. split.
      * intros [= <-]. exists 0%nat. split; [reflexivity|]. split; [exact Hex|].
        intros p' t Hp'. lia.
      * intros (p & Hp & _ & Hfirst). destruct p as [|p].
        -- cbn in Hp. congruence.
        -- exfalso. apply (Hfirst 0%nat t0); [lia|reflexivity|exact Hex].
    + assert (Hnot : instance ∉ Tab.terminalInstances t0).
      { intros Hin. apply existsb_same in Hin. congruence. }
      rewrite IH. split.
      * intros (p & Hp & Hown & Hfirst). exists (S p).
        split; [exact Hp|]. split; [exact Hown|].
        intros p' t Hlt Ht. destruct p' as [|p'].
        -- cbn in Ht. injection Ht as <-. exact Hnot.
        -- cbn in Ht. apply (Hfirst p' t); [lia|exact Ht].
      * intros (p & Hp & Hown & Hfirst). destruct p as [|p].
        -- cbn in Hp. injection Hp as <-. contradiction.
        -- exists p. split; [exact Hp|]. split; [exact Hown|].
           intros p' t Hlt Ht. apply (Hfirst (S p') t); [lia|exact Ht].
Qed.

(** Property X19.  [_getTabForInstance] returns a tab exactly when
    that tab is the first, in tab order, that holds the instance, and
    it returns [null] exactly when no tab holds the instance. *)
Theorem getTabForInstance_first_owner (tabs : list Tab.t) (instance : Instance.t) :
  (forall tab,
     _getTabForInstance tabs instance = Some tab
     <-> exists p : nat,
           tabs !! p = Some tab /\
           instance ∈ Tab.terminalInstances tab /\
           forall (p' : nat) t, (p' < p)%nat -> tabs !! p' = Some t ->
                                instance ∉ Tab.terminalInstances t) /\
  (_getTabForInstance tabs instance = None
   <-> forall t, t ∈ tabs -> instance ∉ Tab.terminalInstances t).
Proof.
  split; [intros tab; apply getTabForInstance_some|apply getTabForInstance_none].
Qed.
End Owner.

Lemma hidePanel_only_own_panel_witness :
  activePanel sample = Some (TERMINAL_PANEL_ID (Host := soundHost)) /\
  fired (hidePanel (host := soundHost) sample) = [SetPanelHidden].
Proof.
  split; [reflexivity|].
  destruct (hidePanel_only_own_panel (host := soundHost) sample)
    as (_ & _ & Hown & _).
  exact (Hown eq_refl).
Defined.

Lemma showPanel_opens_once_and_defers_focus_witness :
  activePanel (initial sampleConfig None None)
  <> Some (TERMINAL_PANEL_ID (Host := soundHost)) /\
  exists shown,
    showPanel (host := soundHost) true (initial sampleConfig None None)
    = Returns shown (initial sampleConfig None None) [] /\
    opened shown = Some true.
Proof.
  split; [discriminate|].
  destruct (showPanel_opens_once_and_defers_focus (host := soundHost)
              (initial sampleConfig None None) true)
    as (shown & Hshown & _ & Hopened & _).
  exists shown. split; [exact Hshown|]. apply Hopened. discriminate.
Defined.

Lemma getTabForInstance_first_owner_witness :
  (exists p : nat,
     _terminalTabs sample !! p = Some tabC /\
     Instance.mk 5 shellB ∈ Tab.terminalInstances tabC /\
     forall (p' : nat) t, (p' < p)%nat -> _terminalTabs sample !! p' = Some t ->
                          Instance.mk 5 shellB ∉ Tab.terminalInstances t) /\
  _getTabForInstance (_terminalTabs sample) (Instance.mk 5 shellB) = Some tabC /\
  _getTabForInstance (_terminalTabs sample) (Instance.mk 5 shellA) = None.
Proof.
  assert (H : exists p : nat,
            _terminalTabs sample !! p = Some tabC /\
            Instance.mk 5 shellB ∈ Tab.terminalInstances tabC /\
            forall (p' : nat) t, (p' < p)%nat -> _terminalTabs sample !! p' = Some t ->
                                 Instance.mk 5 shellB ∉ Tab.terminalInstances t).
  { exists 2%nat. split; [reflexivity|].
    split; [apply (list_elem_of_lookup_2 _ 1%nat); reflexivity|].
    intros p' t Hlt Ht Hin. destruct p' as [|[|p']]; [| |lia].
    - cbn in Ht. injection Ht as <-. cbn in Hin.
      repeat (apply elem_of_cons in Hin as [Hin|Hin]; [discriminate Hin|]).
      apply elem_of_nil in Hin. destruct Hin.
    - cbn in Ht. injection Ht as <-. cbn in Hin.
      repeat (apply elem_of_cons in Hin as [Hin|Hin]; [discriminate Hin|]).
      apply elem_of_nil in Hin. destruct Hin. }
  split; [exact H|]. split.
  - exact (proj2 (proj1 (getTabForInstance_first_owner (_terminalTabs sample)
                           (Instance.mk 5 shellB)) tabC) H).
  - apply (proj2 (getTabForInstance_first_owner (_terminalTabs sample)
                    (Instance.mk 5 shellA))).
    intros t Ht Hin. cbn in Ht.
    repeat (apply elem_of_cons in Ht as [->|Ht];
            [cbn in Hin;
             repeat (apply elem_of_cons in Hin as [Hin|Hin]; [discriminate Hin|]);
             apply elem_of_nil in Hin; destruct Hin|]).
    apply elem_of_nil in Ht. destruct Ht.
Defined.

(** ** Splitting *)

Section Split.

Context `{host : Host}.

Lemma update_tab_absent (r : nat) (f : Tab.t -> Tab.t) (tabs : list Tab.t) :
  r ∉ Tab.ref <$> tabs -> update_tab r f tabs = tabs.
Proof.
  induction tabs as [|t tabs IH]; intros Hr; [reflexivity|].
  cbn in *. apply not_elem_of_cons in Hr as [Hne Hr].
  destruct (Nat.eqb_spec (Tab.ref t) r); [congruence|]. f_equal. apply IH. exact Hr.
Qed.

Lemma flattened_after_split (r : nat) (new : Instance.t) (tabs : list Tab.t) :
  NoDup (Tab.ref <$> tabs) -> r ∈ Tab.ref <$> tabs ->
  length (concat (map Tab.terminalInstances (update_tab r (Tab.split new) tabs)))
  = S (length (concat (map Tab.terminalInstances tabs))).
Proof.
  induction tabs as [|t tabs IH]; intros Hnodup Hr.
  - apply elem_of_nil in Hr. destruct Hr.
  - cbn [fmap list_fmap] in Hnodup, Hr. apply NoDup_cons in Hnodup as [Hfresh Hnodup].
    cbn [update_tab map concat]. rewrite !length_app.
    destruct (Nat.eqb_spec (Tab.ref t) r) as [Heq|Hne].
    + fold (update_tab r (Tab.split new) tabs).
      rewrite update_tab_absent by (rewrite <- Heq; exact Hfresh).
      cbn. rewrite length_app. cbn. lia.
    + fold (update_tab r (Tab.split new) tabs).
      apply elem_of_cons in Hr as [Hr|Hr]; [congruence|].
      rewrite IH by assumption. lia.
Qed.

(** Property X20.  [splitInstance] of an instance that no tab holds
    does nothing.  Otherwise let [tab] be the first tab that holds the
    instance.  When the factory accepts the launch configuration (an
    empty one when none is given), the new instance is appended to
    [tab] and becomes its active instance; the other tabs, the number
    of tabs and the active tab index stay as they were, and each tab
    is visible or not by whether it is at the active index; the
    listeners of the new instance are set up and "instances changed"
    fires once; and, tabs being distinct objects, there is one tracked
    instance more. *)
Theorem splitInstance_adds_to_owner (s : TerminalService)
    (instance : Instance.t) (shell : Value) :
  ((forall t, t ∈ _terminalTabs s -> instance ∉ Tab.terminalInstances t) ->
   splitInstance instance shell s = Returns tt s []) /\
  (forall (owner : nat) tab,
     _terminalTabs s !! owner = Some tab ->
     instance ∈ Tab.terminalInstances tab ->
     (forall (p : nat) t, (p < owner)%nat -> _terminalTabs s !! p = Some t ->
                          instance ∉ Tab.terminalInstances t) ->
     let config := match shell with JUndefined => JObj [] | _ => shell end in
     let new := Instance.mk (nextInstanceId s) config in
     createInstance config = Created ->
     exists s',
       splitInstance instance shell s
       = Returns tt s' [InstanceListeners (nextInstanceId s); InstancesChanged] /\
       _activeTabIndex s' = _activeTabIndex s /\
       length (_terminalTabs s') = length (_terminalTabs s) /\
       only_visible (_activeTabIndex s) (_terminalTabs s') /\
       (forall (p : nat) t, _terminalTabs s !! p = Some t ->
          exists t', _terminalTabs s' !! p = Some t' /\
                     Tab.ref t' = Tab.ref t /\
                     if Nat.eqb (Tab.ref t) (Tab.ref tab)
                     then Tab.terminalInstances t' = Tab.terminalInstances t ++ [new] /\
                          Tab.activeInstance t' = Some new
                     else Tab.terminalInstances t' = Tab.terminalInstances t /\
                          Tab.activeInstanceIndex t' = Tab.activeInstanceIndex t) /\
       (NoDup (Tab.ref <$> _terminalTabs s) ->
        length (terminalInstances s') = S (length (terminalInstances s)))).
Proof.
  split.
  - intros Hnone. apply getTabForInstance_none in Hnone.
    unfold splitInstance. unfold_m. cbn. rewrite Hnone. reflexivity.
  - intros owner tab Howner Hholds Hfirst config new Hcreated.
    assert (Hsome : _getTabForInstance (_terminalTabs s) instance = Some tab).
    { apply getTabForInstance_some. exists owner. auto. }
    eexists. split.
    { unfold splitInstance, tab_split, newInstance, _initInstanceListeners.
      unfold_m. cbv beta iota zeta. rewrite Hsome. fold config. rewrite Hcreated.
      cbv beta iota. reflexivity. }
    cbn [_activeTabIndex _terminalTabs with_terminalTabs fresh_instance_id
         nextInstanceId].
    split; [reflexivity|]. split.
    { rewrite length_setVisibleOnly, length_update_tab. reflexivity. }
    split.
    { intros k t Ht. unfold setVisibleOnly in Ht. rewrite list_lookup_imap in Ht.
      destruct (update_tab _ _ _ !! k); [|discriminate Ht].
      cbn in Ht. injection Ht as <-. reflexivity. }
    split.
    { intros p t Ht. unfold setVisibleOnly, update_tab.
      rewrite list_lookup_imap, list_lookup_fmap, Ht. cbn [fmap option_fmap option_map].
      eexists. split; [reflexivity|].
      destruct (Nat.eqb (Tab.ref t) (Tab.ref tab)); cbn.
      - split; [reflexivity|]. split; [reflexivity|].
        unfold Tab.activeInstance, JS.arr_get. cbn.
        destruct (Z.ltb_spec (Z.of_nat (length (Tab.terminalInstances t))) 0); [lia|].
        rewrite Nat2Z.id. rewrite lookup_app_r by lia.
        rewrite Nat.sub_diag. reflexivity.
      - repeat split. }
    intros Hnodup. unfold terminalInstances.
    cbn [_terminalTabs with_terminalTabs fresh_instance_id].
    assert (Hflat : forall a tabs,
              concat (map Tab.terminalInstances (setVisibleOnly a tabs))
              = concat (map Tab.terminalInstances tabs)).
    { intros a tabs. f_equal. apply list_eq. intros k.
      unfold setVisibleOnly. rewrite !list_lookup_fmap, list_lookup_imap.
      destruct (tabs !! k); reflexivity. }
    rewrite Hflat. apply flattened_after_split; [exact Hnodup|].
    apply list_elem_of_fmap. exists tab. split; [reflexivity|].
    eapply list_elem_of_lookup_2. exact Howner.
Qed.
End Split.

(** ** What is stored, and what comes back *)

Section Persist.

Context `{host : Host}.

(** Property X21.  What [_onShutdown] stores.  With restoring switched
    on, the stored value is, whether or not a disposal raises, the
    JSON text of one descriptor per tab, in tab order, each listing
    under [instances] the launch configurations of the tab's instances
    in instance order, for the tabs as they were when the method was
    called; a value stored before is overwritten.  With restoring
    switched off the stored value is left as it was. *)
Theorem onShutdown_stores_layout (s : TerminalService) :
  (experimentalRestore (config s) = true ->
   storage (final (_onShutdown s))
   = Some (JSON_stringify (JArr (map descriptor (layout (_terminalTabs s)))))) /\
  (experimentalRestore (config s) = false ->
   storage (final (_onShutdown s)) = storage s).
Proof.
  rewrite onShutdown_unfold, forEach_dispose_state. unfold stored_layout.
  rewrite tabConfigs_descriptors.
  destruct (experimentalRestore (config s)); split; intros H;
    try discriminate H; reflexivity.
Qed.

Lemma restoreTab_skipped (first : Value) (rest : list Value) (s : TerminalService) :
  createInstance first = NoInstance ->
  ensures (restoreTab (descriptor (first :: rest))) s (fun _ s' => s' = s).
Proof.
  intros Hno. unfold restoreTab.
  apply ensures_bind. eapply ensures_lift; [reflexivity|]. cbv beta.
  apply ensures_bind. eapply ensures_lift; [reflexivity|]. cbv beta.
  apply ensures_bind.
  change (JS.or_undefined ((first :: rest) !! 0%nat)) with first.
  unfold ensures at 1. unfold createTerminal, newInstance. rewrite Hno.
  unfold_m. cbv beta iota. reflexivity.
Qed.

Lemma restore_some (configs : list (list Value)) (s : TerminalService) :
  (forall shells, shells ∈ configs ->
     exists first rest,
       shells = first :: rest /\
       (createInstance first = NoInstance \/
        forall c, c ∈ shells -> c <> JUndefined /\ createInstance c = Created)) ->
  bounded (map shape (_terminalTabs s)) (nextTabRef s) (nextInstanceId s) ->
  ensures (forEach (map descriptor configs) restoreTab) s (fun _ s' =>
    layout (_terminalTabs s')
    = layout (_terminalTabs s) ++ List.filter restorable configs).
Proof.
  revert s. induction configs as [|shells configs IH]; intros s Hconfigs Hbounded.
  - apply ensures_ret. cbn. rewrite app_nil_r. reflexivity.
  - cbn [map forEach]. apply ensures_bind.
    destruct (Hconfigs shells) as (first & rest & -> & Hcase); [constructor|].
    assert (Hrest : forall l, l ∈ configs ->
              exists first rest,
                l = first :: rest /\
                (createInstance first = NoInstance \/
                 forall c, c ∈ l -> c <> JUndefined /\ createInstance c = Created)).
    { intros l Hl. apply Hconfigs. constructor. exact Hl. }
    destruct Hcase as [Hno|Hall].
    + eapply ensures_weaken; [exact (restoreTab_skipped first rest s Hno)|].
      intros [] s' ->. cbv beta.
      eapply ensures_weaken; [exact (IH s Hrest Hbounded)|].
      intros [] s'' Hlayout. cbv beta in *. rewrite Hlayout.
      cbn [List.filter restorable]. rewrite Hno. reflexivity.
    + eapply ensures_weaken;
        [exact (restoreTab_descriptor first rest s Hbounded Hall)|].
      intros [] s' (Hshape & Hn & Hr). cbv beta.
      eapply ensures_weaken.
      * apply (IH s' Hrest).
        rewrite Hshape, Hn, Hr. intros o Ho.
        apply elem_of_app in Ho as [Ho|Ho].
        -- destruct (Hbounded o Ho) as [Href Hids]. split; [lia|].
           intros x Hx. specialize (Hids x Hx). lia.
        -- apply list_elem_of_singleton in Ho as ->. cbn [fst snd]. split; [lia|].
           unfold numbered. intros x [j [c [-> Hj]]]%elem_of_lookup_imap. cbn.
           apply lookup_lt_Some in Hj. cbn [length] in Hj. lia.
      * intros [] s'' Hlayout. cbv beta in *. rewrite Hlayout.
        rewrite (layout_shapes (_terminalTabs s')), Hshape, map_app.
        rewrite <- layout_shapes. cbn [map snd]. rewrite shells_numbered.
        cbn [List.filter restorable].
        destruct (Hall first) as [_ ->]; [constructor|].
        rewrite <- app_assoc. reflexivity.
Qed.

(** Property X22.  Restoring a stored layout when the factory gives no
    instance for some tabs and accepts every launch configuration of
    the others.  Each stored tab whose first launch configuration gets
    no instance is skipped, with no error and without its other
    instances being tried; the tabs restored are the others, in stored
    order, after the tabs already there. *)
Theorem restoreTabs_skips_tabs_without_instance (s : TerminalService)
    (text : string) (configs : list (list Value)) :
  experimentalRestore (config s) = true ->
  storage s = Some text -> text <> EmptyString ->
  JSON_parse text = Some (JArr (map descriptor configs)) ->
  bounded (map shape (_terminalTabs s)) (nextTabRef s) (nextInstanceId s) ->
  (forall shells, shells ∈ configs ->
     exists first rest,
       shells = first :: rest /\
       (createInstance first = NoInstance \/
        forall c, c ∈ shells -> c <> JUndefined /\ createInstance c = Created)) ->
  raised (_restoreTabs s) = None /\
  layout (_terminalTabs (final (_restoreTabs s)))
  = layout (_terminalTabs s) ++ List.filter restorable configs.
Proof.
  intros Hon Hstored Htext Hparse Hbounded Hconfigs.
  assert (Hrun : _restoreTabs s = forEach (map descriptor configs) restoreTab s).
  { unfold _restoreTabs. unfold bind at 1. unfold gets at 1. rewrite Hon.
    cbn [negb]. unfold bind at 1. unfold gets at 1. rewrite Hstored.
    apply String.eqb_neq in Htext. rewrite Htext, Hparse.
    destruct (forEach _ restoreTab s); reflexivity. }
  rewrite Hrun.
  pose proof (restore_some configs s Hconfigs Hbounded) as Hall.
  apply ensures_returns in Hall as (Hraised & [] & Hlayout).
  split; [exact Hraised|exact Hlayout].
Qed.
End Persist.

Lemma splitInstance_adds_to_owner_witness :
  _terminalTabs sample !! 1%nat = Some tabB /\
  Instance.mk 3 shellC ∈ Tab.terminalInstances tabB /\
  (exists s',
     splitInstance (host := soundHost) (Instance.mk 3 shellC) shellA sample
     = Returns tt s' [InstanceListeners 7; InstancesChanged] /\
     length (terminalInstances s') = 7%nat) /\
  splitInstance (host := soundHost) (Instance.mk 3 shellA) shellA sample
  = Returns tt sample [].
Proof.
  assert (Hholds : Instance.mk 3 shellC ∈ Tab.terminalInstances tabB)
    by (apply (list_elem_of_lookup_2 _ 0%nat); reflexivity).
  split; [reflexivity|]. split; [exact Hholds|]. split.
  - destruct (proj2 (splitInstance_adds_to_owner (host := soundHost) sample
                       (Instance.mk 3 shellC) shellA) 1%nat tabB eq_refl Hholds)
      as (s' & Hsplit & _ & _ & _ & _ & Hcount); [|reflexivity|].
    + intros p t Hlt Ht Hin. destruct p as [|p]; [|lia].
      cbn in Ht. injection Ht as <-. cbn in Hin.
      repeat (apply elem_of_cons in Hin as [Hin|Hin]; [discriminate Hin|]).
      apply elem_of_nil in Hin. destruct Hin.
    + exists s'. split; [exact Hsplit|]. rewrite Hcount; [reflexivity|].
      repeat (apply NoDup_cons; split;
              [intros Hin; repeat (apply elem_of_cons in Hin as [Hin|Hin];
                                   [discriminate Hin|]);
               apply elem_of_nil in Hin; destruct Hin|]).
      apply NoDup_nil. exact I.
  - apply (proj1 (splitInstance_adds_to_owner (host := soundHost) sample
                    (Instance.mk 3 shellA) shellA)).
    intros t Ht Hin. cbn in Ht.
    repeat (apply elem_of_cons in Ht as [->|Ht];
            [cbn in Hin;
             repeat (apply elem_of_cons in Hin as [Hin|Hin]; [discriminate Hin|]);
             apply elem_of_nil in Hin; destruct Hin|]).
    apply elem_of_nil in Ht. destruct Ht.
Defined.

Lemma onShutdown_stores_layout_witness :
  experimentalRestore (config sample) = true /\
  storage (final (_onShutdown (host := hostWith (fun _ => Created) (Nat.eqb 3))
                    sample))
  = Some (Json.stringify
            (JArr [descriptor [shellA; shellB]; descriptor [shellC];
                   descriptor [shellA; shellB; shellC]])).
Proof.
  split; [reflexivity|].
  exact (proj1 (onShutdown_stores_layout
                  (host := hostWith (fun _ => Created) (Nat.eqb 3)) sample)
           eq_refl).
Defined.

Lemma restoreTabs_skips_tabs_without_instance_witness :
  JSON_parse (Host := hostWith refusesNull (fun _ => false)) storedText
  = Some (JArr (map descriptor storedConfigs)) /\
  layout (_terminalTabs
            (final (_restoreTabs (host := hostWith refusesNull (fun _ => false))
                      (fresh (Some storedText)))))
  = [[shellA; shellB]; [shellC]].
Proof.
  assert (Hparse : JSON_parse (Host := hostWith refusesNull (fun _ => false))
                     storedText
                   = Some (JArr (map descriptor storedConfigs)))
    by (vm_compute; reflexivity).
  split; [exact Hparse|].
  refine (proj2 (restoreTabs_skips_tabs_without_instance
                   (host := hostWith refusesNull (fun _ => false))
                   (fresh (Some storedText)) storedText storedConfigs
                   eq_refl eq_refl _ Hparse _ _)).
  - vm_compute. discriminate.
  - intros o Ho. cbn in Ho. apply elem_of_nil in Ho. destruct Ho.
  - intros shells Hshells. unfold storedConfigs in Hshells.
    apply elem_of_cons in Hshells as [->|Hshells].
    { exists shellA, [shellB]. split; [reflexivity|]. right. intros c Hc.
      apply elem_of_cons in Hc as [->|Hc]; [split; [discriminate|reflexivity]|].
      apply elem_of_cons in Hc as [->|Hc]; [split; [discriminate|reflexivity]|].
      apply elem_of_nil in Hc. destruct Hc. }
    apply elem_of_cons in Hshells as [->|Hshells].
    { exists JNull, [shellA]. split; [reflexivity|]. left. reflexivity. }
    apply elem_of_cons in Hshells as [->|Hshells].
    { exists shellC, []. split; [reflexivity|]. right. intros c Hc.
      apply elem_of_cons in Hc as [->|Hc]; [split; [discriminate|reflexivity]|].
      apply elem_of_nil in Hc. destruct Hc. }
    apply elem_of_nil in Hshells. destruct Hshells.
Defined.
